(** * Behavioral telemetry and sequence-analysis engine

    A shallow embedding of the keystroke timing analyzer, the behavioral
    metrics engine and the behavioral sequence tracker, and the properties
    of their buffers, statistics and configuration.

    Conventions of the embedding.
    - A JavaScript [number] is an exact rational ([Q]): values are finite and
      arithmetic does not round.  Every division of the modelled code is
      either guarded by the source against a zero divisor or has its zero
      case written out.
    - A [Date] is its millisecond count ([Z]); [new Date(x)] truncates [x]
      toward zero.  Time values outside the range of [Date] do not occur.
    - A JavaScript string is a [string]; [charCodeAt] is the character code.
    - The wall clock, the local time zone and the random generator are
      explicit inputs ([World]); each read of the clock or the generator
      consumes one reading.
    - [Math.sqrt] is a parameter of the definitions that call it. *)

From Stdlib Require Import String Ascii DecimalString DecimalPos DecimalZ.
From Stdlib Require Import ZArith QArith List Bool Lia Lqa.
Import ListNotations.

Local Open Scope string_scope.
Local Open Scope list_scope.
Local Open Scope Q_scope.

(** ** JavaScript primitives *)

Module JS.

(** Comparison of numbers. *)
Definition ltb (x y : Q) : bool := negb (Qle_bool y x).
Definition gtb (x y : Q) : bool := ltb y x.
Definition geb (x y : Q) : bool := Qle_bool y x.

(** [Math.max], [Math.abs]. *)
Definition max (x y : Q) : Q := if ltb x y then y else x.
Definition abs (x : Q) : Q := if ltb x 0 then - x else x.

(** [array.length] as a number. *)
Definition len {A : Type} (l : list A) : Q := inject_Z (Z.of_nat (length l)).

(** [array.shift()]: drops the first element. *)
Definition shift {A : Type} (l : list A) : list A := tl l.

(** [array.push(x)]. *)
Definition push {A : Type} (l : list A) (x : A) : list A := l ++ [x].

(** Index normalisation of [slice]: a negative index counts from the end,
    and the result is clamped to [0, length]. *)
Definition sliceIndex (n : nat) (i : Z) : nat :=
  if (i <? 0)%Z then Z.to_nat (Z.max (Z.of_nat n + i) 0)
  else Nat.min (Z.to_nat i) n.

(** [array.slice(start, end)]. *)
Definition slice {A : Type} (l : list A) (s e : Z) : list A :=
  let from := sliceIndex (length l) s in
  let to := sliceIndex (length l) e in
  firstn (to - from) (skipn from l).

(** [array.slice(start)]. *)
Definition sliceFrom {A : Type} (l : list A) (s : Z) : list A :=
  skipn (sliceIndex (length l) s) l.

(** [array.reduce((sum, v) => sum + v, 0)]. *)
Definition sum (l : list Q) : Q := fold_left Qplus l 0.

(** [Math.pow(x, 2)]. *)
Definition sq (x : Q) : Q := x * x.

(** [Math.floor(n / 2)] for an array length [n]. *)
Definition half (n : nat) : Z := (Z.of_nat n / 2)%Z.

(** [new Date(x).getTime()]: the time value is truncated toward zero. *)
Definition newDate (x : Q) : Z := Z.quot (Qnum x) (Zpos (Qden x)).

(** Decimal rendering of an integer-valued number in a template literal. *)
Definition decimal (z : Z) : string := NilZero.string_of_int (Z.to_int z).

(** [s.includes(t)]. *)
Fixpoint includes (s t : string) : bool :=
  String.prefix t s ||
  match s with
  | EmptyString => false
  | String _ rest => includes rest t
  end.

(** [v || d] on an optional string: absent and empty values are falsy. *)
Definition orElse (v : option string) (d : string) : string :=
  match v with
  | Some s => if String.eqb s "" then d else s
  | None => d
  end.

(** Truthiness of an optional string. *)
Definition truthy (v : option string) : bool :=
  match v with
  | Some s => negb (String.eqb s "")
  | None => false
  end.

(** [v || d] on an optional number: absent and zero values are falsy. *)
Definition numOrElse (v : option Q) (d : Q) : Q :=
  match v with
  | Some q => if Qeq_bool q 0 then d else q
  | None => d
  end.

(** [ToInt32]: wrap-around to a signed 32-bit integer. *)
Definition toInt32 (z : Z) : Z := ((z + 2 ^ 31) mod 2 ^ 32 - 2 ^ 31)%Z.

(** [x << n] and [x & y] on numbers holding integers. *)
Definition shl (x n : Z) : Z := toInt32 (Z.shiftl (toInt32 x) n).
Definition band (x y : Z) : Z := toInt32 (Z.land (toInt32 x) (toInt32 y)).

End JS.

(** ** Shared interfaces *)

Module Interfaces.

Inductive ActionType :=
| KEYSTROKE | MOUSE_CLICK | MOUSE_MOVE
| CODE_EDIT | FILE_SWITCH | CONTEXT_SWITCH.

(** The string value of each enum member. *)
Definition actionTypeValue (t : ActionType) : string :=
  match t with
  | KEYSTROKE => "keystroke"
  | MOUSE_CLICK => "mouse_click"
  | MOUSE_MOVE => "mouse_move"
  | CODE_EDIT => "code_edit"
  | FILE_SWITCH => "file_switch"
  | CONTEXT_SWITCH => "context_switch"
  end.

Definition actionTypeEqb (a b : ActionType) : bool :=
  String.eqb (actionTypeValue a) (actionTypeValue b).

Record Modifiers := {
  ctrl : option bool;
  shift : option bool;
  alt : option bool
}.

(** The metadata keys the engine and the tracker read; each may be absent.
    String-valued keys hold strings. *)
Record Metadata := {
  hashedKey : option string;
  eventType : option string;
  modifiers : option Modifiers;
  fileName : option string;
  to : option string;
  reason : option string;
  context : option string
}.

Record BehavioralAction := {
  type : ActionType;
  timestamp : Q;
  duration : Q;
  metadata : Metadata
}.

Record ContextSnapshot := {
  fileType : string;
  projectContext : string;
  timeOfDay : Z;
  sessionDuration : Q
}.

Record BehavioralMetrics := {
  typingSpeed : Q;
  pausePatterns : list Q;
  decisionTime : Q;
  contextSwitches : Q;
  fatigueLevel : Q
}.

End Interfaces.

(** ** Keystroke timing analyzer *)

Module Keystroke.

Record KeystrokeEvent := {
  key : string;
  timestamp : Q;
  type : string;
  ctrlKey : bool;
  shiftKey : bool;
  altKey : bool
}.

Record TimingPattern := {
  averageInterval : Q;
  variance : Q;
  rhythm : list Q;
  pauseCount : nat;
  burstCount : nat
}.

(** The analyzer's two buffers. *)
Record Analyzer := {
  keyEvents : list KeystrokeEvent;
  timingBuffer : list Q
}.

Definition bufferSize : nat := 100.
Definition pauseThreshold : Q := 1000.
Definition burstThreshold : Q := 100.

Definition empty : Analyzer := {| keyEvents := []; timingBuffer := [] |}.

(** One round of the hashing loop: [hash = ((hash << 5) - hash) + char;
    hash = hash & hash]. *)
Definition hashStep (hash : Z) (c : ascii) : Z :=
  let char := Z.of_N (N_of_ascii c) in
  let hash := (JS.shl hash 5 - hash + char)%Z in
  JS.band hash hash.

Fixpoint hashLoop (key : string) (hash : Z) : Z :=
  match key with
  | EmptyString => hash
  | String c rest => hashLoop rest (hashStep hash c)
  end.

Definition hashKey (key : string) : string :=
  ("key_" ++ JS.decimal (Z.abs (hashLoop key 0)))%string.

(** [{ ...event, key: this.hashKey(event.key) }]. *)
Definition hashedEvent (event : KeystrokeEvent) : KeystrokeEvent :=
  {| key := hashKey (key event); timestamp := timestamp event;
     type := type event; ctrlKey := ctrlKey event;
     shiftKey := shiftKey event; altKey := altKey event |}.

Definition processKeystroke (event : KeystrokeEvent) (a : Analyzer)
  : Analyzer :=
  let pushed := JS.push (keyEvents a) (hashedEvent event) in
  let events :=
    if (bufferSize <? length pushed)%nat then JS.shift pushed else pushed in
  if (1 <? length events)%nat then
    (* [events] has two elements or more here: the index is in range *)
    match nth_error events (length events - 2) with
    | Some previous =>
        let interval := timestamp event - timestamp previous in
        let timing := JS.push (timingBuffer a) interval in
        {| keyEvents := events;
           timingBuffer :=
             if (bufferSize <? length timing)%nat then JS.shift timing
             else timing |}
    | None => {| keyEvents := events; timingBuffer := timingBuffer a |}
    end
  else {| keyEvents := events; timingBuffer := timingBuffer a |}.

Definition calculateMean (values : list Q) : Q :=
  JS.sum values / JS.len values.

Definition calculateVariance (values : list Q) (mean : Q) : Q :=
  let squaredDiffs := map (fun val => JS.sq (val - mean)) values in
  calculateMean squaredDiffs.

(** The loop [for (i = 0; i <= intervals.length - windowSize; i++)]; the
    fuel bounds the number of rounds. *)
Fixpoint rhythmLoop (fuel : nat) (intervals : list Q) (i : Z) (rhythm : list Q)
  : list Q :=
  match fuel with
  | O => rhythm
  | S fuel' =>
      if (i <=? Z.of_nat (length intervals) - 5)%Z then
        let window := JS.slice intervals i (i + 5) in
        rhythmLoop fuel' intervals (i + 1)%Z
                   (JS.push rhythm (calculateMean window))
      else rhythm
  end.

Definition calculateRhythm (intervals : list Q) : list Q :=
  rhythmLoop (S (length intervals)) intervals 0%Z [].

Definition countPauses (intervals : list Q) : nat :=
  length (filter (fun interval => JS.gtb interval pauseThreshold) intervals).

Definition countBursts (intervals : list Q) : nat :=
  length (filter (fun interval => JS.ltb interval burstThreshold) intervals).

Definition getDefaultPattern : TimingPattern :=
  {| averageInterval := 0; variance := 0; rhythm := [];
     pauseCount := 0; burstCount := 0 |}.

Definition extractTimingPatterns (a : Analyzer) : TimingPattern :=
  if (length (timingBuffer a) <? 2)%nat then getDefaultPattern
  else
    let intervals := timingBuffer a in
    let averageInterval := calculateMean intervals in
    let variance := calculateVariance intervals averageInterval in
    {| averageInterval := averageInterval;
       variance := variance;
       rhythm := calculateRhythm intervals;
       pauseCount := countPauses intervals;
       burstCount := countBursts intervals |}.

Definition calculateTypingSpeed (a : Analyzer) : Q :=
  if (length (keyEvents a) <? 2)%nat then 0
  else
    match nth_error (keyEvents a) (length (keyEvents a) - 1),
          nth_error (keyEvents a) 0 with
    | Some final, Some first =>
        let timeSpan := timestamp final - timestamp first in
        let minutes := timeSpan / (1000 * 60) in
        let keystrokes := JS.len (keyEvents a) in
        if JS.gtb minutes 0 then (keystrokes / 5) / minutes else 0
    | _, _ => 0
    end.

Definition analyzePausePatterns (a : Analyzer) : list Q :=
  let pauses := filter (fun interval => JS.gtb interval pauseThreshold)
                       (timingBuffer a) in
  let shortPauses := JS.len (filter (fun p => JS.ltb p 2000) pauses) in
  let mediumPauses :=
    JS.len (filter (fun p => JS.geb p 2000 && JS.ltb p 5000) pauses) in
  let longPauses := JS.len (filter (fun p => JS.geb p 5000) pauses) in
  [shortPauses; mediumPauses; longPauses].

Definition calculateDecisionTime (a : Analyzer) : Q :=
  let pauses := filter (fun interval => JS.gtb interval pauseThreshold)
                       (timingBuffer a) in
  if (0 <? length pauses)%nat then calculateMean pauses else 0.

(** [fatigueIndicators] is [None] when the source's quotient is infinite
    (a positive mean over a zero mean). *)
Record KeystrokeMetrics := {
  typingSpeed : Q;
  pausePatterns : list Q;
  decisionTime : Q;
  rhythmConsistency : Q;
  fatigueIndicators : option Q
}.

Definition detectFatigueIndicators (pattern : TimingPattern) : option Q :=
  let recentRhythm := JS.sliceFrom (rhythm pattern) (-10) in
  let earlyRhythm := JS.slice (rhythm pattern) 0 10 in
  if (length recentRhythm =? 0)%nat || (length earlyRhythm =? 0)%nat
  then Some 0
  else
    let recentMean := calculateMean recentRhythm in
    let earlyMean := calculateMean earlyRhythm in
    if JS.gtb recentMean earlyMean then
      if Qeq_bool earlyMean 0 then None
      else Some ((recentMean - earlyMean) / earlyMean)
    else Some 0.

Section WithSqrt.

Variable Math_sqrt : Q -> Q.

Definition calculateRhythmConsistency (pattern : TimingPattern) : Q :=
  if (length (rhythm pattern) <? 2)%nat then 0
  else
    let mean := calculateMean (rhythm pattern) in
    let variance := calculateVariance (rhythm pattern) mean in
    let stdDev := Math_sqrt variance in
    if JS.gtb mean 0 then 1 - stdDev / mean else 0.

Definition analyzeStatistics (a : Analyzer) : KeystrokeMetrics :=
  let pattern := extractTimingPatterns a in
  {| typingSpeed := calculateTypingSpeed a;
     pausePatterns := analyzePausePatterns a;
     decisionTime := calculateDecisionTime a;
     rhythmConsistency := calculateRhythmConsistency pattern;
     fatigueIndicators := detectFatigueIndicators pattern |}.

End WithSqrt.

Definition toBehavioralActions (a : Analyzer)
  : list Interfaces.BehavioralAction :=
  map (fun event =>
         {| Interfaces.type := Interfaces.KEYSTROKE;
            Interfaces.timestamp := timestamp event;
            Interfaces.duration := 0;
            Interfaces.metadata :=
              {| Interfaces.hashedKey := Some (key event);
                 Interfaces.eventType := Some (type event);
                 Interfaces.modifiers :=
                   Some {| Interfaces.ctrl := Some (ctrlKey event);
                           Interfaces.shift := Some (shiftKey event);
                           Interfaces.alt := Some (altKey event) |};
                 Interfaces.fileName := None; Interfaces.to := None;
                 Interfaces.reason := None; Interfaces.context := None |} |})
      (keyEvents a).

Definition clearData (a : Analyzer) : Analyzer := empty.

End Keystroke.

(** ** The environment: wall clock and random generator *)

Module Env.

(** [clock] lists the successive readings of [Date.now()] / [new Date()],
    [random] the successive renderings [Math.random().toString(36)];
    [localHours] is the local hour of a time value. *)
Record World := {
  clock : nat -> Z;
  reads : nat;
  random : nat -> string;
  draws : nat;
  localHours : Z -> Z
}.

Definition IO (A : Type) : Type := World -> A * World.

Definition ret {A : Type} (a : A) : IO A := fun w => (a, w).

Definition bind {A B : Type} (m : IO A) (k : A -> IO B) : IO B :=
  fun w => let (a, w') := m w in k a w'.

Definition dateNow : IO Z :=
  fun w => (clock w (reads w),
            {| clock := clock w; reads := S (reads w);
               random := random w; draws := draws w;
               localHours := localHours w |}).

Definition randomBase36 : IO string :=
  fun w => (random w (draws w),
            {| clock := clock w; reads := reads w;
               random := random w; draws := S (draws w);
               localHours := localHours w |}).

(** [date.getHours()]. *)
Definition getHours (date : Z) : IO Z := fun w => (localHours w date, w).

End Env.

Notation "x <- m ;; k" := (Env.bind m (fun x => k))
  (at level 61, m at next level, right associativity).

(** ** Behavioral metrics engine *)

Module Engine.

Import Interfaces.

Record TemporalMetrics := {
  timestamp : Z;
  metrics : BehavioralMetrics;
  sessionId : string;
  duration : Q
}.

Record FatigueIndicators := {
  typingSpeedDecline : Q;
  increasedPauseFrequency : Q;
  rhythmInconsistency : Q;
  overallFatigueScore : Q
}.

(** [patterns] is a [Map]: keys in insertion order. *)
Record PatternStorage := {
  userId : string;
  patterns : list (string * list TemporalMetrics);
  currentSession : string;
  sessionStartTime : Z
}.

Record Engine := {
  keystrokeAnalyzer : Keystroke.Analyzer;
  patternStorage : PatternStorage;
  metricsHistory : list TemporalMetrics
}.

(** The result of [getSessionStatistics]; [stat_sessionId] and
    [stat_duration] are its fields [sessionId] and [duration]. *)
Record SessionStatistics := {
  stat_sessionId : string;
  stat_duration : Q;
  metricsCount : nat;
  averageTypingSpeed : Q;
  totalContextSwitches : Q;
  fatigueProgression : Q
}.

Definition maxHistorySize : nat := 1000.
Definition sessionTimeoutMs : Q := 30 * 60 * 1000.
Definition fatigueWindowSize : nat := 10.

Definition generateSessionId : Env.IO string :=
  now <- Env.dateNow ;;
  r <- Env.randomBase36 ;;
  Env.ret
    ("session_" ++ JS.decimal now ++ "_" ++ String.substring 2 9 r)%string.

Definition getSessionDuration (e : Engine) : Env.IO Q :=
  now <- Env.dateNow ;;
  Env.ret (inject_Z (now - sessionStartTime (patternStorage e))).

Definition constructor (userId : string) : Env.IO Engine :=
  session <- generateSessionId ;;
  start <- Env.dateNow ;;
  Env.ret {| keystrokeAnalyzer := Keystroke.empty;
             patternStorage :=
               {| userId := userId; patterns := [];
                  currentSession := session; sessionStartTime := start |};
             metricsHistory := [] |}.

Definition startNewSession (e : Engine) : Env.IO Engine :=
  session <- generateSessionId ;;
  start <- Env.dateNow ;;
  Env.ret {| keystrokeAnalyzer := Keystroke.clearData (keystrokeAnalyzer e);
             patternStorage :=
               {| userId := userId (patternStorage e);
                  patterns := patterns (patternStorage e);
                  currentSession := session; sessionStartTime := start |};
             metricsHistory := metricsHistory e |}.

Definition calculateAverageTypingSpeed (ms : list TemporalMetrics) : Q :=
  if (length ms =? 0)%nat then 0
  else JS.sum (map (fun m => typingSpeed (metrics m)) ms) / JS.len ms.

Definition calculateAveragePauseFrequency (ms : list TemporalMetrics) : Q :=
  if (length ms =? 0)%nat then 0
  else
    let totalPauses :=
      JS.sum (map (fun m => JS.sum (pausePatterns (metrics m))) ms) in
    totalPauses / JS.len ms.

Definition getDefaultFatigueIndicators : FatigueIndicators :=
  {| typingSpeedDecline := 0; increasedPauseFrequency := 0;
     rhythmInconsistency := 0; overallFatigueScore := 0 |}.

Definition calculateFatigueProgression (sessionMetrics : list TemporalMetrics)
  : Q :=
  if (length sessionMetrics <? 2)%nat then 0
  else
    let firstHalf :=
      JS.slice sessionMetrics 0 (JS.half (length sessionMetrics)) in
    let secondHalf :=
      JS.sliceFrom sessionMetrics (JS.half (length sessionMetrics)) in
    let firstHalfAvgSpeed := calculateAverageTypingSpeed firstHalf in
    let secondHalfAvgSpeed := calculateAverageTypingSpeed secondHalf in
    if JS.gtb firstHalfAvgSpeed 0
    then JS.max 0 ((firstHalfAvgSpeed - secondHalfAvgSpeed) / firstHalfAvgSpeed)
    else 0.

Definition countContextSwitches (actions : list BehavioralAction) : Q :=
  JS.len (filter (fun action => actionTypeEqb (type action) CONTEXT_SWITCH)
                 actions).

Section WithSqrt.

Variable Math_sqrt : Q -> Q.

Definition calculateAverageRhythmConsistency (ms : list TemporalMetrics) : Q :=
  if (length ms =? 0)%nat then 0
  else
    let decisionTimes := map (fun m => decisionTime (metrics m)) ms in
    let mean := JS.sum decisionTimes / JS.len decisionTimes in
    let variance :=
      JS.sum (map (fun dt => JS.sq (dt - mean)) decisionTimes)
      / JS.len decisionTimes in
    let stdDev := Math_sqrt variance in
    if JS.gtb mean 0 then 1 - stdDev / mean else 0.

Definition detectFatigue (e : Engine) : FatigueIndicators :=
  let history := metricsHistory e in
  if (length history <? fatigueWindowSize)%nat
  then getDefaultFatigueIndicators
  else
    let window := Z.of_nat fatigueWindowSize in
    let recentMetrics := JS.sliceFrom history (- window) in
    let earlierMetrics :=
      JS.slice history (Z.max 0 (Z.of_nat (length history) - window * 2))
               (- window) in
    if (length earlierMetrics =? 0)%nat then getDefaultFatigueIndicators
    else
      let recentAvgSpeed := calculateAverageTypingSpeed recentMetrics in
      let earlierAvgSpeed := calculateAverageTypingSpeed earlierMetrics in
      let recentAvgPauses := calculateAveragePauseFrequency recentMetrics in
      let earlierAvgPauses := calculateAveragePauseFrequency earlierMetrics in
      let recentRhythmConsistency :=
        calculateAverageRhythmConsistency recentMetrics in
      let earlierRhythmConsistency :=
        calculateAverageRhythmConsistency earlierMetrics in
      let typingSpeedDecline :=
        if JS.gtb earlierAvgSpeed 0
        then JS.max 0 ((earlierAvgSpeed - recentAvgSpeed) / earlierAvgSpeed)
        else 0 in
      let increasedPauseFrequency :=
        if JS.gtb earlierAvgPauses 0
        then JS.max 0 ((recentAvgPauses - earlierAvgPauses) / earlierAvgPauses)
        else 0 in
      let rhythmInconsistency :=
        if JS.gtb earlierRhythmConsistency 0
        then JS.max 0 ((earlierRhythmConsistency - recentRhythmConsistency)
                       / earlierRhythmConsistency)
        else 0 in
      let overallFatigueScore :=
        (typingSpeedDecline + increasedPauseFrequency + rhythmInconsistency)
        / 3 in
      {| typingSpeedDecline := typingSpeedDecline;
         increasedPauseFrequency := increasedPauseFrequency;
         rhythmInconsistency := rhythmInconsistency;
         overallFatigueScore := overallFatigueScore |}.

Definition calculateFatigueLevel (km : Keystroke.KeystrokeMetrics) (e : Engine)
  : Q :=
  let fatigueIndicators := detectFatigue e in
  overallFatigueScore fatigueIndicators.

Definition storeMetrics (m : BehavioralMetrics) (e : Engine) : Env.IO Engine :=
  stamp <- Env.dateNow ;;
  elapsed <- getSessionDuration e ;;
  let temporalMetrics :=
    {| timestamp := stamp; metrics := m;
       sessionId := currentSession (patternStorage e);
       duration := elapsed |} in
  let pushed := JS.push (metricsHistory e) temporalMetrics in
  let history :=
    if (maxHistorySize <? length pushed)%nat then JS.shift pushed else pushed in
  let e' := {| keystrokeAnalyzer := keystrokeAnalyzer e;
               patternStorage := patternStorage e;
               metricsHistory := history |} in
  elapsed' <- getSessionDuration e' ;;
  if JS.gtb elapsed' sessionTimeoutMs then startNewSession e' else Env.ret e'.

(** The [KeystrokeEvent] built from a keystroke action's metadata. *)
Definition keystrokeOf (action : BehavioralAction) (hashed : string)
  : Keystroke.KeystrokeEvent :=
  let flag (pick : Modifiers -> option bool) :=
    match modifiers (metadata action) with
    | Some m => match pick m with Some b => b | None => false end
    | None => false
    end in
  {| Keystroke.key := hashed;
     Keystroke.timestamp := Interfaces.timestamp action;
     Keystroke.type := JS.orElse (eventType (metadata action)) "keydown";
     Keystroke.ctrlKey := flag ctrl;
     Keystroke.shiftKey := flag shift;
     Keystroke.altKey := flag alt |}.

Definition calculateMetrics (actions : list BehavioralAction) (e : Engine)
  : Env.IO (BehavioralMetrics * Engine) :=
  let keystrokeActions :=
    filter (fun action => actionTypeEqb (type action) KEYSTROKE) actions in
  let contextSwitches := countContextSwitches actions in
  let analyzer :=
    fold_left
      (fun an action =>
         match hashedKey (metadata action) with
         | Some k =>
             if String.eqb k "" then an
             else Keystroke.processKeystroke (keystrokeOf action k) an
         | None => an
         end)
      keystrokeActions (keystrokeAnalyzer e) in
  let e1 := {| keystrokeAnalyzer := analyzer;
               patternStorage := patternStorage e;
               metricsHistory := metricsHistory e |} in
  let keystrokeMetrics := Keystroke.analyzeStatistics Math_sqrt analyzer in
  let fatigueLevel := calculateFatigueLevel keystrokeMetrics e1 in
  let m := {| typingSpeed := Keystroke.typingSpeed keystrokeMetrics;
              pausePatterns := Keystroke.pausePatterns keystrokeMetrics;
              decisionTime := Keystroke.decisionTime keystrokeMetrics;
              contextSwitches := contextSwitches;
              fatigueLevel := fatigueLevel |} in
  e2 <- storeMetrics m e1 ;;
  Env.ret (m, e2).

End WithSqrt.

(** [patterns.get(pattern)] after the [has]/[set] initialisation, followed by
    the [push] and the size limit. *)
Fixpoint appendPattern (pattern : string) (tm : TemporalMetrics)
  (ps : list (string * list TemporalMetrics))
  : list (string * list TemporalMetrics) :=
  match ps with
  | [] => [(pattern, [tm])]
  | (k, history) :: rest =>
      if String.eqb k pattern then
        let pushed := JS.push history tm in
        (k, if (maxHistorySize <? length pushed)%nat then JS.shift pushed
            else pushed) :: rest
      else (k, history) :: appendPattern pattern tm rest
  end.

Definition storePattern (pattern : string) (m : BehavioralMetrics) (e : Engine)
  : Env.IO Engine :=
  stamp <- Env.dateNow ;;
  elapsed <- getSessionDuration e ;;
  let temporalMetrics :=
    {| timestamp := stamp; metrics := m;
       sessionId := currentSession (patternStorage e);
       duration := elapsed |} in
  Env.ret {| keystrokeAnalyzer := keystrokeAnalyzer e;
             patternStorage :=
               {| userId := userId (patternStorage e);
                  patterns := appendPattern pattern temporalMetrics
                                (patterns (patternStorage e));
                  currentSession := currentSession (patternStorage e);
                  sessionStartTime := sessionStartTime (patternStorage e) |};
             metricsHistory := metricsHistory e |}.

(** [patterns.get(pattern) || []]. *)
Fixpoint patternHistory (pattern : string)
  (ps : list (string * list TemporalMetrics)) : list TemporalMetrics :=
  match ps with
  | [] => []
  | (k, history) :: rest =>
      if String.eqb k pattern then history else patternHistory pattern rest
  end.

Definition getPatternsByTimeRange (pattern : string) (startTime endTime : Z)
  (e : Engine) : list TemporalMetrics :=
  filter (fun m => (startTime <=? timestamp m)%Z && (timestamp m <=? endTime)%Z)
         (patternHistory pattern (patterns (patternStorage e))).

(** The entries of the pattern index restricted to the current session;
    patterns without such an entry are dropped. *)
Definition getCurrentSessionPatterns (e : Engine)
  : list (string * list TemporalMetrics) :=
  flat_map
    (fun entry =>
       let sessionMetrics :=
         filter (fun m => String.eqb (sessionId m)
                                     (currentSession (patternStorage e)))
                (snd entry) in
       if (0 <? length sessionMetrics)%nat then [(fst entry, sessionMetrics)]
       else [])
    (patterns (patternStorage e)).

(** [getMetricsHistory(limit)]: an absent or zero limit is falsy. *)
Definition getMetricsHistory (limit : option Z) (e : Engine)
  : list TemporalMetrics :=
  match limit with
  | Some n => if (n =? 0)%Z then metricsHistory e
              else JS.sliceFrom (metricsHistory e) (- n)
  | None => metricsHistory e
  end.

Definition getSessionStatistics (e : Engine) : Env.IO SessionStatistics :=
  let sessionMetrics :=
    filter (fun m => String.eqb (sessionId m)
                                (currentSession (patternStorage e)))
           (metricsHistory e) in
  let averageTypingSpeed :=
    if (0 <? length sessionMetrics)%nat
    then JS.sum (map (fun m => typingSpeed (metrics m)) sessionMetrics)
         / JS.len sessionMetrics
    else 0 in
  let totalContextSwitches :=
    JS.sum (map (fun m => contextSwitches (metrics m)) sessionMetrics) in
  let fatigueProgression := calculateFatigueProgression sessionMetrics in
  elapsed <- getSessionDuration e ;;
  Env.ret {| stat_sessionId := currentSession (patternStorage e);
             stat_duration := elapsed;
             metricsCount := length sessionMetrics;
             averageTypingSpeed := averageTypingSpeed;
             totalContextSwitches := totalContextSwitches;
             fatigueProgression := fatigueProgression |}.

Definition clearAllData (e : Engine) : Env.IO Engine :=
  startNewSession
    {| keystrokeAnalyzer := Keystroke.clearData (keystrokeAnalyzer e);
       patternStorage :=
         {| userId := userId (patternStorage e);
            patterns := [];
            currentSession := currentSession (patternStorage e);
            sessionStartTime := sessionStartTime (patternStorage e) |};
       metricsHistory := [] |}.

End Engine.

(** ** Behavioral sequence tracker *)

Module Tracker.

Import Interfaces.

Record SequenceConfig := {
  bufferSize : Q;
  contextSwitchThreshold : Q;
  focusLossThreshold : Q;
  patternChangeThreshold : Q
}.

(** [Partial<SequenceConfig>]: [None] is an absent key. *)
Record PartialConfig := {
  optBufferSize : option Q;
  optContextSwitchThreshold : option Q;
  optFocusLossThreshold : option Q;
  optPatternChangeThreshold : option Q
}.

Definition noOverride : PartialConfig :=
  {| optBufferSize := None; optContextSwitchThreshold := None;
     optFocusLossThreshold := None; optPatternChangeThreshold := None |}.

(** A completed window of actions. *)
Record ActionSequence := {
  id : string;
  actions : list BehavioralAction;
  startTime : Z;
  endTime : Z;
  context : ContextSnapshot;
  patterns : list string
}.

(** The source's fields [timestamp], [fromContext], [toContext], [duration]
    and [reason]. *)
Record ContextSwitch := {
  switchTimestamp : Z;
  fromContext : string;
  toContext : string;
  switchDuration : Q;
  switchReason : string
}.

(** The source's fields [startTime], [endTime], [duration], [context] and
    [activityLevel]. *)
Record FocusSegment := {
  segmentStart : Z;
  segmentEnd : Z;
  segmentDuration : Q;
  segmentContext : string;
  activityLevel : Q
}.

Inductive ChangeType := gradual | sudden | cyclical.

(** [eventTimestamp] is the source's field [timestamp]. *)
Record PatternChangeEvent := {
  eventTimestamp : Z;
  previousPattern : string;
  newPattern : string;
  confidence : Q;
  changeType : ChangeType;
  statisticalSignificance : Q
}.

(** The tracker's fields; [patternHistory] is only ever cleared and is left
    out. *)
Record Tracker := {
  config : SequenceConfig;
  actionBuffer : list BehavioralAction;
  sequences : list ActionSequence;
  contextSwitches : list ContextSwitch;
  currentContext : string;
  lastActivityTime : Z;
  focusSegments : list FocusSegment;
  currentFocusSegment : option FocusSegment;
  sequenceIdCounter : Z
}.

(** [focusSessionId] and [focusSegmentsOf] are the source's fields
    [sessionId] and [focusSegments]. *)
Record FocusPattern := {
  focusSessionId : string;
  focusSegmentsOf : list FocusSegment;
  totalFocusTime : Q;
  averageFocusSegment : Q;
  interruptionCount : nat
}.

Record ContextSwitchStatistics := {
  totalSwitches : nat;
  averageSwitchDuration : Q;
  mostFrequentReason : string;
  switchesPerHour : Q;
  contexts : list string
}.

Definition maxSequences : nat := 100.
Definition maxContextSwitches : nat := 500.

(** Field updates. *)
Definition withConfig (c : SequenceConfig) (t : Tracker) : Tracker :=
  {| config := c; actionBuffer := actionBuffer t; sequences := sequences t;
     contextSwitches := contextSwitches t; currentContext := currentContext t;
     lastActivityTime := lastActivityTime t; focusSegments := focusSegments t;
     currentFocusSegment := currentFocusSegment t;
     sequenceIdCounter := sequenceIdCounter t |}.

Definition withActionBuffer (b : list BehavioralAction) (t : Tracker)
  : Tracker :=
  {| config := config t; actionBuffer := b; sequences := sequences t;
     contextSwitches := contextSwitches t; currentContext := currentContext t;
     lastActivityTime := lastActivityTime t; focusSegments := focusSegments t;
     currentFocusSegment := currentFocusSegment t;
     sequenceIdCounter := sequenceIdCounter t |}.

Definition withSequences (s : list ActionSequence) (counter : Z) (t : Tracker)
  : Tracker :=
  {| config := config t; actionBuffer := actionBuffer t; sequences := s;
     contextSwitches := contextSwitches t; currentContext := currentContext t;
     lastActivityTime := lastActivityTime t; focusSegments := focusSegments t;
     currentFocusSegment := currentFocusSegment t;
     sequenceIdCounter := counter |}.

Definition withContextSwitches (s : list ContextSwitch) (t : Tracker)
  : Tracker :=
  {| config := config t; actionBuffer := actionBuffer t;
     sequences := sequences t; contextSwitches := s;
     currentContext := currentContext t;
     lastActivityTime := lastActivityTime t; focusSegments := focusSegments t;
     currentFocusSegment := currentFocusSegment t;
     sequenceIdCounter := sequenceIdCounter t |}.

Definition withCurrentContext (c : string) (t : Tracker) : Tracker :=
  {| config := config t; actionBuffer := actionBuffer t;
     sequences := sequences t; contextSwitches := contextSwitches t;
     currentContext := c;
     lastActivityTime := lastActivityTime t; focusSegments := focusSegments t;
     currentFocusSegment := currentFocusSegment t;
     sequenceIdCounter := sequenceIdCounter t |}.

Definition withLastActivityTime (d : Z) (t : Tracker) : Tracker :=
  {| config := config t; actionBuffer := actionBuffer t;
     sequences := sequences t; contextSwitches := contextSwitches t;
     currentContext := currentContext t;
     lastActivityTime := d; focusSegments := focusSegments t;
     currentFocusSegment := currentFocusSegment t;
     sequenceIdCounter := sequenceIdCounter t |}.

Definition withFocus (segments : list FocusSegment)
  (current : option FocusSegment) (t : Tracker) : Tracker :=
  {| config := config t; actionBuffer := actionBuffer t;
     sequences := sequences t; contextSwitches := contextSwitches t;
     currentContext := currentContext t;
     lastActivityTime := lastActivityTime t; focusSegments := segments;
     currentFocusSegment := current;
     sequenceIdCounter := sequenceIdCounter t |}.

Definition defaultBufferSize : Q := 50.
Definition defaultContextSwitchThreshold : Q := 2000.
Definition defaultFocusLossThreshold : Q := 30000.
Definition defaultPatternChangeThreshold : Q := 5 # 100.

Definition constructorConfig (override : PartialConfig) : SequenceConfig :=
  {| bufferSize := JS.numOrElse (optBufferSize override) defaultBufferSize;
     contextSwitchThreshold :=
       JS.numOrElse (optContextSwitchThreshold override)
                    defaultContextSwitchThreshold;
     focusLossThreshold :=
       JS.numOrElse (optFocusLossThreshold override) defaultFocusLossThreshold;
     patternChangeThreshold :=
       JS.numOrElse (optPatternChangeThreshold override)
                    defaultPatternChangeThreshold |}.

(** A tracker whose [lastActivityTime] initialiser read [now]. *)
Definition fresh (c : SequenceConfig) (now : Z) : Tracker :=
  {| config := c; actionBuffer := []; sequences := []; contextSwitches := [];
     currentContext := ""; lastActivityTime := now; focusSegments := [];
     currentFocusSegment := None; sequenceIdCounter := 0 |}.

Definition constructor (override : PartialConfig) : Env.IO Tracker :=
  now <- Env.dateNow ;;
  Env.ret (fresh (constructorConfig override) now).

(** [{ ...this.config, ...newConfig }]. *)
Definition spread (old : Q) (new : option Q) : Q :=
  match new with Some v => v | None => old end.

Definition updateConfig (newConfig : PartialConfig) (t : Tracker) : Tracker :=
  withConfig
    {| bufferSize := spread (bufferSize (config t)) (optBufferSize newConfig);
       contextSwitchThreshold :=
         spread (contextSwitchThreshold (config t))
                (optContextSwitchThreshold newConfig);
       focusLossThreshold :=
         spread (focusLossThreshold (config t))
                (optFocusLossThreshold newConfig);
       patternChangeThreshold :=
         spread (patternChangeThreshold (config t))
                (optPatternChangeThreshold newConfig) |} t.

Definition getConfig (t : Tracker) : SequenceConfig := config t.

Definition clearData (t : Tracker) : Env.IO Tracker :=
  now <- Env.dateNow ;;
  Env.ret (fresh (config t) now).

Definition getCurrentBuffer (t : Tracker) : list BehavioralAction :=
  actionBuffer t.

Definition getRecentSequences (count : Z) (t : Tracker) : list ActionSequence :=
  JS.sliceFrom (sequences t) (- count).

Definition getSequencesByTimeRange (from until : Z) (t : Tracker)
  : list ActionSequence :=
  filter (fun s => (from <=? startTime s)%Z && (endTime s <=? until)%Z)
         (sequences t).

Definition getContextSwitchesByTimeRange (from until : Z) (t : Tracker)
  : list ContextSwitch :=
  filter (fun cs => (from <=? switchTimestamp cs)%Z
                    && (switchTimestamp cs <=? until)%Z)
         (contextSwitches t).

Definition countInterruptions (segments : list FocusSegment) : nat :=
  if (length segments =? 0)%nat then 0%nat
  else
    let averageDuration :=
      JS.sum (map segmentDuration segments) / JS.len segments in
    length (filter (fun seg => JS.ltb (segmentDuration seg)
                                      (averageDuration / 2))
                   segments).

Definition getDefaultFocusPattern (sessionId : string) : FocusPattern :=
  {| focusSessionId := sessionId; focusSegmentsOf := [];
     totalFocusTime := 0; averageFocusSegment := 0;
     interruptionCount := 0 |}.

Definition analyzeFocusPatterns (sessionId : string) (t : Tracker)
  : FocusPattern :=
  let sessionSegments :=
    filter (fun segment => JS.includes (segmentContext segment) sessionId
                           || String.eqb sessionId "all")
           (focusSegments t) in
  if (length sessionSegments =? 0)%nat then getDefaultFocusPattern sessionId
  else
    let total := JS.sum (map segmentDuration sessionSegments) in
    {| focusSessionId := sessionId;
       focusSegmentsOf := sessionSegments;
       totalFocusTime := total;
       averageFocusSegment := total / JS.len sessionSegments;
       interruptionCount := countInterruptions sessionSegments |}.

(** *** Context-switch detection *)

(** The [switch] on the action type in [detectContextSwitch]: the candidate
    context, or [None] for the kinds that return early. *)
Definition candidateContext (action : BehavioralAction) : option string :=
  match type action with
  | FILE_SWITCH => Some (JS.orElse (fileName (metadata action)) "unknown_file")
  | CONTEXT_SWITCH => Some (JS.orElse (to (metadata action)) "unknown_context")
  | KEYSTROKE | CODE_EDIT => None
  | _ => Some (JS.orElse (Interfaces.context (metadata action))
                         "default_context")
  end.

Definition determineContextSwitchReason (action : BehavioralAction)
  (t : Tracker) : string :=
  match type action with
  | FILE_SWITCH => "file_switch"
  | CONTEXT_SWITCH => JS.orElse (reason (metadata action)) "manual"
  | _ =>
      let timeSinceLastActivity :=
        timestamp action - inject_Z (lastActivityTime t) in
      if JS.gtb timeSinceLastActivity (focusLossThreshold (config t))
      then "focus_loss" else "manual"
  end.

Definition startNewFocusSegment (stamp : Q) (ctx : string) (t : Tracker)
  : Tracker :=
  withFocus (focusSegments t)
    (Some {| segmentStart := JS.newDate stamp; segmentEnd := JS.newDate stamp;
             segmentDuration := 0; segmentContext := ctx;
             activityLevel := 0 |}) t.

Definition endCurrentFocusSegment (stamp : Q) (t : Tracker) : Tracker :=
  match currentFocusSegment t with
  | Some segment =>
      let closed :=
        {| segmentStart := segmentStart segment;
           segmentEnd := JS.newDate stamp;
           segmentDuration := stamp - inject_Z (segmentStart segment);
           segmentContext := segmentContext segment;
           activityLevel := activityLevel segment |} in
      withFocus (JS.push (focusSegments t) closed) None t
  | None => t
  end.

Definition detectContextSwitch (action : BehavioralAction) (t : Tracker)
  : Tracker :=
  match candidateContext action with
  | None => t
  | Some newContext =>
      if String.eqb (currentContext t) "" then
        startNewFocusSegment (timestamp action) newContext
          (withCurrentContext newContext t)
      else if negb (String.eqb newContext (currentContext t)) then
        let contextSwitch :=
          {| switchTimestamp := JS.newDate (timestamp action);
             fromContext := currentContext t;
             toContext := newContext;
             switchDuration := duration action;
             switchReason := determineContextSwitchReason action t |} in
        let pushed := JS.push (contextSwitches t) contextSwitch in
        let t1 :=
          withContextSwitches
            (if (maxContextSwitches <? length pushed)%nat then JS.shift pushed
             else pushed) t in
        let t2 := endCurrentFocusSegment (timestamp action) t1 in
        let t3 := withCurrentContext newContext t2 in
        startNewFocusSegment (timestamp action) newContext t3
      else t
  end.

(** *** Focus tracking *)

Definition calculateActivityLevel (t : Tracker) : Q :=
  let recentActions := JS.sliceFrom (actionBuffer t) (-10) in
  let timeSpan :=
    if (1 <? length recentActions)%nat then
      match nth_error recentActions (length recentActions - 1),
            nth_error recentActions 0 with
      | Some final, Some first => timestamp final - timestamp first
      | _, _ => 1
      end
    else 1 in
  if JS.gtb timeSpan 0 then JS.len recentActions / (timeSpan / 1000) else 0.

Definition updateFocusTracking (action : BehavioralAction) (t : Tracker)
  : Tracker :=
  let now := JS.newDate (timestamp action) in
  match currentFocusSegment t with
  | Some segment =>
      let updated :=
        {| segmentStart := segmentStart segment;
           segmentEnd := now;
           segmentDuration := inject_Z (now - segmentStart segment);
           segmentContext := segmentContext segment;
           activityLevel := calculateActivityLevel t |} in
      let t1 := withFocus (focusSegments t) (Some updated) t in
      let timeSinceLastActivity := inject_Z (now - lastActivityTime t) in
      if JS.gtb timeSinceLastActivity (focusLossThreshold (config t))
      then endCurrentFocusSegment (timestamp action) t1
      else t1
  | None => t
  end.

(** *** Sequence completion and labelling *)

Definition findActionTypePattern (actionTypes : list ActionType)
  : option string :=
  let typeSequence := String.concat "," (map actionTypeValue actionTypes) in
  if JS.includes typeSequence "keystroke,keystroke,keystroke"
  then Some "continuous_typing"
  else if JS.includes typeSequence "context_switch,keystroke"
  then Some "switch_and_type"
  else if JS.includes typeSequence "file_switch,code_edit"
  then Some "file_navigation"
  else None.

(** The intervals [a[i].timestamp - a[i-1].timestamp] for [i] from 1. *)
Fixpoint intervalsOf (acts : list BehavioralAction) : list Q :=
  match acts with
  | previous :: (current :: _) as rest =>
      (timestamp current - timestamp previous) :: intervalsOf rest
  | _ => []
  end.

Definition findTimingPattern (acts : list BehavioralAction) : option string :=
  if (length acts <? 3)%nat then None
  else
    let intervals := intervalsOf acts in
    let avgInterval := JS.sum intervals / JS.len intervals in
    if JS.ltb avgInterval 200 then Some "rapid_sequence"
    else if JS.gtb avgInterval 2000 then Some "deliberate_sequence"
    else Some "normal_sequence".

Definition findContextPattern (acts : list BehavioralAction) : option string :=
  let contexts :=
    map (fun a => JS.orElse (Interfaces.context (metadata a)) "")
        (filter (fun a => JS.truthy (Interfaces.context (metadata a))) acts) in
  let uniqueContexts := nodup string_dec contexts in
  if (length uniqueContexts =? 1)%nat then Some "single_context"
  else if JS.gtb (JS.len uniqueContexts) (JS.len acts / 2)
  then Some "context_heavy"
  else Some "mixed_context".

Definition extractSequencePatterns (acts : list BehavioralAction)
  : list string :=
  let pushIf (found : option string) (labels : list string) :=
    match found with Some label => JS.push labels label | None => labels end in
  let labels := pushIf (findActionTypePattern (map type acts)) [] in
  let labels := pushIf (findTimingPattern acts) labels in
  pushIf (findContextPattern acts) labels.

(** [s.split('.').pop()]: what follows the last dot; [segment] collects
    the characters read since the last dot. *)
Fixpoint lastSegment (s segment : string) : string :=
  match s with
  | EmptyString => segment
  | String c rest =>
      if Ascii.eqb c "."%char then lastSegment rest ""
      else lastSegment rest (segment ++ String c "")%string
  end.

(** The second operand of [Date.now() - (start || Date.now())] reads the
    clock again when no focus segment is stored or the first one started at
    time 0. *)
Definition createContextSnapshot (t : Tracker) : Env.IO ContextSnapshot :=
  today <- Env.dateNow ;;
  hours <- Env.getHours today ;;
  now <- Env.dateNow ;;
  started <-
    match nth_error (focusSegments t) 0 with
    | Some segment =>
        if (segmentStart segment =? 0)%Z then Env.dateNow
        else Env.ret (segmentStart segment)
    | None => Env.dateNow
    end ;;
  Env.ret {| fileType :=
               JS.orElse (Some (lastSegment (currentContext t) "")) "unknown";
             projectContext := currentContext t;
             timeOfDay := hours;
             sessionDuration := inject_Z (now - started) |}.

Definition completeCurrentSequence (t : Tracker) : Env.IO Tracker :=
  match nth_error (actionBuffer t) 0,
        nth_error (actionBuffer t) (length (actionBuffer t) - 1) with
  | Some first, Some final =>
      let counter := (sequenceIdCounter t + 1)%Z in
      snapshot <- createContextSnapshot t ;;
      let sequence :=
        {| id := ("seq_" ++ JS.decimal counter)%string;
           actions := actionBuffer t;
           startTime := JS.newDate (timestamp first);
           endTime := JS.newDate (timestamp final);
           context := snapshot;
           patterns := extractSequencePatterns (actionBuffer t) |} in
      let pushed := JS.push (sequences t) sequence in
      let t1 :=
        withSequences
          (if (maxSequences <? length pushed)%nat then JS.shift pushed
           else pushed) counter t in
      Env.ret (withActionBuffer [] t1)
  | _, _ => Env.ret t
  end.

Definition checkSequenceCompletion (t : Tracker) : Env.IO Tracker :=
  if JS.geb (JS.len (actionBuffer t)) (bufferSize (config t))
  then completeCurrentSequence t
  else Env.ret t.

Definition recordAction (action : BehavioralAction) (t : Tracker)
  : Env.IO Tracker :=
  let t1 := withActionBuffer (JS.push (actionBuffer t) action) t in
  let t2 := withLastActivityTime (JS.newDate (timestamp action)) t1 in
  let t3 :=
    if JS.gtb (JS.len (actionBuffer t2)) (bufferSize (config t2))
    then withActionBuffer (JS.shift (actionBuffer t2)) t2
    else t2 in
  let t4 := detectContextSwitch action t3 in
  let t5 := updateFocusTracking action t4 in
  checkSequenceCompletion t5.

(** *** Context-switch statistics *)

(** [reasonCounts.set(r, (reasonCounts.get(r) || 0) + 1)] on a [Map] in
    insertion order. *)
Fixpoint bump (r : string) (counts : list (string * Q)) : list (string * Q) :=
  match counts with
  | [] => [(r, 0 + 1)]
  | (k, n) :: rest =>
      if String.eqb k r then (k, n + 1) :: rest else (k, n) :: bump r rest
  end.

(** [contexts.add(c)] on a [Set] in insertion order. *)
Definition setAdd (c : string) (s : list string) : list string :=
  if existsb (String.eqb c) s then s else JS.push s c.

Definition getContextSwitchStatistics (t : Tracker) : ContextSwitchStatistics :=
  let switches := contextSwitches t in
  if (length switches =? 0)%nat then
    {| totalSwitches := 0; averageSwitchDuration := 0;
       mostFrequentReason := "none"; switchesPerHour := 0; contexts := [] |}
  else
    let total := length switches in
    let averageDuration :=
      JS.sum (map switchDuration switches) / JS.len switches in
    let reasonCounts :=
      fold_left (fun counts cs => bump (switchReason cs) counts) switches [] in
    let ctxs :=
      fold_left (fun s cs => setAdd (toContext cs) (setAdd (fromContext cs) s))
                switches [] in
    let most :=
      fst (fold_left
             (fun best entry =>
                if JS.gtb (snd entry) (snd best) then entry else best)
             reasonCounts ("none"%string, 0)) in
    let timeSpan :=
      if (1 <? length switches)%nat then
        match nth_error switches (length switches - 1),
              nth_error switches 0 with
        | Some final, Some first =>
            inject_Z (switchTimestamp final - switchTimestamp first)
        | _, _ => 0
        end
      else 0 in
    let hours := timeSpan / (1000 * 60 * 60) in
    let perHour := if JS.gtb hours 0 then JS.len switches / hours else 0 in
    {| totalSwitches := total; averageSwitchDuration := averageDuration;
       mostFrequentReason := most; switchesPerHour := perHour;
       contexts := ctxs |}.

(** *** Pattern-change detection *)

Definition calculateTypingRhythm (sequence : ActionSequence) : Q :=
  let keystrokeActions :=
    filter (fun a => actionTypeEqb (type a) KEYSTROKE) (actions sequence) in
  if (length keystrokeActions <? 2)%nat then 0
  else
    let intervals := intervalsOf keystrokeActions in
    JS.sum intervals / JS.len intervals.

Definition calculateContextSwitchingRate (sequence : ActionSequence) : Q :=
  let switches :=
    filter (fun a => actionTypeEqb (type a) CONTEXT_SWITCH) (actions sequence) in
  let span := inject_Z (endTime sequence - startTime sequence) in
  if JS.gtb span 0 then (JS.len switches / span) * 60000 else 0.

Definition extractPatternMetric (sequence : ActionSequence)
  (patternType : string) : Q :=
  if String.eqb patternType "typing_rhythm"
  then calculateTypingRhythm sequence
  else if String.eqb patternType "context_switching"
  then calculateContextSwitchingRate sequence
  else if String.eqb patternType "focus_duration"
  then inject_Z (endTime sequence - startTime sequence)
  else 0.

Definition calculatePValue (tStat : Q) (degreesOfFreedom : Q) : Q :=
  let absTStat := JS.abs tStat in
  if JS.gtb absTStat (2576 # 1000) then 1 # 100
  else if JS.gtb absTStat (196 # 100) then 5 # 100
  else if JS.gtb absTStat (1645 # 1000) then 10 # 100
  else 5 # 10.

(** [Math.abs((mean2 - mean1) / mean1)] compared with 0.5 and 0.2.  A zero
    [mean1] makes the quotient infinite (every [>] holds) when the means
    differ, and undefined (no [>] holds) when [mean2] is zero too. *)
Definition determineChangeType (firstHalf secondHalf : list Q) : ChangeType :=
  let mean1 := JS.sum firstHalf / JS.len firstHalf in
  let mean2 := JS.sum secondHalf / JS.len secondHalf in
  if Qeq_bool mean1 0 then
    if Qeq_bool (mean2 - mean1) 0 then cyclical else sudden
  else
    let percentChange := JS.abs ((mean2 - mean1) / mean1) in
    if JS.gtb percentChange (5 # 10) then sudden
    else if JS.gtb percentChange (2 # 10) then gradual
    else cyclical.

Section WithSqrt.

Variable Math_sqrt : Q -> Q.

(** Called on the two halves of at least five values: every divisor below is
    positive. *)
Definition performTTest (group1 group2 : list Q) : Q :=
  let mean1 := JS.sum group1 / JS.len group1 in
  let mean2 := JS.sum group2 / JS.len group2 in
  let var1 :=
    JS.sum (map (fun val => JS.sq (val - mean1)) group1) / (JS.len group1 - 1) in
  let var2 :=
    JS.sum (map (fun val => JS.sq (val - mean2)) group2) / (JS.len group2 - 1) in
  let pooledVar :=
    ((JS.len group1 - 1) * var1 + (JS.len group2 - 1) * var2)
    / (JS.len group1 + JS.len group2 - 2) in
  let standardError :=
    Math_sqrt (pooledVar * (1 / JS.len group1 + 1 / JS.len group2)) in
  if JS.gtb standardError 0 then (mean1 - mean2) / standardError else 0.

Definition detectPatternChange (patternType : string)
  (seqs : list ActionSequence) (t : Tracker)
  : Env.IO (option PatternChangeEvent) :=
  let values := map (fun s => extractPatternMetric s patternType) seqs in
  if (length values <? 5)%nat then Env.ret None
  else
    let firstHalf := JS.slice values 0 (JS.half (length values)) in
    let secondHalf := JS.sliceFrom values (JS.half (length values)) in
    let tStat := performTTest firstHalf secondHalf in
    let pValue := calculatePValue tStat (JS.len values - 2) in
    if JS.ltb pValue (patternChangeThreshold (config t)) then
      now <- Env.dateNow ;;
      Env.ret (Some {| eventTimestamp := now;
                       previousPattern := (patternType ++ "_old")%string;
                       newPattern := (patternType ++ "_new")%string;
                       confidence := 1 - pValue;
                       changeType := determineChangeType firstHalf secondHalf;
                       statisticalSignificance := pValue |})
    else Env.ret None.

(** The loop over the pattern types, pushing each detected change. *)
Fixpoint forEachPatternType (patternTypes : list string)
  (recent : list ActionSequence) (t : Tracker)
  (changes : list PatternChangeEvent) : Env.IO (list PatternChangeEvent) :=
  match patternTypes with
  | [] => Env.ret changes
  | patternType :: rest =>
      change <- detectPatternChange patternType recent t ;;
      forEachPatternType rest recent t
        (match change with
         | Some ev => JS.push changes ev
         | None => changes
         end)
  end.

Definition detectPatternChanges (t : Tracker)
  : Env.IO (list PatternChangeEvent) :=
  let changes := [] in
  let recentSequences := JS.sliceFrom (sequences t) (-10) in
  if (length recentSequences <? 5)%nat then Env.ret changes
  else
    forEachPatternType
      ["typing_rhythm"; "context_switching"; "focus_duration"]%string
      recentSequences t changes.

End WithSqrt.

End Tracker.

(** ** Reference definitions

    The quantities the specification names, written from its wording; the
    theorems below compare them with the code's computations. *)

Module Spec.

(** The sum of a list of numbers. *)
Definition total (l : list Q) : Q := fold_right Qplus 0 l.

(** The arithmetic mean. *)
Definition mean (l : list Q) : Q := total l / inject_Z (Z.of_nat (length l)).

(** The population variance: the mean squared deviation from the mean. *)
Definition populationVariance (l : list Q) : Q :=
  mean (map (fun x => (x - mean l) ^ 2) l).

(** The means of all the windows of [w] consecutive elements, in order. *)
Fixpoint movingAverages (w : nat) (l : list Q) : list Q :=
  match l with
  | [] => []
  | _ :: rest =>
      if (w <=? length l)%nat then mean (firstn w l) :: movingAverages w rest
      else []
  end.

(** How many elements lie strictly above, or strictly below, a bound. *)
Definition countAbove (bound : Q) (l : list Q) : nat :=
  length (filter (fun x => if Qlt_le_dec bound x then true else false) l).

Definition countBelow (bound : Q) (l : list Q) : nat :=
  length (filter (fun x => if Qlt_le_dec x bound then true else false) l).

(** The last [n] elements of a list (all of them when it is shorter). *)
Definition lastn {A : Type} (n : nat) (l : list A) : list A :=
  skipn (length l - n) l.

(** The gaps between successive timestamps. *)
Fixpoint gaps (stamps : list Q) : list Q :=
  match stamps with
  | previous :: (current :: _) as rest => (current - previous) :: gaps rest
  | _ => []
  end.

(** How many labels of a stream differ from the label before them, the
    stream starting in context [current]. *)
Fixpoint changes (current : string) (labels : list string) : nat :=
  match labels with
  | [] => 0
  | label :: rest =>
      ((if String.eqb label current then 0 else 1) + changes label rest)%nat
  end.

(** The first label establishes the context; later labels may change it. *)
Definition switchesOf (labels : list string) : nat :=
  match labels with
  | [] => 0%nat
  | first :: rest => changes first rest
  end.

(** The characters a privacy token is made of. *)
Definition tokenAlphabet : list ascii :=
  list_ascii_of_string "key_0123456789".

(** What every emitted event satisfies, for a tracker [t]. *)
Definition wellFormedEvent (t : Tracker.Tracker) (ev : Tracker.PatternChangeEvent)
  : Prop :=
  In (Tracker.statisticalSignificance ev) [1 # 100; 5 # 100; 10 # 100; 5 # 10] /\
  Tracker.statisticalSignificance ev
  < Tracker.patternChangeThreshold (Tracker.config t) /\
  Tracker.confidence ev = 1 - Tracker.statisticalSignificance ev /\
  0 <= Tracker.confidence ev <= 1.

(** The four fields of a configuration, each with the key of a partial
    override that sets it and its default. *)
Definition configFields
  : list ((Tracker.SequenceConfig -> Q) * (Tracker.PartialConfig -> option Q) * Q) :=
  [ (Tracker.bufferSize, Tracker.optBufferSize, Tracker.defaultBufferSize);
    (Tracker.contextSwitchThreshold, Tracker.optContextSwitchThreshold,
     Tracker.defaultContextSwitchThreshold);
    (Tracker.focusLossThreshold, Tracker.optFocusLossThreshold,
     Tracker.defaultFocusLossThreshold);
    (Tracker.patternChangeThreshold, Tracker.optPatternChangeThreshold,
     Tracker.defaultPatternChangeThreshold) ].

(** All four fields are positive. *)
Definition positiveConfig (c : Tracker.SequenceConfig) : Prop :=
  Forall (fun field => 0 < fst (fst field) c) configFields.

(** Every value a partial override supplies satisfies [P]. *)
Definition supplied (P : Q -> Prop) (override : Tracker.PartialConfig) : Prop :=
  Forall (fun field => forall v, snd (fst field) override = Some v -> P v)
         configFields.

(** The session id built from a clock reading and a rendered random draw. *)
Definition sessionIdOf (now : Z) (draw : string) : string :=
  "session_" ++ JS.decimal now ++ "_" ++ String.substring 2 9 draw.

End Spec.

(** ** Runs of calls *)

Module Run.

(** The analyzer after a stream of [processKeystroke] calls. *)
Definition keystrokes (events : list Keystroke.KeystrokeEvent)
  (a : Keystroke.Analyzer) : Keystroke.Analyzer :=
  fold_left (fun a event => Keystroke.processKeystroke event a) events a.

(** A stream of [recordAction] calls. *)
Fixpoint actions (acts : list Interfaces.BehavioralAction)
  (t : Tracker.Tracker) : Env.IO Tracker.Tracker :=
  match acts with
  | [] => Env.ret t
  | action :: rest =>
      t' <- Tracker.recordAction action t ;;
      actions rest t'
  end.

(** The candidate context labels of a stream of actions, in order. *)
Definition labels (acts : list Interfaces.BehavioralAction) : list string :=
  flat_map (fun action =>
              match Tracker.candidateContext action with
              | Some label => [label]
              | None => []
              end) acts.

(** The buffer after the push and the eviction of [recordAction]. *)
Definition evicted (action : Interfaces.BehavioralAction) (t : Tracker.Tracker)
  : list Interfaces.BehavioralAction :=
  let pushed := JS.push (Tracker.actionBuffer t) action in
  if JS.gtb (JS.len pushed) (Tracker.bufferSize (Tracker.config t))
  then JS.shift pushed else pushed.

(** The sequence history after one more completed sequence. *)
Definition appended (s : Tracker.ActionSequence) (l : list Tracker.ActionSequence)
  : list Tracker.ActionSequence :=
  if (Tracker.maxSequences <? length (JS.push l s))%nat
  then JS.shift (JS.push l s) else JS.push l s.

(** The context-switch history after one more recorded switch. *)
Definition recorded (cs : Tracker.ContextSwitch) (l : list Tracker.ContextSwitch)
  : list Tracker.ContextSwitch :=
  if (Tracker.maxContextSwitches <? length (JS.push l cs))%nat
  then JS.shift (JS.push l cs) else JS.push l cs.

(** The number of switches a stream of labels causes when the tracker is
    in context [current] (empty when no context is established yet). *)
Definition switchesFrom (current : string) (labels : list string) : nat :=
  if String.eqb current "" then Spec.switchesOf labels
  else Spec.changes current labels.

End Run.

(** ** Sample inputs *)

Module Scenario.

Import Interfaces.

(** A square root by integer root extraction, exact on the squares of
    multiples of 2^-32. *)
Definition sqrtFloor (q : Q) : Q :=
  inject_Z (Z.sqrt (Qnum q * 4 ^ 32 / Zpos (Qden q))) / inject_Z (2 ^ 32).

(** A world whose clock stands at 1000 ms and whose random draws, after the
    first, differ from it from their tenth digit on. *)
Definition world : Env.World :=
  {| Env.clock := fun _ => 1000%Z; Env.reads := 0;
     Env.random :=
       fun n => match n with O => "0.4fzyo82mvyr" | S _ => "0.4fzyo82mvk3" end;
     Env.draws := 0;
     Env.localHours := fun date => ((date / 3600000) mod 24)%Z |}.

Definition keystrokeAt (stamp : Q) : BehavioralAction :=
  {| type := KEYSTROKE; timestamp := stamp; duration := 0;
     metadata :=
       {| hashedKey := Some "key_1"; eventType := Some "keydown";
          modifiers := None; fileName := None; to := None; reason := None;
          context := None |} |}.

Definition switchTo (stamp : Q) (target why : string) : BehavioralAction :=
  {| type := CONTEXT_SWITCH; timestamp := stamp; duration := 100;
     metadata :=
       {| hashedKey := None; eventType := None; modifiers := None;
          fileName := None; to := Some target; reason := Some why;
          context := None |} |}.

(** One [calculateMetrics] call on an engine and its world. *)
Definition call (acts : list BehavioralAction) (s : Engine.Engine * Env.World)
  : Engine.Engine * Env.World :=
  let '(_, e, w) := Engine.calculateMetrics sqrtFloor acts (fst s) (snd s) in
  (e, w).

(** A new engine, then a first call with two keystrokes 1500 ms apart and
    [n] further calls with one keystroke each, again 1500 ms apart. *)
Definition slowTyping (n : nat) : Engine.Engine * Env.World :=
  fold_left (fun s acts => call acts s)
    ([keystrokeAt 0; keystrokeAt 1500]
       :: map (fun k => [keystrokeAt (inject_Z (1500 * Z.of_nat k))]) (seq 2 n))
    (Engine.constructor "user" world).

(** Six raw key events: gaps of 50, 50, 1400, 200 and 100 ms. *)
Definition keyEventAt (stamp : Q) : Keystroke.KeystrokeEvent :=
  {| Keystroke.key := "a"; Keystroke.timestamp := stamp;
     Keystroke.type := "keydown"; Keystroke.ctrlKey := false;
     Keystroke.shiftKey := false; Keystroke.altKey := false |}.

Definition typed : Keystroke.Analyzer :=
  Run.keystrokes (map keyEventAt [0; 50; 100; 1500; 1700; 1800])
                 Keystroke.empty.

Definition override (size : Q) : Tracker.PartialConfig :=
  {| Tracker.optBufferSize := Some size;
     Tracker.optContextSwitchThreshold := None;
     Tracker.optFocusLossThreshold := None;
     Tracker.optPatternChangeThreshold := None |}.

(** Eighteen keystrokes cut into six sequences of three: quick in the first
    three sequences, slow in the last three. *)
Definition stamps : list Q :=
  [0; 100; 200; 300; 410; 500; 600; 700; 820;
   10000; 11000; 12000; 20000; 21010; 22000; 30000; 31000; 32030].

Definition sixSequences : Tracker.Tracker :=
  fst (Run.actions (map keystrokeAt stamps)
         (Tracker.fresh (Tracker.constructorConfig (override 3)) 0) world).

(** A world whose clock stands at 2000 ms. *)
Definition laterWorld : Env.World :=
  {| Env.clock := fun _ => 2000%Z; Env.reads := 0;
     Env.random := fun _ => "0.4fzyo82mvyr"; Env.draws := 0;
     Env.localHours := fun date => ((date / 3600000) mod 24)%Z |}.

(** Three explicit context switches: to file2.ts, terminal and file1.ts. *)
Definition threeSwitches : list BehavioralAction :=
  [switchTo 0 "file2.ts" "file_switch"; switchTo 1000 "terminal" "manual";
   switchTo 2000 "file1.ts" "file_switch"].

(** A new tracker with a buffer of three actions. *)
Definition smallTracker : Tracker.Tracker :=
  Tracker.fresh (Tracker.constructorConfig (override 3)) 0.

End Scenario.

(** ** Further reference definitions and sample inputs *)

Module Ref.

(** The polynomial [31^n * h + s[0] * 31^(n-1) + ... + s[n-1]] over the
    integers, without wrap-around. *)
Fixpoint polyHash (key : string) (h : Z) : Z :=
  match key with
  | EmptyString => h
  | String c rest => polyHash rest (31 * h + Z.of_N (N_of_ascii c))%Z
  end.

(** The analyzer after the [forEach] of [calculateMetrics]. *)
Definition fed (actions : list Interfaces.BehavioralAction)
  (an : Keystroke.Analyzer) : Keystroke.Analyzer :=
  fold_left
    (fun an action =>
       match Interfaces.hashedKey (Interfaces.metadata action) with
       | Some k =>
           if String.eqb k "" then an
           else Keystroke.processKeystroke (Engine.keystrokeOf action k) an
       | None => an
       end)
    (filter (fun action =>
               Interfaces.actionTypeEqb (Interfaces.type action)
                                        Interfaces.KEYSTROKE) actions)
    an.

(** Every buffered event has a key and an event type. *)
Definition complete (a : Keystroke.Analyzer) : bool :=
  forallb (fun ev => negb (String.eqb (Keystroke.key ev) "")
                     && negb (String.eqb (Keystroke.type ev) ""))
          (Keystroke.keyEvents a).

End Ref.

Module Log.

Import Interfaces.

(** The entry [storeMetrics] and [storePattern] build in world [w]: the
    first clock reading stamps it, the second gives the session duration. *)
Definition entry (m : BehavioralMetrics) (e : Engine.Engine) (w : Env.World)
  : Engine.TemporalMetrics :=
  {| Engine.timestamp := Env.clock w (Env.reads w);
     Engine.metrics := m;
     Engine.sessionId := Engine.currentSession (Engine.patternStorage e);
     Engine.duration :=
       inject_Z (Env.clock w (S (Env.reads w))
                 - Engine.sessionStartTime (Engine.patternStorage e)) |}.

(** A history after one more entry and the size limit. *)
Definition kept (tm : Engine.TemporalMetrics)
  (history : list Engine.TemporalMetrics) : list Engine.TemporalMetrics :=
  if (Engine.maxHistorySize <? length (JS.push history tm))%nat
  then JS.shift (JS.push history tm) else JS.push history tm.

(** A stream of [calculateMetrics] calls, one per batch of actions. *)
Fixpoint calls (Math_sqrt : Q -> Q) (batches : list (list BehavioralAction))
  (e : Engine.Engine) : Env.IO Engine.Engine :=
  match batches with
  | [] => Env.ret e
  | batch :: rest =>
      r <- Engine.calculateMetrics Math_sqrt batch e ;;
      calls Math_sqrt rest (snd r)
  end.

(** A new engine followed by a stream of [calculateMetrics] calls. *)
Definition session (Math_sqrt : Q -> Q) (userId : string)
  (batches : list (list BehavioralAction)) : Env.IO Engine.Engine :=
  e <- Engine.constructor userId ;;
  calls Math_sqrt batches e.

(** The ranges of the fields of a computed [BehavioralMetrics]. *)
Definition plausible (m : BehavioralMetrics) : Prop :=
  0 <= typingSpeed m /\
  length (pausePatterns m) = 3%nat /\
  Forall (fun n => 0 <= n) (pausePatterns m) /\
  (decisionTime m = 0 \/ 1000 < decisionTime m) /\
  0 <= contextSwitches m /\
  0 <= fatigueLevel m.

(** Every stored typing speed is at least 0. *)
Definition speedsNonneg (history : list Engine.TemporalMetrics) : bool :=
  forallb (fun tm => Qle_bool 0 (typingSpeed (Engine.metrics tm))) history.

End Log.

Module Sample.

(** A world whose clock reads 0 twice and 2 000 000 ms from then on. *)
Definition jumpingWorld : Env.World :=
  {| Env.clock := fun n => if (n <? 2)%nat then 0%Z else 2000000%Z;
     Env.reads := 0;
     Env.random := fun _ => "0.4fzyo82mvyr"; Env.draws := 0;
     Env.localHours := fun date => ((date / 3600000) mod 24)%Z |}.

(** Sample metrics. *)
Definition someMetrics : Interfaces.BehavioralMetrics :=
  {| Interfaces.typingSpeed := 40; Interfaces.pausePatterns := [1; 0; 0];
     Interfaces.decisionTime := 1400; Interfaces.contextSwitches := 0;
     Interfaces.fatigueLevel := 0 |}.

(** A new engine with one entry stored under the pattern "other". *)
Definition indexed : Engine.Engine * Env.World :=
  let (e, w) := Engine.constructor "user" Scenario.world in
  Engine.storePattern "other" someMetrics e w.

End Sample.

Module Steps.

Import Interfaces.

(** The tracker after the push, the activity stamp and the eviction of
    [recordAction]. *)
Definition arrived (action : BehavioralAction) (t : Tracker.Tracker)
  : Tracker.Tracker :=
  let t1 :=
    Tracker.withActionBuffer (JS.push (Tracker.actionBuffer t) action) t in
  let t2 := Tracker.withLastActivityTime (JS.newDate (timestamp action)) t1 in
  if JS.gtb (JS.len (Tracker.actionBuffer t2))
            (Tracker.bufferSize (Tracker.config t2))
  then Tracker.withActionBuffer (JS.shift (Tracker.actionBuffer t2)) t2
  else t2.

(** The reason of a switch for which no focus loss is detected. *)
Definition plainReason (action : BehavioralAction) : string :=
  match type action with
  | FILE_SWITCH => "file_switch"
  | CONTEXT_SWITCH => JS.orElse (reason (metadata action)) "manual"
  | _ => "manual"
  end.

(** Once a context is established, a focus segment of that context is
    open. *)
Definition focused (t : Tracker.Tracker) : Prop :=
  Tracker.currentContext t <> "" ->
  exists segment,
    Tracker.currentFocusSegment t = Some segment /\
    Tracker.segmentContext segment = Tracker.currentContext t.

(** The id of the [k]-th completed sequence. *)
Definition sequenceId (k : nat) : string :=
  ("seq_" ++ JS.decimal (Z.of_nat k))%string.

(** A mouse click in a given context. *)
Definition clickIn (stamp : Q) (ctx : string) : BehavioralAction :=
  {| type := MOUSE_CLICK; timestamp := stamp; duration := 0;
     metadata :=
       {| hashedKey := None; eventType := None; modifiers := None;
          fileName := None; to := None; reason := None;
          context := Some ctx |} |}.

(** A tracker with the default configuration and four buffered
    keystrokes. *)
Definition fourBuffered : Tracker.Tracker :=
  fst (Run.actions (map Scenario.keystrokeAt [0; 100; 200; 300])
         (Tracker.fresh (Tracker.constructorConfig Tracker.noOverride) 0)
         Scenario.world).

End Steps.

Module Stats.

(** [reasonCounts.get(r) || 0]. *)
Fixpoint countOf (r : string) (counts : list (string * Q)) : Q :=
  match counts with
  | [] => 0
  | (k, n) :: rest => if String.eqb k r then n else countOf r rest
  end.

(** The [reasonCounts] map of [getContextSwitchStatistics]. *)
Definition reasonCounts (switches : list Tracker.ContextSwitch)
  : list (string * Q) :=
  fold_left (fun counts cs => Tracker.bump (Tracker.switchReason cs) counts)
            switches [].

(** The [reduce] that picks the entry of [mostFrequentReason]. *)
Definition mostFrequent (counts : list (string * Q)) (start : string * Q)
  : string * Q :=
  fold_left (fun best entry =>
               if JS.gtb (snd entry) (snd best) then entry else best)
            counts start.

(** The switches recorded with reason [r]. *)
Definition withReason (r : string) (switches : list Tracker.ContextSwitch)
  : list Tracker.ContextSwitch :=
  filter (fun cs => String.eqb (Tracker.switchReason cs) r) switches.


(** The pattern types [detectPatternChanges] examines. *)
Definition patternTypes : list string :=
  ["typing_rhythm"; "context_switching"; "focus_duration"].


(** A new tracker after four explicit context switches: to a.ts, file2.ts,
    terminal and file1.ts. *)
Definition fourSwitches : Tracker.Tracker :=
  fst (Run.actions
         (Scenario.switchTo 0 "a.ts" "manual" :: Scenario.threeSwitches)
         (Tracker.fresh (Tracker.constructorConfig Tracker.noOverride) 0)
         Scenario.world).

End Stats.

Module Chain.

(** Each switch of a history starts in the context the one before it led
    to. *)
Fixpoint linked (switches : list Tracker.ContextSwitch) : Prop :=
  match switches with
  | earlier :: (later :: _) as rest =>
      Tracker.toContext earlier = Tracker.fromContext later /\ linked rest
  | _ => True
  end.

(** A switch leads from one named context to another one. *)
Definition proper (cs : Tracker.ContextSwitch) : Prop :=
  Tracker.fromContext cs <> Tracker.toContext cs /\
  Tracker.fromContext cs <> "" /\ Tracker.toContext cs <> "".

(** The switch history and the current context fit together. *)
Definition chained (t : Tracker.Tracker) : Prop :=
  linked (Tracker.contextSwitches t) /\
  last (map Tracker.toContext (Tracker.contextSwitches t))
       (Tracker.currentContext t) = Tracker.currentContext t /\
  Forall proper (Tracker.contextSwitches t) /\
  (Tracker.currentContext t = "" -> Tracker.contextSwitches t = []).

(** The string has no dot. *)
Definition dotless (s : string) : bool :=
  forallb (fun c => negb (Ascii.eqb c "."%char)) (list_ascii_of_string s).

(** A tracker in the context of a file, with no closed focus segment. *)
Definition inFile : Tracker.Tracker :=
  fst (Run.actions [Scenario.switchTo 0 "src/app.test.ts" "manual"]
         (Tracker.fresh (Tracker.constructorConfig Tracker.noOverride) 0)
         Scenario.world).

End Chain.

(** ** Basic facts about the primitives *)

Lemma ltb_lt (x y : Q) : JS.ltb x y = true <-> x < y.
Proof.
  unfold JS.ltb. rewrite negb_true_iff.
  split; intro H.
  - apply Qnot_le_lt. intro L. apply Qle_bool_iff in L. congruence.
  - destruct (Qle_bool y x) eqn:E; [|reflexivity].
    apply Qle_bool_iff in E. exfalso. apply (Qlt_not_le _ _ H E).
Qed.

Lemma ltb_ge (x y : Q) : JS.ltb x y = false <-> y <= x.
Proof.
  unfold JS.ltb. rewrite negb_false_iff. apply Qle_bool_iff.
Qed.

Lemma gtb_gt (x y : Q) : JS.gtb x y = true <-> y < x.
Proof. unfold JS.gtb. apply ltb_lt. Qed.

Lemma gtb_le (x y : Q) : JS.gtb x y = false <-> x <= y.
Proof. unfold JS.gtb. apply ltb_ge. Qed.

Lemma geb_ge (x y : Q) : JS.geb x y = true <-> y <= x.
Proof. unfold JS.geb. apply Qle_bool_iff. Qed.

Lemma geb_lt (x y : Q) : JS.geb x y = false <-> x < y.
Proof.
  unfold JS.geb. split; intro H.
  - apply Qnot_le_lt. intro L. apply Qle_bool_iff in L. congruence.
  - destruct (Qle_bool y x) eqn:E; [|reflexivity].
    apply Qle_bool_iff in E. exfalso. apply (Qlt_not_le _ _ H E).
Qed.

Lemma sum_from (l : list Q) (a : Q) : fold_left Qplus l a == a + Spec.total l.
Proof.
  revert a. induction l as [|x l IH]; intro a; simpl.
  - ring.
  - rewrite IH. ring.
Qed.

Lemma sum_total (l : list Q) : JS.sum l == Spec.total l.
Proof. unfold JS.sum. rewrite sum_from. ring. Qed.

Lemma total_map_ext (f g : Q -> Q) (l : list Q) :
  (forall x, f x == g x) -> Spec.total (map f l) == Spec.total (map g l).
Proof.
  intro E. induction l as [|x l IH]; simpl.
  - reflexivity.
  - rewrite IH, E. reflexivity.
Qed.

Lemma calculateMean_mean (l : list Q) : Keystroke.calculateMean l == Spec.mean l.
Proof.
  unfold Keystroke.calculateMean, Spec.mean, JS.len.
  rewrite sum_total. reflexivity.
Qed.

Lemma calculateVariance_spec (l : list Q) (m : Q) :
  m == Spec.mean l ->
  Keystroke.calculateVariance l m == Spec.populationVariance l.
Proof.
  intro E. unfold Keystroke.calculateVariance, Spec.populationVariance.
  rewrite calculateMean_mean. unfold Spec.mean.
  rewrite !length_map.
  rewrite (total_map_ext (fun val => JS.sq (val - m))
             (fun x => (x - (Spec.total l / inject_Z (Z.of_nat (length l)))) ^ 2)).
  - reflexivity.
  - intro x. unfold JS.sq. fold (Spec.mean l). rewrite E. simpl. ring.
Qed.

(** ** The rhythm loop computes the moving averages *)

Lemma sliceIndex_nonneg (n k : nat) :
  (k <= n)%nat -> JS.sliceIndex n (Z.of_nat k) = k.
Proof.
  intro H. unfold JS.sliceIndex.
  destruct (Z.of_nat k <? 0)%Z eqn:E.
  - apply Z.ltb_lt in E. lia.
  - rewrite Nat2Z.id. lia.
Qed.

Lemma slice_window {A : Type} (l : list A) (k w : nat) :
  (k + w <= length l)%nat ->
  JS.slice l (Z.of_nat k) (Z.of_nat k + Z.of_nat w) = firstn w (skipn k l).
Proof.
  intro H. unfold JS.slice.
  rewrite <- Nat2Z.inj_add.
  rewrite !sliceIndex_nonneg by lia.
  replace (k + w - k)%nat with w by lia. reflexivity.
Qed.

Lemma skipn_cons_nth {A : Type} (l : list A) (k : nat) :
  (k < length l)%nat -> exists x, skipn k l = x :: skipn (S k) l.
Proof.
  revert k. induction l as [|a l IH]; intros k H; simpl in H.
  - lia.
  - destruct k as [|k].
    + exists a. reflexivity.
    + destruct (IH k) as [x Hx]; [lia|].
      exists x. simpl. simpl in Hx. exact Hx.
Qed.

Lemma movingAverages_short (w : nat) (l : list Q) :
  (length l < w)%nat -> Spec.movingAverages w l = [].
Proof.
  intro H. destruct l as [|x l]; [reflexivity|].
  cbn [Spec.movingAverages].
  destruct (w <=? length (x :: l))%nat eqn:E; [|reflexivity].
  apply Nat.leb_le in E. lia.
Qed.

Lemma movingAverages_length (l : list Q) :
  length (Spec.movingAverages 5 l) = (length l - 4)%nat.
Proof.
  induction l as [|x l IH]; [reflexivity|].
  cbn [Spec.movingAverages].
  destruct (5 <=? length (x :: l))%nat eqn:E.
  - apply Nat.leb_le in E. simpl in E. simpl length at 1. rewrite IH.
    simpl length. lia.
  - apply Nat.leb_gt in E. simpl in E. simpl length. lia.
Qed.

Lemma rhythmLoop_spec (fuel : nat) (l : list Q) :
  forall (k : nat) (acc acc' : list Q),
    (length l - k < fuel)%nat ->
    Forall2 Qeq acc acc' ->
    Forall2 Qeq (Keystroke.rhythmLoop fuel l (Z.of_nat k) acc)
                (acc' ++ Spec.movingAverages 5 (skipn k l)).
Proof.
  induction fuel as [|fuel IH]; intros k acc acc' Hfuel Hacc.
  - lia.
  - cbn [Keystroke.rhythmLoop].
    destruct (Z.of_nat k <=? Z.of_nat (length l) - 5)%Z eqn:E.
    + apply Z.leb_le in E.
      destruct (skipn_cons_nth l k) as [x Hx]; [lia|].
      rewrite Hx. cbn [Spec.movingAverages]. rewrite <- Hx.
      assert (Hlen : (5 <=? length (skipn k l))%nat = true).
      { apply Nat.leb_le. rewrite length_skipn. lia. }
      rewrite Hlen.
      replace (Z.of_nat k + 1)%Z with (Z.of_nat (S k)) by lia.
      replace (acc' ++ Spec.mean (firstn 5 (skipn k l))
                 :: Spec.movingAverages 5 (skipn (S k) l))
        with ((acc' ++ [Spec.mean (firstn 5 (skipn k l))])
                ++ Spec.movingAverages 5 (skipn (S k) l))
        by (rewrite <- app_assoc; reflexivity).
      apply IH; [lia|].
      unfold JS.push. apply Forall2_app; [exact Hacc|].
      constructor; [|constructor].
      change 5%Z with (Z.of_nat 5).
      rewrite slice_window by lia.
      apply calculateMean_mean.
    + apply Z.leb_gt in E.
      rewrite movingAverages_short by (rewrite length_skipn; lia).
      rewrite app_nil_r. exact Hacc.
Qed.

Lemma calculateRhythm_spec (l : list Q) :
  Forall2 Qeq (Keystroke.calculateRhythm l) (Spec.movingAverages 5 l).
Proof.
  unfold Keystroke.calculateRhythm.
  apply (rhythmLoop_spec (S (length l)) l 0 [] []); [lia|constructor].
Qed.

Lemma countPauses_spec (l : list Q) :
  Keystroke.countPauses l = Spec.countAbove 1000 l.
Proof.
  unfold Keystroke.countPauses, Spec.countAbove. f_equal.
  apply filter_ext. intro x. unfold Keystroke.pauseThreshold.
  destruct (Qlt_le_dec 1000 x) as [H|H].
  - apply gtb_gt. exact H.
  - apply gtb_le. exact H.
Qed.

Lemma countBursts_spec (l : list Q) :
  Keystroke.countBursts l = Spec.countBelow 100 l.
Proof.
  unfold Keystroke.countBursts, Spec.countBelow. f_equal.
  apply filter_ext. intro x. unfold Keystroke.burstThreshold.
  destruct (Qlt_le_dec x 100) as [H|H].
  - apply ltb_lt. exact H.
  - apply ltb_ge. exact H.
Qed.

(** C3. [extractTimingPatterns] returns the all-zero pattern when fewer than
    two intervals are buffered.  Otherwise its average is the mean of the
    buffered intervals, its variance their population variance, its rhythm
    the sequence of 5-wide moving averages (of length [len - 4], empty below
    five intervals), its pause count the number of intervals strictly above
    1000 and its burst count the number strictly below 100. *)
Theorem extractTimingPatterns_spec (a : Keystroke.Analyzer) :
  let intervals := Keystroke.timingBuffer a in
  let p := Keystroke.extractTimingPatterns a in
  ((length intervals < 2)%nat ->
     p = {| Keystroke.averageInterval := 0; Keystroke.variance := 0;
            Keystroke.rhythm := []; Keystroke.pauseCount := 0;
            Keystroke.burstCount := 0 |}) /\
  ((2 <= length intervals)%nat ->
     Keystroke.averageInterval p == Spec.mean intervals /\
     Keystroke.variance p == Spec.populationVariance intervals /\
     Forall2 Qeq (Keystroke.rhythm p) (Spec.movingAverages 5 intervals) /\
     length (Keystroke.rhythm p) = (length intervals - 4)%nat /\
     ((length intervals < 5)%nat -> Keystroke.rhythm p = []) /\
     Keystroke.pauseCount p = Spec.countAbove 1000 intervals /\
     Keystroke.burstCount p = Spec.countBelow 100 intervals).
Proof.
  intros intervals p. subst p. unfold Keystroke.extractTimingPatterns.
  fold intervals. split; intro H.
  - apply Nat.ltb_lt in H. rewrite H. reflexivity.
  - assert (E : (length intervals <? 2)%nat = false) by (apply Nat.ltb_ge; exact H).
    rewrite E. cbn [Keystroke.averageInterval Keystroke.variance Keystroke.rhythm
                    Keystroke.pauseCount Keystroke.burstCount].
    pose proof (calculateRhythm_spec intervals) as R.
    assert (L : length (Keystroke.calculateRhythm intervals)
                = (length intervals - 4)%nat).
    { rewrite (Forall2_length R). apply movingAverages_length. }
    repeat split.
    + apply calculateMean_mean.
    + apply calculateVariance_spec. apply calculateMean_mean.
    + exact R.
    + exact L.
    + intro S. apply length_zero_iff_nil. rewrite L. lia.
    + apply countPauses_spec.
    + apply countBursts_spec.
Qed.

(** ** The privacy token *)

Lemma prefix_chars (t s : string) :
  String.prefix t s = true ->
  forall c, In c (list_ascii_of_string t) -> In c (list_ascii_of_string s).
Proof.
  revert s. induction t as [|a t IH]; intros s H c Hc.
  - destruct Hc.
  - destruct s as [|b s]; simpl in H; [discriminate|].
    destruct (ascii_dec a b) as [->|]; [|discriminate].
    destruct Hc as [<-|Hc].
    + left. reflexivity.
    + right. apply (IH s H c Hc).
Qed.

Lemma includes_chars (s t : string) :
  JS.includes s t = true ->
  forall c, In c (list_ascii_of_string t) -> In c (list_ascii_of_string s).
Proof.
  induction s as [|a s IH]; intros H c Hc.
  - cbn [JS.includes] in H. rewrite orb_false_r in H.
    apply (prefix_chars t _ H c Hc).
  - cbn [JS.includes] in H. apply orb_true_iff in H. destruct H as [H|H].
    + apply (prefix_chars t _ H c Hc).
    + right. apply (IH H c Hc).
Qed.

Lemma uint_chars (d : Decimal.uint) :
  forall c, In c (list_ascii_of_string (NilEmpty.string_of_uint d)) ->
            In c (list_ascii_of_string "0123456789").
Proof.
  induction d; intros c Hc; simpl in Hc;
    try (destruct Hc as [<-|Hc]; [simpl; tauto | apply IHd; exact Hc]).
  destruct Hc.
Qed.

Lemma decimal_chars (n : Z) :
  (0 <= n)%Z ->
  forall c, In c (list_ascii_of_string (JS.decimal n)) ->
            In c (list_ascii_of_string "0123456789").
Proof.
  intros Hn c Hc. unfold JS.decimal in Hc.
  destruct n as [|p|p]; [| |lia].
  - simpl in Hc. destruct Hc as [<-|[]]. simpl. tauto.
  - cbn [Z.to_int NilZero.string_of_int] in Hc.
    unfold NilZero.string_of_uint in Hc.
    destruct (Pos.to_uint p) eqn:E;
      try (rewrite <- E in Hc; apply (uint_chars _ c Hc)).
    exfalso. apply (DecimalPos.Unsigned.to_uint_nonnil p E).
Qed.

Lemma list_ascii_app (s t : string) :
  list_ascii_of_string (s ++ t)%string
  = list_ascii_of_string s ++ list_ascii_of_string t.
Proof.
  induction s as [|a s IH]; simpl; [reflexivity|].
  rewrite IH. reflexivity.
Qed.

Lemma toInt32_range (z : Z) : (- 2 ^ 31 <= JS.toInt32 z < 2 ^ 31)%Z.
Proof.
  unfold JS.toInt32.
  pose proof (Z.mod_pos_bound (z + 2 ^ 31) (2 ^ 32) ltac:(lia)). lia.
Qed.

Lemma hashLoop_range (key : string) (h : Z) :
  (- 2 ^ 31 <= h < 2 ^ 31)%Z ->
  (- 2 ^ 31 <= Keystroke.hashLoop key h < 2 ^ 31)%Z.
Proof.
  revert h. induction key as [|c key IH]; intros h Hh; simpl.
  - exact Hh.
  - apply IH. unfold Keystroke.hashStep, JS.band. apply toInt32_range.
Qed.

Lemma hashKey_chars (key : string) :
  forall c, In c (list_ascii_of_string (Keystroke.hashKey key)) ->
            In c Spec.tokenAlphabet.
Proof.
  intros c Hc. unfold Keystroke.hashKey in Hc.
  rewrite list_ascii_app in Hc. apply in_app_or in Hc.
  unfold Spec.tokenAlphabet.
  change "key_0123456789" with ("key_" ++ "0123456789")%string.
  rewrite list_ascii_app. apply in_or_app.
  destruct Hc as [Hc|Hc]; [left; exact Hc|right].
  apply (decimal_chars (Z.abs (Keystroke.hashLoop key 0))); [lia|exact Hc].
Qed.

Lemma shifted_last {A : Type} (l : list A) (x d : A) (n : nat) :
  (1 <= n)%nat ->
  last (if (n <? length (JS.push l x))%nat then JS.shift (JS.push l x)
        else JS.push l x) d = x.
Proof.
  intro Hn. unfold JS.push, JS.shift.
  destruct (n <? length (l ++ [x]))%nat eqn:E.
  - apply Nat.ltb_lt in E. rewrite length_app in E. simpl in E.
    destruct l as [|a l]; [simpl in E; lia|].
    simpl tl. apply last_last.
  - apply last_last.
Qed.

(** C6, as the code has it.  [hashKey] is a total function of the raw key
    alone: the token is "key_" followed by the decimal digits of an integer
    between 0 and 2^31, and the token stored for a keystroke is [hashKey] of
    its key whatever the analyzer holds.  The token is written with the
    characters k, e, y, _ and the ten digits only, so a raw key holding any
    other character does not appear in its token. *)
Theorem hashKey_token (key : string) :
  (exists n : Z, (0 <= n <= 2 ^ 31)%Z /\
     Keystroke.hashKey key = ("key_" ++ JS.decimal n)%string) /\
  (forall (ev : Keystroke.KeystrokeEvent) (a : Keystroke.Analyzer),
     Keystroke.key
       (last (Keystroke.keyEvents (Keystroke.processKeystroke ev a)) ev)
     = Keystroke.hashKey (Keystroke.key ev)) /\
  (forall c, In c (list_ascii_of_string (Keystroke.hashKey key)) ->
             In c Spec.tokenAlphabet) /\
  ((exists c, In c (list_ascii_of_string key) /\ ~ In c Spec.tokenAlphabet) ->
   JS.includes (Keystroke.hashKey key) key = false).
Proof.
  split; [|split; [|split]].
  - exists (Z.abs (Keystroke.hashLoop key 0)). split; [|reflexivity].
    pose proof (hashLoop_range key 0 ltac:(lia)). lia.
  - intros ev a. unfold Keystroke.processKeystroke.
    set (hashed := Keystroke.hashedEvent ev).
    set (events := if (Keystroke.bufferSize <? length (JS.push (Keystroke.keyEvents a) hashed))%nat
                   then JS.shift (JS.push (Keystroke.keyEvents a) hashed)
                   else JS.push (Keystroke.keyEvents a) hashed).
    assert (L : last events ev = hashed).
    { subst events. apply shifted_last. unfold Keystroke.bufferSize. lia. }
    destruct (1 <? length events)%nat;
      [destruct (nth_error events (length events - 2))|];
      cbn [Keystroke.keyEvents]; rewrite L; reflexivity.
  - exact (hashKey_chars key).
  - intros [c [Hin Hout]].
    destruct (JS.includes (Keystroke.hashKey key) key) eqn:E; [|reflexivity].
    exfalso. apply Hout. apply (hashKey_chars key).
    apply (includes_chars _ _ E c Hin).
Qed.

(** ** Bounded buffers with first-in, first-out eviction *)

Lemma lastn_length {A : Type} (n : nat) (l : list A) :
  (length (Spec.lastn n l) <= n)%nat.
Proof. unfold Spec.lastn. rewrite length_skipn. lia. Qed.

Lemma skipn_succ_tl {A : Type} (k : nat) (l : list A) :
  skipn (S k) l = tl (skipn k l).
Proof.
  revert l. induction k as [|k IH]; intro l.
  - destruct l; reflexivity.
  - destruct l as [|a l]; [reflexivity|].
    change (skipn (S (S k)) (a :: l)) with (skipn (S k) l).
    change (skipn (S k) (a :: l)) with (skipn k l).
    apply IH.
Qed.

(** Pushing onto the last [n] elements and evicting the oldest on overflow
    keeps the last [n] elements. *)
Lemma lastn_snoc {A : Type} (n : nat) (l : list A) (x : A) :
  (1 <= n)%nat ->
  (if (n <? length (JS.push (Spec.lastn n l) x))%nat
   then JS.shift (JS.push (Spec.lastn n l) x)
   else JS.push (Spec.lastn n l) x)
  = Spec.lastn n (l ++ [x]).
Proof.
  intro Hn. unfold Spec.lastn, JS.push, JS.shift.
  rewrite !length_app, length_skipn. simpl length.
  destruct (n <? length l - (length l - n) + 1)%nat eqn:E.
  - apply Nat.ltb_lt in E.
    replace (length l + 1 - n)%nat with (S (length l - n)) by lia.
    rewrite skipn_succ_tl, skipn_app.
    replace (length l - n - length l)%nat with 0%nat by lia.
    simpl skipn at 2.
    destruct (skipn (length l - n) l) eqn:S.
    + assert (L : length (skipn (length l - n) l) = 0%nat) by (rewrite S; reflexivity).
      rewrite length_skipn in L. lia.
    + reflexivity.
  - apply Nat.ltb_ge in E.
    replace (length l - n)%nat with 0%nat by lia.
    replace (length l + 1 - n)%nat with 0%nat by lia.
    reflexivity.
Qed.

Lemma lastn_two {A : Type} (n : nat) (pre : list A) (y x : A) :
  (2 <= n)%nat ->
  exists pre', Spec.lastn n (pre ++ [y; x]) = pre' ++ [y; x].
Proof.
  intro Hn. unfold Spec.lastn. rewrite length_app. simpl length.
  exists (skipn (length pre + 2 - n) pre).
  rewrite skipn_app.
  replace (length pre + 2 - n - length pre)%nat with 0%nat by lia.
  reflexivity.
Qed.

Lemma gaps_snoc (l : list Q) (y x : Q) :
  Spec.gaps (l ++ [y; x]) = Spec.gaps (l ++ [y]) ++ [x - y].
Proof.
  induction l as [|a l IH]; [reflexivity|].
  destruct l as [|b l]; [reflexivity|].
  change ((a :: b :: l) ++ [y; x]) with (a :: (b :: l) ++ [y; x]).
  change ((a :: b :: l) ++ [y]) with (a :: (b :: l) ++ [y]).
  change (Spec.gaps (a :: (b :: l) ++ [y; x]))
    with ((b - a) :: Spec.gaps ((b :: l) ++ [y; x])).
  change (Spec.gaps (a :: (b :: l) ++ [y]))
    with ((b - a) :: Spec.gaps ((b :: l) ++ [y])).
  rewrite IH. reflexivity.
Qed.

Lemma keystrokes_snoc (events : list Keystroke.KeystrokeEvent)
  (x : Keystroke.KeystrokeEvent) (a : Keystroke.Analyzer) :
  Run.keystrokes (events ++ [x]) a
  = Keystroke.processKeystroke x (Run.keystrokes events a).
Proof. unfold Run.keystrokes. rewrite fold_left_app. reflexivity. Qed.

(** The analyzer's buffers hold the last 100 hashed events and the last 100
    gaps between successive timestamps. *)
Lemma keystrokes_buffers (events : list Keystroke.KeystrokeEvent) :
  Keystroke.keyEvents (Run.keystrokes events Keystroke.empty)
  = Spec.lastn 100 (map Keystroke.hashedEvent events) /\
  Keystroke.timingBuffer (Run.keystrokes events Keystroke.empty)
  = Spec.lastn 100 (Spec.gaps (map Keystroke.timestamp events)).
Proof.
  induction events as [|x events IH] using rev_ind.
  - split; reflexivity.
  - destruct IH as [IHk IHt].
    rewrite keystrokes_snoc. unfold Keystroke.processKeystroke.
    rewrite IHk, IHt. unfold Keystroke.bufferSize.
    rewrite lastn_snoc by lia.
    replace (map Keystroke.hashedEvent events ++ [Keystroke.hashedEvent x])
      with (map Keystroke.hashedEvent (events ++ [x]))
      by (rewrite map_app; reflexivity).
    destruct events as [|y events _] using rev_ind.
    + split; reflexivity.
    + rewrite <- app_assoc. cbn [app].
      rewrite !map_app. cbn [map].
      destruct (lastn_two 100 (map Keystroke.hashedEvent events)
                  (Keystroke.hashedEvent y) (Keystroke.hashedEvent x))
        as [pre' Hpre]; [lia|].
      rewrite Hpre.
      assert (L : length (pre' ++ [Keystroke.hashedEvent y; Keystroke.hashedEvent x])
                  = (length pre' + 2)%nat)
        by (rewrite length_app; reflexivity).
      rewrite L.
      replace (1 <? length pre' + 2)%nat with true
        by (symmetry; apply Nat.ltb_lt; lia).
      replace (length pre' + 2 - 2)%nat with (length pre' + 0)%nat by lia.
      rewrite nth_error_app2 by lia.
      replace (length pre' + 0 - length pre')%nat with 0%nat by lia.
      cbn [nth_error]. cbn [Keystroke.keyEvents Keystroke.timingBuffer].
      split; [reflexivity|].
      rewrite lastn_snoc by lia.
      rewrite gaps_snoc. reflexivity.
Qed.

(** ** What each step of [recordAction] leaves alone *)

Lemma endCurrentFocusSegment_frame (stamp : Q) (t : Tracker.Tracker) :
  let t' := Tracker.endCurrentFocusSegment stamp t in
  Tracker.config t' = Tracker.config t /\
  Tracker.actionBuffer t' = Tracker.actionBuffer t /\
  Tracker.sequences t' = Tracker.sequences t /\
  Tracker.contextSwitches t' = Tracker.contextSwitches t /\
  Tracker.currentContext t' = Tracker.currentContext t.
Proof.
  unfold Tracker.endCurrentFocusSegment.
  destruct (Tracker.currentFocusSegment t); repeat split; reflexivity.
Qed.

Lemma detectContextSwitch_frame (action : Interfaces.BehavioralAction)
  (t : Tracker.Tracker) :
  let t' := Tracker.detectContextSwitch action t in
  Tracker.config t' = Tracker.config t /\
  Tracker.actionBuffer t' = Tracker.actionBuffer t /\
  Tracker.sequences t' = Tracker.sequences t.
Proof.
  unfold Tracker.detectContextSwitch.
  destruct (Tracker.candidateContext action) as [newContext|];
    [|repeat split; reflexivity].
  destruct (String.eqb (Tracker.currentContext t) "");
    [repeat split; reflexivity|].
  destruct (negb (String.eqb newContext (Tracker.currentContext t)));
    [|repeat split; reflexivity].
  cbv zeta.
  match goal with
  | |- context [Tracker.endCurrentFocusSegment ?s ?u] =>
      destruct (endCurrentFocusSegment_frame s u) as (C & B & S & _ & _)
  end.
  unfold Tracker.startNewFocusSegment, Tracker.withFocus,
    Tracker.withCurrentContext.
  cbn [Tracker.config Tracker.actionBuffer Tracker.sequences].
  rewrite C, B, S. repeat split; reflexivity.
Qed.

Lemma updateFocusTracking_frame (action : Interfaces.BehavioralAction)
  (t : Tracker.Tracker) :
  let t' := Tracker.updateFocusTracking action t in
  Tracker.config t' = Tracker.config t /\
  Tracker.actionBuffer t' = Tracker.actionBuffer t /\
  Tracker.sequences t' = Tracker.sequences t /\
  Tracker.contextSwitches t' = Tracker.contextSwitches t /\
  Tracker.currentContext t' = Tracker.currentContext t.
Proof.
  unfold Tracker.updateFocusTracking.
  destruct (Tracker.currentFocusSegment t) as [segment|];
    [|repeat split; reflexivity].
  cbv zeta.
  match goal with
  | |- context [if ?c then _ else _] => destruct c
  end; [|repeat split; reflexivity].
  match goal with
  | |- context [Tracker.endCurrentFocusSegment ?s ?u] =>
      destruct (endCurrentFocusSegment_frame s u) as (C & B & S & W & X)
  end.
  rewrite C, B, S, W, X. repeat split; reflexivity.
Qed.

Lemma completeCurrentSequence_frame (t : Tracker.Tracker) (w : Env.World) :
  let t' := fst (Tracker.completeCurrentSequence t w) in
  Tracker.config t' = Tracker.config t /\
  Tracker.contextSwitches t' = Tracker.contextSwitches t /\
  Tracker.currentContext t' = Tracker.currentContext t.
Proof.
  unfold Tracker.completeCurrentSequence.
  destruct (nth_error (Tracker.actionBuffer t) 0);
    [destruct (nth_error (Tracker.actionBuffer t)
                 (length (Tracker.actionBuffer t) - 1))|];
    try (repeat split; reflexivity).
  unfold Env.bind. destruct (Tracker.createContextSnapshot t w).
  repeat split; reflexivity.
Qed.

Lemma checkSequenceCompletion_frame (t : Tracker.Tracker) (w : Env.World) :
  let t' := fst (Tracker.checkSequenceCompletion t w) in
  Tracker.config t' = Tracker.config t /\
  Tracker.contextSwitches t' = Tracker.contextSwitches t /\
  Tracker.currentContext t' = Tracker.currentContext t.
Proof.
  unfold Tracker.checkSequenceCompletion.
  destruct (JS.geb _ _); [apply completeCurrentSequence_frame|].
  repeat split; reflexivity.
Qed.

Lemma completeCurrentSequence_effect (t : Tracker.Tracker) (w : Env.World) :
  let t' := fst (Tracker.completeCurrentSequence t w) in
  (Tracker.actionBuffer t = [] /\ t' = t) \/
  (Tracker.actionBuffer t <> [] /\ Tracker.actionBuffer t' = [] /\
   exists s, Tracker.actions s = Tracker.actionBuffer t /\
             Tracker.sequences t' = Run.appended s (Tracker.sequences t)).
Proof.
  unfold Tracker.completeCurrentSequence.
  destruct (Tracker.actionBuffer t) as [|first rest] eqn:B.
  - left. split; reflexivity.
  - right. split; [discriminate|].
    cbn [nth_error].
    destruct (nth_error (first :: rest) (length (first :: rest) - 1)) eqn:N.
    + unfold Env.bind. destruct (Tracker.createContextSnapshot t w).
      cbv zeta. split; [reflexivity|].
      eexists. split; [|reflexivity]. reflexivity.
    + exfalso. apply nth_error_None in N. simpl in N. lia.
Qed.

(** The tracker just before the completion check of [recordAction]. *)
Lemma recordAction_before_check (action : Interfaces.BehavioralAction)
  (t : Tracker.Tracker) :
  exists u,
    Tracker.recordAction action t = Tracker.checkSequenceCompletion u /\
    Tracker.config u = Tracker.config t /\
    Tracker.actionBuffer u = Run.evicted action t /\
    Tracker.sequences u = Tracker.sequences t.
Proof.
  unfold Tracker.recordAction. cbv zeta.
  eexists. split; [reflexivity|].
  match goal with
  | |- context [Tracker.updateFocusTracking ?a ?u] =>
      destruct (updateFocusTracking_frame a u) as (C & B & S & _)
  end.
  rewrite C, B, S.
  match goal with
  | |- context [Tracker.detectContextSwitch ?a ?u] =>
      destruct (detectContextSwitch_frame a u) as (C' & B' & S')
  end.
  rewrite C', B', S'. unfold Run.evicted.
  cbn [Tracker.withLastActivityTime Tracker.withActionBuffer
       Tracker.actionBuffer Tracker.config].
  destruct (JS.gtb _ _); repeat split; reflexivity.
Qed.

Lemma recordAction_config (action : Interfaces.BehavioralAction)
  (t : Tracker.Tracker) (w : Env.World) :
  Tracker.config (fst (Tracker.recordAction action t w)) = Tracker.config t.
Proof.
  destruct (recordAction_before_check action t) as (u & E & C & _).
  rewrite E. destruct (checkSequenceCompletion_frame u w) as (C' & _).
  rewrite C'. exact C.
Qed.

(** After [recordAction] the buffer is either empty, a sequence of the
    evicted buffer's actions having been appended, or the evicted buffer,
    shorter than the configured size, and no sequence was appended. *)
Lemma recordAction_effect (action : Interfaces.BehavioralAction)
  (t : Tracker.Tracker) (w : Env.World) :
  let t' := fst (Tracker.recordAction action t w) in
  let b := Tracker.bufferSize (Tracker.config t) in
  (Tracker.actionBuffer t' = [] /\ b <= JS.len (Run.evicted action t) /\
   (Tracker.sequences t' = Tracker.sequences t \/
    exists s, Tracker.actions s = Run.evicted action t /\
              Tracker.sequences t' = Run.appended s (Tracker.sequences t))) \/
  (Tracker.actionBuffer t' = Run.evicted action t /\
   JS.len (Run.evicted action t) < b /\
   Tracker.sequences t' = Tracker.sequences t).
Proof.
  cbv zeta.
  destruct (recordAction_before_check action t) as (u & E & C & B & S).
  rewrite E. unfold Tracker.checkSequenceCompletion. rewrite C, B.
  destruct (JS.geb (JS.len (Run.evicted action t))
                   (Tracker.bufferSize (Tracker.config t))) eqn:G.
  - left. apply geb_ge in G.
    destruct (completeCurrentSequence_effect u w)
      as [[Hb Ht]|(Hb & Hb' & s & Hs & Hq)].
    + rewrite Ht. rewrite B in Hb. rewrite B, S, Hb.
      repeat split; [rewrite <- Hb; exact G | left; reflexivity].
    + rewrite Hb'. split; [reflexivity|]. split; [exact G|].
      right. exists s. rewrite Hs, Hq, B, S. split; reflexivity.
  - right. apply geb_lt in G. cbn [Env.ret fst]. rewrite B, S.
    repeat split. exact G.
Qed.

Lemma actions_cons (x : Interfaces.BehavioralAction)
  (acts : list Interfaces.BehavioralAction) (t : Tracker.Tracker)
  (w : Env.World) :
  Run.actions (x :: acts) t w
  = Run.actions acts (fst (Tracker.recordAction x t w))
                     (snd (Tracker.recordAction x t w)).
Proof.
  cbn [Run.actions]. unfold Env.bind.
  destruct (Tracker.recordAction x t w). reflexivity.
Qed.

Lemma actions_snoc (acts : list Interfaces.BehavioralAction)
  (x : Interfaces.BehavioralAction) (t : Tracker.Tracker) (w : Env.World) :
  Run.actions (acts ++ [x]) t w
  = Tracker.recordAction x (fst (Run.actions acts t w))
                           (snd (Run.actions acts t w)).
Proof.
  revert t w. induction acts as [|a acts IH]; intros t w.
  - cbn [app]. rewrite actions_cons. cbn [Run.actions Env.ret fst snd].
    destruct (Tracker.recordAction x t w). reflexivity.
  - cbn [app]. rewrite !actions_cons. apply IH.
Qed.

Lemma actions_config (acts : list Interfaces.BehavioralAction)
  (t : Tracker.Tracker) (w : Env.World) :
  Tracker.config (fst (Run.actions acts t w)) = Tracker.config t.
Proof.
  revert t w. induction acts as [|a acts IH]; intros t w; [reflexivity|].
  rewrite actions_cons, IH. apply recordAction_config.
Qed.

Lemma len_push {A : Type} (l : list A) (x : A) :
  JS.len (JS.push l x) == JS.len l + 1.
Proof.
  unfold JS.len, JS.push. rewrite length_app. simpl length.
  rewrite Nat2Z.inj_add, inject_Z_plus. reflexivity.
Qed.

Lemma len_shift_push {A : Type} (l : list A) (x : A) :
  JS.len (JS.shift (JS.push l x)) = JS.len l.
Proof.
  unfold JS.len, JS.shift, JS.push. do 2 f_equal.
  destruct l as [|a l]; [reflexivity|].
  simpl. rewrite length_app. simpl. lia.
Qed.

(** C4. After any number of [processKeystroke] calls the analyzer's event
    and interval buffers hold at most 100 entries, namely the most recent
    ones in arrival order: overflow evicts the oldest entry.  After every
    [recordAction] call, and after any number of them on a new tracker, the
    action buffer holds at most [bufferSize] entries (for a size that is not
    negative); what it holds is the previous buffer with the new action
    pushed, without its oldest entry on overflow, unless the completed
    sequence emptied it. *)
Theorem buffers_bounded_fifo :
  (forall events : list Keystroke.KeystrokeEvent,
     let a := Run.keystrokes events Keystroke.empty in
     (length (Keystroke.keyEvents a) <= Keystroke.bufferSize)%nat /\
     (length (Keystroke.timingBuffer a) <= Keystroke.bufferSize)%nat /\
     Keystroke.keyEvents a
     = Spec.lastn Keystroke.bufferSize (map Keystroke.hashedEvent events) /\
     Keystroke.timingBuffer a
     = Spec.lastn Keystroke.bufferSize
         (Spec.gaps (map Keystroke.timestamp events))) /\
  (forall (t : Tracker.Tracker) (action : Interfaces.BehavioralAction)
          (w : Env.World),
     0 <= Tracker.bufferSize (Tracker.config t) ->
     let t' := fst (Tracker.recordAction action t w) in
     let pushed := JS.push (Tracker.actionBuffer t) action in
     JS.len (Tracker.actionBuffer t') <= Tracker.bufferSize (Tracker.config t') /\
     (Tracker.actionBuffer t' = [] \/
      (JS.len pushed <= Tracker.bufferSize (Tracker.config t) /\
       Tracker.actionBuffer t' = pushed) \/
      (Tracker.bufferSize (Tracker.config t) < JS.len pushed /\
       Tracker.actionBuffer t' = JS.shift pushed))) /\
  (forall (cfg : Tracker.SequenceConfig) (now : Z)
          (acts : list Interfaces.BehavioralAction) (w : Env.World),
     0 <= Tracker.bufferSize cfg ->
     JS.len (Tracker.actionBuffer
               (fst (Run.actions acts (Tracker.fresh cfg now) w)))
     <= Tracker.bufferSize cfg).
Proof.
  assert (Step : forall (t : Tracker.Tracker)
                        (action : Interfaces.BehavioralAction) (w : Env.World),
     0 <= Tracker.bufferSize (Tracker.config t) ->
     JS.len (Tracker.actionBuffer (fst (Tracker.recordAction action t w)))
     <= Tracker.bufferSize (Tracker.config t)).
  { intros t action w Hb.
    destruct (recordAction_effect action t w) as [(E & _)|(E & L & _)];
      rewrite E.
    - exact Hb.
    - apply Qlt_le_weak. exact L. }
  split; [|split].
  - intros events a. subst a.
    destruct (keystrokes_buffers events) as [K T].
    unfold Keystroke.bufferSize. rewrite K, T.
    repeat split; apply lastn_length.
  - intros t action w Hb t' pushed. subst t'. split.
    + rewrite recordAction_config. apply Step. exact Hb.
    + destruct (recordAction_effect action t w) as [(E & _)|(E & _ & _)].
      * left. exact E.
      * right. rewrite E. unfold Run.evicted. fold pushed.
        destruct (JS.gtb (JS.len pushed) (Tracker.bufferSize (Tracker.config t)))
          eqn:G.
        -- right. apply gtb_gt in G. split; [exact G|reflexivity].
        -- left. apply gtb_le in G. split; [exact G|reflexivity].
  - intros cfg now acts w Hb.
    destruct acts as [|x acts _] using rev_ind.
    + exact Hb.
    + rewrite actions_snoc.
      pose proof (Step (fst (Run.actions acts (Tracker.fresh cfg now) w)) x
                       (snd (Run.actions acts (Tracker.fresh cfg now) w))) as S.
      rewrite actions_config in S. apply S. exact Hb.
Qed.

(** C10. With a positive configured [bufferSize], every sequence in the
    history of a tracker fed any stream of actions holds exactly
    [bufferSize] actions, and after every [recordAction] call, in whatever
    state it is made, the action buffer holds strictly fewer than
    [bufferSize] actions. *)
Theorem sequences_hold_bufferSize_actions (cfg : Tracker.SequenceConfig)
  (now : Z) (acts : list Interfaces.BehavioralAction) (w : Env.World) :
  0 < Tracker.bufferSize cfg ->
  let t := fst (Run.actions acts (Tracker.fresh cfg now) w) in
  Forall (fun s => JS.len (Tracker.actions s) == Tracker.bufferSize cfg)
         (Tracker.sequences t) /\
  JS.len (Tracker.actionBuffer t) < Tracker.bufferSize cfg /\
  (forall (u : Tracker.Tracker) (action : Interfaces.BehavioralAction)
          (w' : Env.World),
     Tracker.config u = cfg ->
     JS.len (Tracker.actionBuffer (fst (Tracker.recordAction action u w')))
     < Tracker.bufferSize cfg).
Proof.
  intros Hb. cbv zeta.
  assert (Run : Forall (fun s => JS.len (Tracker.actions s)
                                 == Tracker.bufferSize cfg)
                  (Tracker.sequences
                     (fst (Run.actions acts (Tracker.fresh cfg now) w))) /\
                JS.len (Tracker.actionBuffer
                          (fst (Run.actions acts (Tracker.fresh cfg now) w)))
                < Tracker.bufferSize cfg).
  { induction acts as [|x acts IH] using rev_ind.
    - split; [constructor|exact Hb].
    - destruct IH as [IHs IHb]. rewrite actions_snoc.
      set (t := fst (Run.actions acts (Tracker.fresh cfg now) w)) in *.
      set (w1 := snd (Run.actions acts (Tracker.fresh cfg now) w)).
      assert (C : Tracker.config t = cfg) by (subst t; apply actions_config).
      destruct (recordAction_effect x t w1) as [(E & G & S)|(E & L & S)];
        rewrite C in *; rewrite E.
      + split; [|exact Hb].
        destruct S as [S|(s & Hs & S)]; rewrite S; [exact IHs|].
        assert (P : JS.len (Tracker.actions s) == Tracker.bufferSize cfg).
        { rewrite Hs. unfold Run.evicted in *. rewrite C in *.
          destruct (JS.gtb (JS.len (JS.push (Tracker.actionBuffer t) x))
                           (Tracker.bufferSize cfg)) eqn:Over.
          - rewrite len_shift_push in G. exfalso.
            apply (Qlt_not_le _ _ IHb G).
          - apply gtb_le in Over. apply Qle_antisym; assumption. }
        unfold Run.appended.
        assert (F : Forall (fun s => JS.len (Tracker.actions s)
                                     == Tracker.bufferSize cfg)
                           (JS.push (Tracker.sequences t) s)).
        { unfold JS.push. apply Forall_app. split; [exact IHs|].
          constructor; [exact P|constructor]. }
        destruct (Tracker.maxSequences <? _)%nat; [|exact F].
        unfold JS.shift.
        destruct (JS.push (Tracker.sequences t) s); [constructor|].
        inversion F; assumption.
      + rewrite S. split; [exact IHs|exact L]. }
  destruct Run as [Rs Rb]. split; [exact Rs|]. split; [exact Rb|].
  intros u action w' C.
  destruct (recordAction_effect action u w') as [(E & _)|(E & L & _)];
    rewrite E.
  - exact Hb.
  - rewrite C in L. exact L.
Qed.

(** ** Context switches *)

Lemma orElse_nonempty (v : option string) (d : string) :
  d <> "" -> JS.orElse v d <> "".
Proof.
  intro Hd. unfold JS.orElse. destruct v as [s|]; [|exact Hd].
  destruct (String.eqb s "") eqn:E; [exact Hd|].
  apply String.eqb_neq. exact E.
Qed.

Lemma candidateContext_nonempty (action : Interfaces.BehavioralAction)
  (label : string) :
  Tracker.candidateContext action = Some label -> label <> "".
Proof.
  unfold Tracker.candidateContext.
  destruct (Interfaces.type action); intro H; inversion H;
    apply orElse_nonempty; discriminate.
Qed.

(** What [detectContextSwitch] does to the switch history and the current
    context. *)
Lemma detectContextSwitch_effect (action : Interfaces.BehavioralAction)
  (t : Tracker.Tracker) :
  let t' := Tracker.detectContextSwitch action t in
  match Tracker.candidateContext action with
  | None =>
      Tracker.contextSwitches t' = Tracker.contextSwitches t /\
      Tracker.currentContext t' = Tracker.currentContext t
  | Some label =>
      if String.eqb (Tracker.currentContext t) "" then
        Tracker.contextSwitches t' = Tracker.contextSwitches t /\
        Tracker.currentContext t' = label
      else if String.eqb label (Tracker.currentContext t) then
        Tracker.contextSwitches t' = Tracker.contextSwitches t /\
        Tracker.currentContext t' = Tracker.currentContext t
      else
        Tracker.currentContext t' = label /\
        exists cs,
          Tracker.fromContext cs = Tracker.currentContext t /\
          Tracker.toContext cs = label /\
          Tracker.contextSwitches t'
          = Run.recorded cs (Tracker.contextSwitches t)
  end.
Proof.
  unfold Tracker.detectContextSwitch.
  destruct (Tracker.candidateContext action) as [label|];
    [|split; reflexivity].
  destruct (String.eqb (Tracker.currentContext t) "");
    [split; reflexivity|].
  destruct (String.eqb label (Tracker.currentContext t));
    [split; reflexivity|].
  cbn [negb]. cbv zeta.
  match goal with
  | |- context [Tracker.endCurrentFocusSegment ?s ?u] =>
      destruct (endCurrentFocusSegment_frame s u) as (_ & _ & _ & W & _)
  end.
  unfold Tracker.startNewFocusSegment, Tracker.withFocus,
    Tracker.withCurrentContext.
  cbn [Tracker.contextSwitches Tracker.currentContext].
  split; [reflexivity|].
  eexists. split; [|split]; [| |rewrite W; reflexivity]; reflexivity.
Qed.

(** [recordAction] changes the switch history and the current context as
    its [detectContextSwitch] step does. *)
Lemma recordAction_switches (action : Interfaces.BehavioralAction)
  (t : Tracker.Tracker) (w : Env.World) :
  exists u,
    Tracker.contextSwitches u = Tracker.contextSwitches t /\
    Tracker.currentContext u = Tracker.currentContext t /\
    Tracker.contextSwitches (fst (Tracker.recordAction action t w))
    = Tracker.contextSwitches (Tracker.detectContextSwitch action u) /\
    Tracker.currentContext (fst (Tracker.recordAction action t w))
    = Tracker.currentContext (Tracker.detectContextSwitch action u).
Proof.
  unfold Tracker.recordAction. cbv zeta.
  match goal with
  | |- context [Tracker.detectContextSwitch action ?u] => exists u
  end.
  split; [destruct (JS.gtb _ _); reflexivity|].
  split; [destruct (JS.gtb _ _); reflexivity|].
  match goal with
  | |- context [Tracker.checkSequenceCompletion ?v w] =>
      destruct (checkSequenceCompletion_frame v w) as (_ & W & X)
  end.
  rewrite W, X.
  match goal with
  | |- context [Tracker.updateFocusTracking ?a ?v] =>
      destruct (updateFocusTracking_frame a v) as (_ & _ & _ & W' & X')
  end.
  rewrite W', X'. split; reflexivity.
Qed.

Lemma recorded_length (cs : Tracker.ContextSwitch)
  (l : list Tracker.ContextSwitch) :
  (length l <= Tracker.maxContextSwitches)%nat ->
  length (Run.recorded cs l)
  = Nat.min Tracker.maxContextSwitches (length l + 1).
Proof.
  intro H. unfold Run.recorded, JS.push, JS.shift.
  destruct (Tracker.maxContextSwitches <? length (l ++ [cs]))%nat eqn:E.
  - apply Nat.ltb_lt in E. rewrite length_app in E. simpl in E.
    destruct l as [|a l]; [simpl in E; unfold Tracker.maxContextSwitches in E; lia|].
    simpl tl. rewrite length_app. simpl length in *. lia.
  - apply Nat.ltb_ge in E. rewrite length_app in *. simpl length in *. lia.
Qed.

Lemma changes_same (label : string) (rest : list string) :
  Spec.changes label (label :: rest) = Spec.changes label rest.
Proof. cbn [Spec.changes]. rewrite String.eqb_refl. reflexivity. Qed.

Lemma changes_other (current label : string) (rest : list string) :
  String.eqb label current = false ->
  Spec.changes current (label :: rest) = S (Spec.changes label rest).
Proof. intro E. cbn [Spec.changes]. rewrite E. reflexivity. Qed.

Lemma switchesFrom_nonempty (current : string) (labels : list string) :
  current <> "" -> Run.switchesFrom current labels = Spec.changes current labels.
Proof.
  intro H. unfold Run.switchesFrom.
  apply String.eqb_neq in H. rewrite H. reflexivity.
Qed.

(** The length of the switch history after a stream of actions. *)
Lemma actions_switches (acts : list Interfaces.BehavioralAction) :
  forall (t : Tracker.Tracker) (w : Env.World),
    (length (Tracker.contextSwitches t) <= Tracker.maxContextSwitches)%nat ->
    length (Tracker.contextSwitches (fst (Run.actions acts t w)))
    = Nat.min Tracker.maxContextSwitches
        (length (Tracker.contextSwitches t)
         + Run.switchesFrom (Tracker.currentContext t) (Run.labels acts)).
Proof.
  induction acts as [|a acts IH]; intros t w Hlen.
  - cbn [Run.actions Env.ret fst Run.labels flat_map].
    unfold Run.switchesFrom. cbn [Spec.switchesOf Spec.changes].
    destruct (String.eqb _ _); lia.
  - rewrite actions_cons.
    change (Run.labels (a :: acts))
      with ((match Tracker.candidateContext a with
             | Some label => [label] | None => [] end) ++ Run.labels acts).
    destruct (recordAction_switches a t w) as (u & Us & Uc & Rs & Rc).
    pose proof (detectContextSwitch_effect a u) as D. cbv zeta in D.
    rewrite <- Rs, <- Rc, Us, Uc in D.
    pose proof (candidateContext_nonempty a) as NE.
    destruct (Tracker.candidateContext a) as [label|].
    + specialize (NE label eq_refl). cbn [app].
      destruct (String.eqb (Tracker.currentContext t) "") eqn:E0.
      * destruct D as [Ds Dc].
        rewrite IH by (rewrite Ds; exact Hlen). rewrite Ds, Dc.
        rewrite (switchesFrom_nonempty label) by exact NE.
        unfold Run.switchesFrom. rewrite E0. reflexivity.
      * assert (Hc : Tracker.currentContext t <> "")
          by (apply String.eqb_neq; exact E0).
        rewrite (switchesFrom_nonempty (Tracker.currentContext t)) by exact Hc.
        destruct (String.eqb label (Tracker.currentContext t)) eqn:E1.
        -- destruct D as [Ds Dc]. apply String.eqb_eq in E1.
           rewrite IH by (rewrite Ds; exact Hlen). rewrite Ds, Dc.
           rewrite (switchesFrom_nonempty _ _ Hc).
           rewrite <- E1. rewrite changes_same. reflexivity.
        -- destruct D as (Dc & cs & _ & _ & Ds).
           assert (L := recorded_length cs _ Hlen).
           rewrite IH by (rewrite Ds, L; lia).
           rewrite Ds, L, Dc.
           rewrite (switchesFrom_nonempty label) by exact NE.
           rewrite (changes_other _ _ _ E1). lia.
    + destruct D as [Ds Dc]. cbn [app].
      rewrite IH by (rewrite Ds; exact Hlen). rewrite Ds, Dc. reflexivity.
Qed.

Lemma totalSwitches_length (t : Tracker.Tracker) :
  Tracker.totalSwitches (Tracker.getContextSwitchStatistics t)
  = length (Tracker.contextSwitches t).
Proof.
  unfold Tracker.getContextSwitchStatistics.
  destruct (length (Tracker.contextSwitches t) =? 0)%nat eqn:E.
  - apply Nat.eqb_eq in E. rewrite E. reflexivity.
  - reflexivity.
Qed.

(** C5. On a new tracker the first action records no context switch and
    only establishes the context its candidate label names.  Later, an
    action records a switch, from the current context to its candidate
    label, exactly when it has a candidate label that differs from the
    current context.  Over a whole stream the statistics count the labels
    that differ from their predecessor, up to the 500-entry bound; three
    context-establishing actions with successive distinct labels yield
    [totalSwitches = 2]. *)
Theorem context_switch_counting :
  (forall (cfg : Tracker.SequenceConfig) (now : Z)
          (action : Interfaces.BehavioralAction) (w : Env.World),
     let t' := fst (Tracker.recordAction action (Tracker.fresh cfg now) w) in
     Tracker.contextSwitches t' = [] /\
     (forall label, Tracker.candidateContext action = Some label ->
                    Tracker.currentContext t' = label)) /\
  (forall (t : Tracker.Tracker) (action : Interfaces.BehavioralAction)
          (w : Env.World),
     Tracker.currentContext t <> "" ->
     let t' := fst (Tracker.recordAction action t w) in
     (forall label,
        Tracker.candidateContext action = Some label ->
        label <> Tracker.currentContext t ->
        exists cs,
          Tracker.fromContext cs = Tracker.currentContext t /\
          Tracker.toContext cs = label /\
          Tracker.contextSwitches t'
          = Run.recorded cs (Tracker.contextSwitches t)) /\
     (Tracker.candidateContext action = None \/
      Tracker.candidateContext action = Some (Tracker.currentContext t) ->
      Tracker.contextSwitches t' = Tracker.contextSwitches t)) /\
  (forall (cfg : Tracker.SequenceConfig) (now : Z)
          (acts : list Interfaces.BehavioralAction) (w : Env.World),
     Tracker.totalSwitches
       (Tracker.getContextSwitchStatistics
          (fst (Run.actions acts (Tracker.fresh cfg now) w)))
     = Nat.min Tracker.maxContextSwitches (Spec.switchesOf (Run.labels acts))) /\
  (forall (cfg : Tracker.SequenceConfig) (now : Z)
          (a1 a2 a3 : Interfaces.BehavioralAction) (l1 l2 l3 : string)
          (w : Env.World),
     Tracker.candidateContext a1 = Some l1 ->
     Tracker.candidateContext a2 = Some l2 ->
     Tracker.candidateContext a3 = Some l3 ->
     l1 <> l2 -> l2 <> l3 ->
     Tracker.totalSwitches
       (Tracker.getContextSwitchStatistics
          (fst (Run.actions [a1; a2; a3] (Tracker.fresh cfg now) w))) = 2%nat).
Proof.
  assert (Total : forall cfg now acts w,
     Tracker.totalSwitches
       (Tracker.getContextSwitchStatistics
          (fst (Run.actions acts (Tracker.fresh cfg now) w)))
     = Nat.min Tracker.maxContextSwitches (Spec.switchesOf (Run.labels acts))).
  { intros cfg now acts w. rewrite totalSwitches_length.
    rewrite actions_switches
      by (cbn [Tracker.fresh Tracker.contextSwitches length];
          unfold Tracker.maxContextSwitches; lia).
    reflexivity. }
  split; [|split; [|split]].
  - intros cfg now action w t'. subst t'.
    destruct (recordAction_switches action (Tracker.fresh cfg now) w)
      as (u & Us & Uc & Rs & Rc).
    pose proof (detectContextSwitch_effect action u) as D. cbv zeta in D.
    rewrite <- Rs, <- Rc, Us, Uc in D.
    cbn [Tracker.fresh Tracker.contextSwitches Tracker.currentContext] in D.
    destruct (Tracker.candidateContext action) as [label|].
    + cbn [String.eqb] in D. destruct D as [Ds Dc].
      split; [exact Ds|]. intros l H. inversion H. subst l. exact Dc.
    + destruct D as [Ds _]. split; [exact Ds|]. intros l H. discriminate H.
  - intros t action w Hc t'. subst t'.
    destruct (recordAction_switches action t w) as (u & Us & Uc & Rs & Rc).
    pose proof (detectContextSwitch_effect action u) as D. cbv zeta in D.
    rewrite <- Rs, <- Rc, Us, Uc in D.
    apply String.eqb_neq in Hc.
    split.
    + intros label Hl Hne. rewrite Hl, Hc in D.
      apply String.eqb_neq in Hne. rewrite Hne in D.
      destruct D as (_ & cs & F & T & S). exists cs. repeat split; assumption.
    + intros [Hn|Hs].
      * rewrite Hn in D. apply D.
      * rewrite Hs, Hc, String.eqb_refl in D. apply D.
  - exact Total.
  - intros cfg now a1 a2 a3 l1 l2 l3 w H1 H2 H3 N12 N23.
    rewrite Total. unfold Run.labels. cbn [flat_map].
    rewrite H1, H2, H3. cbn [app Spec.switchesOf Spec.changes].
    assert (E2 : String.eqb l2 l1 = false)
      by (apply String.eqb_neq; congruence).
    assert (E3 : String.eqb l3 l2 = false)
      by (apply String.eqb_neq; congruence).
    rewrite E2, E3. reflexivity.
Qed.

(** ** Pattern-change events *)

Lemma calculatePValue_values (tStat degreesOfFreedom : Q) :
  In (Tracker.calculatePValue tStat degreesOfFreedom)
     [1 # 100; 5 # 100; 10 # 100; 5 # 10].
Proof.
  unfold Tracker.calculatePValue. cbv zeta.
  destruct (JS.gtb _ _); [simpl; tauto|].
  destruct (JS.gtb _ _); [simpl; tauto|].
  destruct (JS.gtb _ _); simpl; tauto.
Qed.

Lemma complement_bounds (p : Q) :
  In p [1 # 100; 5 # 100; 10 # 100; 5 # 10] -> 0 <= 1 - p <= 1.
Proof.
  intros [<-|[<-|[<-|[<-|[]]]]]; split; unfold Qle; simpl; lia.
Qed.

Section PatternChanges.

Variable Math_sqrt : Q -> Q.

Lemma detectPatternChange_event (patternType : string)
  (seqs : list Tracker.ActionSequence) (t : Tracker.Tracker) (w : Env.World) :
  match fst (Tracker.detectPatternChange Math_sqrt patternType seqs t w) with
  | Some ev => Spec.wellFormedEvent t ev
  | None => True
  end.
Proof.
  unfold Tracker.detectPatternChange. cbv zeta.
  destruct (length _ <? 5)%nat; [exact I|].
  match goal with
  | |- context [JS.ltb ?p ?thr] => destruct (JS.ltb p thr) eqn:L
  end; [|exact I].
  apply ltb_lt in L.
  unfold Env.bind, Env.dateNow, Env.ret. cbn [fst].
  unfold Spec.wellFormedEvent.
  cbn [Tracker.statisticalSignificance Tracker.confidence].
  split; [apply calculatePValue_values|].
  split; [exact L|].
  split; [reflexivity|].
  apply complement_bounds, calculatePValue_values.
Qed.

Lemma forEachPatternType_events (patternTypes : list string)
  (recent : list Tracker.ActionSequence) (t : Tracker.Tracker) :
  forall (changes : list Tracker.PatternChangeEvent) (w : Env.World),
    Forall (Spec.wellFormedEvent t) changes ->
    Forall (Spec.wellFormedEvent t)
      (fst (Tracker.forEachPatternType Math_sqrt patternTypes recent t changes w)).
Proof.
  induction patternTypes as [|p rest IH]; intros changes w H.
  - exact H.
  - cbn [Tracker.forEachPatternType]. unfold Env.bind at 1.
    pose proof (detectPatternChange_event p recent t w) as E.
    destruct (Tracker.detectPatternChange Math_sqrt p recent t w) as [change w'].
    cbn [fst] in E. apply IH.
    destruct change as [ev|]; [|exact H].
    unfold JS.push. apply Forall_app. split; [exact H|].
    constructor; [exact E|constructor].
Qed.

(** C2. [detectPatternChanges] returns the empty list when fewer than five
    sequences exist.  Every event it emits carries a significance among
    0.01, 0.05, 0.10 and 0.5 that is strictly below the configured
    threshold, whose default is 0.05, and a confidence equal to one minus
    that significance, which lies between 0 and 1. *)
Theorem detectPatternChanges_events (t : Tracker.Tracker) (w : Env.World) :
  let events := fst (Tracker.detectPatternChanges Math_sqrt t w) in
  ((length (Tracker.sequences t) < 5)%nat -> events = []) /\
  Forall (fun ev =>
            In (Tracker.statisticalSignificance ev)
               [1 # 100; 5 # 100; 10 # 100; 5 # 10] /\
            Tracker.statisticalSignificance ev
            < Tracker.patternChangeThreshold (Tracker.config t) /\
            Tracker.confidence ev = 1 - Tracker.statisticalSignificance ev /\
            0 <= Tracker.confidence ev <= 1) events /\
  Tracker.patternChangeThreshold (Tracker.constructorConfig Tracker.noOverride)
  = 5 # 100.
Proof.
  cbv zeta. unfold Tracker.detectPatternChanges. cbv zeta.
  split; [|split].
  - intro H.
    assert (L : (length (JS.sliceFrom (Tracker.sequences t) (-10)) <? 5)%nat = true).
    { apply Nat.ltb_lt. unfold JS.sliceFrom. rewrite length_skipn. lia. }
    rewrite L. reflexivity.
  - destruct (length _ <? 5)%nat; [constructor|].
    apply (forEachPatternType_events _ _ t [] w). constructor.
  - reflexivity.
Qed.

End PatternChanges.

(** ** Configuration *)

Lemma numOrElse_cases (v : option Q) (d : Q) :
  (v = None -> JS.numOrElse v d = d) /\
  (forall q, v = Some q -> q == 0 -> JS.numOrElse v d = d) /\
  (forall q, v = Some q -> ~ q == 0 -> JS.numOrElse v d = q).
Proof.
  unfold JS.numOrElse. repeat split.
  - intros ->. reflexivity.
  - intros q -> H. apply Qeq_bool_iff in H. rewrite H. reflexivity.
  - intros q -> H. destruct (Qeq_bool q 0) eqn:E; [|reflexivity].
    exfalso. apply H. apply Qeq_bool_iff. exact E.
Qed.

Lemma numOrElse_positive (v : option Q) (d : Q) :
  0 < d -> (forall q, v = Some q -> 0 <= q) -> 0 < JS.numOrElse v d.
Proof.
  intros Hd Hv. unfold JS.numOrElse. destruct v as [q|]; [|exact Hd].
  destruct (Qeq_bool q 0) eqn:E; [exact Hd|].
  specialize (Hv q eq_refl).
  apply Qle_lteq in Hv. destruct Hv as [Hv|Hv]; [exact Hv|].
  exfalso. apply Qeq_bool_neq in E. apply E. symmetry. exact Hv.
Qed.

Lemma spread_positive (old : Q) (new : option Q) :
  0 < old -> (forall q, new = Some q -> 0 < q) -> 0 < Tracker.spread old new.
Proof.
  intros Ho Hn. unfold Tracker.spread. destruct new as [q|]; [|exact Ho].
  apply Hn. reflexivity.
Qed.

(** C7, as stated, fails: a negative size passes through the constructor,
    and [updateConfig] stores a zero. *)
Lemma config_not_always_positive :
  ~ Spec.positiveConfig
      (Tracker.config
         (fst (Tracker.constructor (Scenario.override (-5)) Scenario.world))) /\
  ~ Spec.positiveConfig
      (Tracker.config
         (Tracker.updateConfig (Scenario.override 0)
            (fst (Tracker.constructor Tracker.noOverride Scenario.world)))).
Proof.
  split; intro H; inversion H as [|x l P _]; subst;
    cbn in P; unfold Qlt in P; simpl in P; lia.
Qed.

(** C7, as the code has it.  After construction each field holds the
    override's value when one is supplied and is not zero, and its default
    otherwise; after [updateConfig] each field holds the override's value
    when one is supplied and its previous value otherwise.  So all four
    fields are positive after construction when no supplied value is
    negative, and after [updateConfig] when they were positive before and
    every supplied value is positive. *)
Theorem config_merge (override : Tracker.PartialConfig) (t : Tracker.Tracker)
  (w : Env.World) :
  let built := Tracker.config (fst (Tracker.constructor override w)) in
  let updated := Tracker.config (Tracker.updateConfig override t) in
  Forall (fun field =>
            let '(get, key, default) := field in
            (key override = None -> get built = default) /\
            (forall v, key override = Some v -> v == 0 -> get built = default) /\
            (forall v, key override = Some v -> ~ v == 0 -> get built = v) /\
            (key override = None -> get updated = get (Tracker.config t)) /\
            (forall v, key override = Some v -> get updated = v))
         Spec.configFields /\
  (Spec.supplied (fun v => 0 <= v) override -> Spec.positiveConfig built) /\
  (Spec.positiveConfig (Tracker.config t) ->
   Spec.supplied (fun v => 0 < v) override -> Spec.positiveConfig updated).
Proof.
  cbv zeta. split; [|split].
  - unfold Spec.configFields.
    repeat (apply Forall_cons || apply Forall_nil);
      cbn [Tracker.constructor Env.bind Env.dateNow Env.ret fst Tracker.fresh
           Tracker.config Tracker.constructorConfig Tracker.updateConfig
           Tracker.withConfig Tracker.bufferSize Tracker.contextSwitchThreshold
           Tracker.focusLossThreshold Tracker.patternChangeThreshold];
      (split; [apply numOrElse_cases|]);
      (split; [apply numOrElse_cases|]);
      (split; [apply numOrElse_cases|]);
      (split; [intros ->; reflexivity|intros v ->; reflexivity]).
  - unfold Spec.supplied, Spec.positiveConfig, Spec.configFields.
    intro H.
    inversion H as [|? ? H1 H']; subst. inversion H' as [|? ? H2 H'']; subst.
    inversion H'' as [|? ? H3 H''']; subst. inversion H''' as [|? ? H4 _]; subst.
    cbn [fst snd] in *.
    repeat (apply Forall_cons || apply Forall_nil); cbn [fst];
      cbn [Tracker.constructor Env.bind Env.dateNow Env.ret fst Tracker.fresh
           Tracker.config Tracker.constructorConfig Tracker.bufferSize
           Tracker.contextSwitchThreshold Tracker.focusLossThreshold
           Tracker.patternChangeThreshold];
      apply numOrElse_positive; try assumption; reflexivity.
  - unfold Spec.supplied, Spec.positiveConfig, Spec.configFields.
    intros P H.
    inversion H as [|? ? H1 H']; subst. inversion H' as [|? ? H2 H'']; subst.
    inversion H'' as [|? ? H3 H''']; subst. inversion H''' as [|? ? H4 _]; subst.
    inversion P as [|? ? P1 P']; subst. inversion P' as [|? ? P2 P'']; subst.
    inversion P'' as [|? ? P3 P''']; subst. inversion P''' as [|? ? P4 _]; subst.
    cbn [fst snd] in *.
    repeat (apply Forall_cons || apply Forall_nil); cbn [fst];
      cbn [Tracker.config Tracker.updateConfig Tracker.withConfig
           Tracker.bufferSize Tracker.contextSwitchThreshold
           Tracker.focusLossThreshold Tracker.patternChangeThreshold];
      apply spread_positive; assumption.
Qed.

(** ** Sessions *)

Lemma to_int_proper (z : Z) :
  Z.to_int z <> Decimal.Pos Decimal.Nil /\ Z.to_int z <> Decimal.Neg Decimal.Nil.
Proof.
  destruct z as [|p|p]; cbn [Z.to_int]; split; intro H; inversion H as [E];
    apply (DecimalPos.Unsigned.to_uint_nonnil p E).
Qed.

Lemma decimal_inj (a b : Z) : JS.decimal a = JS.decimal b -> a = b.
Proof.
  unfold JS.decimal. intro H.
  apply DecimalZ.to_int_inj.
  destruct (to_int_proper a) as [A1 A2]. destruct (to_int_proper b) as [B1 B2].
  pose proof (NilZero.isi (Z.to_int a) A1 A2) as Ia.
  pose proof (NilZero.isi (Z.to_int b) B1 B2) as Ib.
  rewrite H in Ia. rewrite Ia in Ib. inversion Ib. reflexivity.
Qed.

Lemma decimal_no_underscore (z : Z) :
  ~ In "_"%char (list_ascii_of_string (JS.decimal z)).
Proof.
  intro H.
  assert (D : forall n, (0 <= n)%Z ->
                ~ In "_"%char (list_ascii_of_string (JS.decimal n))).
  { intros n Hn Hin. pose proof (decimal_chars n Hn _ Hin) as C.
    simpl in C. repeat (destruct C as [C|C]; [discriminate C|]). exact C. }
  destruct z as [|p|p].
  - apply (D 0%Z); [lia|exact H].
  - apply (D (Z.pos p)); [lia|exact H].
  - unfold JS.decimal in H. cbn [Z.to_int NilZero.string_of_int] in H.
    cbn [list_ascii_of_string] in H. destruct H as [H|H]; [discriminate H|].
    apply (D (Z.pos p)); [lia|exact H].
Qed.

Lemma split_at_underscore (a a' b b' : string) :
  ~ In "_"%char (list_ascii_of_string a) ->
  ~ In "_"%char (list_ascii_of_string a') ->
  (a ++ "_" ++ b)%string = (a' ++ "_" ++ b')%string ->
  a = a' /\ b = b'.
Proof.
  revert a'. induction a as [|c a IH]; intros a' Ha Ha' E.
  - destruct a' as [|c' a'].
    + simpl in E. inversion E. split; reflexivity.
    + simpl in E. inversion E. subst c'. exfalso. apply Ha'. left. reflexivity.
  - destruct a' as [|c' a'].
    + simpl in E. inversion E. subst c. exfalso. apply Ha. left. reflexivity.
    + simpl in E. inversion E. subst c'.
      destruct (IH a') as [-> ->]; try assumption.
      * intro H. apply Ha. right. exact H.
      * intro H. apply Ha'. right. exact H.
      * split; reflexivity.
Qed.

Lemma sessionIdOf_inj (now now' : Z) (draw draw' : string) :
  Spec.sessionIdOf now draw = Spec.sessionIdOf now' draw' ->
  now = now' /\ String.substring 2 9 draw = String.substring 2 9 draw'.
Proof.
  unfold Spec.sessionIdOf. intro E.
  assert (E' : (JS.decimal now ++ "_" ++ String.substring 2 9 draw)%string
               = (JS.decimal now' ++ "_" ++ String.substring 2 9 draw')%string).
  { simpl in E. injection E as E0. exact E0. }
  apply split_at_underscore in E'; try apply decimal_no_underscore.
  destruct E' as [D S]. split; [apply decimal_inj; exact D|exact S].
Qed.

Lemma filter_none {A : Type} (f : A -> bool) (l : list A) :
  (forall x, In x l -> f x = false) -> filter f l = [].
Proof.
  induction l as [|a l IH]; intro H; [reflexivity|].
  simpl. rewrite (H a (or_introl eq_refl)).
  apply IH. intros x Hx. apply H. right. exact Hx.
Qed.

(** C8, as stated, fails: within one millisecond, and with a random draw
    that shares its first nine digits with the previous one,
    [startNewSession] yields the previous session id again and the session
    still counts the metrics stored before. *)
Lemma startNewSession_same_id :
  let '(e, w) := Scenario.slowTyping 0 in
  let '(e', w') := Engine.startNewSession e w in
  Engine.currentSession (Engine.patternStorage e')
  = Engine.currentSession (Engine.patternStorage e) /\
  Engine.metricsCount (fst (Engine.getSessionStatistics e' w')) = 1%nat.
Proof. vm_compute. split; reflexivity. Qed.

(** C8, as the code has it.  [startNewSession] sets the session id to
    "session_", the clock reading, "_" and nine characters of the random
    draw; a later call yields that id again only if both its clock reading
    and its random characters are the same.  It empties the keystroke
    analyzer's buffers and leaves the pattern index and the metrics history
    unchanged.  Afterwards [metricsCount] counts the history entries tagged
    with the new id, so it is 0 whenever no entry carries that id. *)
Theorem startNewSession_effect (e : Engine.Engine) (w : Env.World) :
  let e' := fst (Engine.startNewSession e w) in
  let w' := snd (Engine.startNewSession e w) in
  let session := Engine.currentSession (Engine.patternStorage e') in
  session = Spec.sessionIdOf (Env.clock w (Env.reads w))
                             (Env.random w (Env.draws w)) /\
  (forall w2 : Env.World,
     Engine.currentSession
       (Engine.patternStorage (fst (Engine.startNewSession e' w2))) = session ->
     Env.clock w2 (Env.reads w2) = Env.clock w (Env.reads w) /\
     String.substring 2 9 (Env.random w2 (Env.draws w2))
     = String.substring 2 9 (Env.random w (Env.draws w))) /\
  Keystroke.keyEvents (Engine.keystrokeAnalyzer e') = [] /\
  Keystroke.timingBuffer (Engine.keystrokeAnalyzer e') = [] /\
  Engine.patterns (Engine.patternStorage e')
  = Engine.patterns (Engine.patternStorage e) /\
  Engine.metricsHistory e' = Engine.metricsHistory e /\
  Engine.metricsCount (fst (Engine.getSessionStatistics e' w'))
  = length (filter (fun m => String.eqb (Engine.sessionId m) session)
                   (Engine.metricsHistory e)) /\
  (~ In session (map Engine.sessionId (Engine.metricsHistory e)) ->
   Engine.metricsCount (fst (Engine.getSessionStatistics e' w')) = 0%nat).
Proof.
  cbv zeta.
  assert (Count :
    Engine.metricsCount
      (fst (Engine.getSessionStatistics (fst (Engine.startNewSession e w))
              (snd (Engine.startNewSession e w))))
    = length (filter
                (fun m => String.eqb (Engine.sessionId m)
                   (Engine.currentSession
                      (Engine.patternStorage (fst (Engine.startNewSession e w)))))
                (Engine.metricsHistory e))) by reflexivity.
  split; [reflexivity|].
  split; [intros w2 H; apply (sessionIdOf_inj _ _ _ _ H)|].
  do 4 (split; [reflexivity|]).
  split; [exact Count|].
  intro Fresh. rewrite Count. rewrite filter_none; [reflexivity|].
  intros m Hm. apply String.eqb_neq. intro E. apply Fresh.
  rewrite <- E. apply in_map. exact Hm.
Qed.

(** ** Fatigue *)

Section Fatigue.

Variable Math_sqrt : Q -> Q.

(** C9. [detectFatigue] returns the all-zero indicators whenever the
    metrics history has at most 10 entries, exactly 10 included: an
    indicator other than zero needs at least 11 entries. *)
Theorem detectFatigue_needs_eleven (e : Engine.Engine) :
  (length (Engine.metricsHistory e) <= 10)%nat ->
  Engine.detectFatigue Math_sqrt e
  = {| Engine.typingSpeedDecline := 0; Engine.increasedPauseFrequency := 0;
       Engine.rhythmInconsistency := 0; Engine.overallFatigueScore := 0 |}.
Proof.
  intro H. unfold Engine.detectFatigue. cbv zeta.
  destruct (length (Engine.metricsHistory e) <? Engine.fatigueWindowSize)%nat
    eqn:E; [reflexivity|].
  apply Nat.ltb_ge in E. unfold Engine.fatigueWindowSize in E.
  assert (L : length (Engine.metricsHistory e) = 10%nat) by lia.
  unfold JS.slice. rewrite L. reflexivity.
Qed.

Lemma max_nonneg (x : Q) : 0 <= JS.max 0 x.
Proof.
  unfold JS.max. destruct (JS.ltb 0 x) eqn:E.
  - apply Qlt_le_weak, ltb_lt. exact E.
  - apply Qle_refl.
Qed.

Lemma clamped_nonneg (guard : bool) (x : Q) :
  0 <= (if guard then JS.max 0 x else 0).
Proof. destruct guard; [apply max_nonneg|apply Qle_refl]. Qed.

(** Each indicator, and their mean, is clamped below at 0 (and nowhere
    above). *)
Lemma detectFatigue_nonnegative (e : Engine.Engine) :
  let f := Engine.detectFatigue Math_sqrt e in
  0 <= Engine.typingSpeedDecline f /\
  0 <= Engine.increasedPauseFrequency f /\
  0 <= Engine.rhythmInconsistency f /\
  0 <= Engine.overallFatigueScore f.
Proof.
  cbv zeta. unfold Engine.detectFatigue. cbv zeta.
  destruct (length (Engine.metricsHistory e) <? Engine.fatigueWindowSize)%nat;
    [repeat split; apply Qle_refl|].
  destruct (length _ =? 0)%nat; [repeat split; apply Qle_refl|].
  cbn [Engine.typingSpeedDecline Engine.increasedPauseFrequency
       Engine.rhythmInconsistency Engine.overallFatigueScore].
  match goal with
  | |- 0 <= ?a /\ 0 <= ?b /\ 0 <= ?c /\ _ =>
      assert (Ha : 0 <= a) by apply clamped_nonneg;
      assert (Hb : 0 <= b) by apply clamped_nonneg;
      assert (Hc : 0 <= c) by apply clamped_nonneg;
      generalize dependent a; generalize dependent b; generalize dependent c
  end.
  intros c Hc b Hb a Ha. repeat split; try assumption.
  apply Qle_shift_div_l; [reflexivity|]. lra.
Qed.

End Fatigue.

(** With 11 entries an indicator can already be other than zero. *)
Lemma detectFatigue_at_eleven :
  let e := fst (Scenario.slowTyping 10) in
  length (Engine.metricsHistory e) = 11%nat /\
  Engine.increasedPauseFrequency (Engine.detectFatigue Scenario.sqrtFloor e)
  == 11 # 2.
Proof. vm_compute. split; reflexivity. Qed.

(** C1 fails on the code: the three indicators are bounded below by 0 only.
    After eleven [calculateMetrics] calls of ever slower typing the pause
    indicator is 11/2 and the overall score 3270409/1663200, above 1; the
    next [calculateMetrics] call returns that score as its [fatigueLevel].
    Every square root of this run is taken of 0. *)
Theorem fatigue_score_exceeds_one :
  let e := fst (Scenario.slowTyping 10) in
  let w := snd (Scenario.slowTyping 10) in
  let indicators := Engine.detectFatigue Scenario.sqrtFloor e in
  let score := Engine.overallFatigueScore indicators in
  let level :=
    Interfaces.fatigueLevel
      (fst (fst (Engine.calculateMetrics Scenario.sqrtFloor [] e w))) in
  length (Engine.metricsHistory e) = 11%nat /\
  Engine.increasedPauseFrequency indicators == 11 # 2 /\
  score == 3270409 # 1663200 /\ 1 < score /\ level == score /\ 1 < level.
Proof. vm_compute. repeat split; reflexivity. Qed.

(** ** The theorems on the sample inputs *)

(** Five buffered intervals with two bursts and one pause. *)
Lemma extractTimingPatterns_spec_witness :
  let intervals := Keystroke.timingBuffer Scenario.typed in
  let p := Keystroke.extractTimingPatterns Scenario.typed in
  (2 <= length intervals)%nat /\
  (Keystroke.averageInterval p == Spec.mean intervals /\
   Keystroke.variance p == Spec.populationVariance intervals /\
   Forall2 Qeq (Keystroke.rhythm p) (Spec.movingAverages 5 intervals) /\
   length (Keystroke.rhythm p) = (length intervals - 4)%nat /\
   ((length intervals < 5)%nat -> Keystroke.rhythm p = []) /\
   Keystroke.pauseCount p = Spec.countAbove 1000 intervals /\
   Keystroke.burstCount p = Spec.countBelow 100 intervals) /\
  Keystroke.pauseCount p = 1%nat /\ Keystroke.burstCount p = 2%nat.
Proof.
  cbv zeta. split; [vm_compute; lia|]. split; [|split; reflexivity].
  apply (proj2 (extractTimingPatterns_spec Scenario.typed)).
  vm_compute; lia.
Defined.

(** A tracker with a buffer of three fed eighteen keystrokes. *)
Lemma buffers_bounded_fifo_witness :
  0 <= Tracker.bufferSize (Tracker.config Scenario.smallTracker) /\
  JS.len (Tracker.actionBuffer
            (fst (Run.actions (map Scenario.keystrokeAt Scenario.stamps)
                              Scenario.smallTracker Scenario.world)))
  <= Tracker.bufferSize (Tracker.config Scenario.smallTracker).
Proof.
  split; [vm_compute; intro H; discriminate H|].
  apply (proj2 (proj2 buffers_bounded_fifo)
           (Tracker.constructorConfig (Scenario.override 3)) 0%Z
           (map Scenario.keystrokeAt Scenario.stamps) Scenario.world).
  vm_compute; intro H; discriminate H.
Defined.

(** The same run holds six sequences of three actions. *)
Lemma sequences_hold_bufferSize_actions_witness :
  0 < Tracker.bufferSize (Tracker.constructorConfig (Scenario.override 3)) /\
  Forall (fun s => JS.len (Tracker.actions s) == 3)
         (Tracker.sequences Scenario.sixSequences) /\
  length (Tracker.sequences Scenario.sixSequences) = 6%nat.
Proof.
  split; [vm_compute; reflexivity|]. split; [|reflexivity].
  apply (sequences_hold_bufferSize_actions
           (Tracker.constructorConfig (Scenario.override 3)) 0%Z
           (map Scenario.keystrokeAt Scenario.stamps) Scenario.world).
  vm_compute; reflexivity.
Defined.

(** Three explicit switches: the first establishes the context. *)
Lemma context_switch_counting_witness :
  Tracker.totalSwitches
    (Tracker.getContextSwitchStatistics
       (fst (Run.actions Scenario.threeSwitches
               (Tracker.fresh (Tracker.constructorConfig Tracker.noOverride) 0)
               Scenario.world)))
  = 2%nat.
Proof.
  apply (proj2 (proj2 (proj2 context_switch_counting))
           (Tracker.constructorConfig Tracker.noOverride) 0%Z
           (Scenario.switchTo 0 "file2.ts" "file_switch")
           (Scenario.switchTo 1000 "terminal" "manual")
           (Scenario.switchTo 2000 "file1.ts" "file_switch")
           "file2.ts" "terminal" "file1.ts" Scenario.world);
    try reflexivity; intro H; discriminate H.
Defined.

(** The key "Enter" does not appear in its token. *)
Lemma hashKey_token_witness :
  Keystroke.hashKey "Enter" = "key_67114680" /\
  JS.includes (Keystroke.hashKey "Enter") "Enter" = false.
Proof.
  split; [reflexivity|].
  apply (proj2 (proj2 (proj2 (hashKey_token "Enter")))).
  exists "E"%char. split; [simpl; tauto|].
  intro H. simpl in H.
  repeat (destruct H as [H|H]; [discriminate H|]). exact H.
Defined.

(** C6, as stated, fails: the raw key "e" appears in its token "key_101". *)
Lemma hashKey_contains_key :
  Keystroke.hashKey "e" = "key_101" /\
  JS.includes (Keystroke.hashKey "e") "e" = true.
Proof. split; reflexivity. Qed.

(** An override of the buffer size alone. *)
Lemma config_merge_witness :
  Spec.supplied (fun v => 0 <= v) (Scenario.override 75) /\
  Spec.positiveConfig
    (Tracker.config
       (fst (Tracker.constructor (Scenario.override 75) Scenario.world))).
Proof.
  assert (S : Spec.supplied (fun v => 0 <= v) (Scenario.override 75)).
  { unfold Spec.supplied, Spec.configFields.
    repeat (apply Forall_cons || apply Forall_nil);
      cbn [fst snd Scenario.override Tracker.optBufferSize
           Tracker.optContextSwitchThreshold Tracker.optFocusLossThreshold
           Tracker.optPatternChangeThreshold];
      intros v H; inversion H; subst; vm_compute; intro C; discriminate C. }
  split; [exact S|].
  apply (proj1 (proj2 (config_merge (Scenario.override 75)
                         Scenario.smallTracker Scenario.world))).
  exact S.
Defined.

(** A new session under a later clock reading. *)
Lemma startNewSession_effect_witness :
  let e := fst (Scenario.slowTyping 0) in
  let e' := fst (Engine.startNewSession e Scenario.laterWorld) in
  let w' := snd (Engine.startNewSession e Scenario.laterWorld) in
  Engine.currentSession (Engine.patternStorage e') = "session_2000_4fzyo82mv" /\
  Engine.metricsCount (fst (Engine.getSessionStatistics e' w')) = 0%nat.
Proof.
  cbv zeta. split; [reflexivity|].
  apply (proj2 (proj2 (proj2 (proj2 (proj2 (proj2 (proj2
           (startNewSession_effect (fst (Scenario.slowTyping 0))
              Scenario.laterWorld)))))))).
  vm_compute. intros [H|H]; [discriminate H|exact H].
Defined.

(** Ten stored metrics are not enough. *)
Lemma detectFatigue_needs_eleven_witness :
  let e := fst (Scenario.slowTyping 9) in
  length (Engine.metricsHistory e) = 10%nat /\
  Engine.detectFatigue Scenario.sqrtFloor e
  = {| Engine.typingSpeedDecline := 0; Engine.increasedPauseFrequency := 0;
       Engine.rhythmInconsistency := 0; Engine.overallFatigueScore := 0 |}.
Proof.
  cbv zeta. split; [reflexivity|].
  apply (detectFatigue_needs_eleven Scenario.sqrtFloor).
  vm_compute; lia.
Defined.

(** No sequence yet, and six sequences with a marked slow-down. *)
Lemma detectPatternChanges_events_witness :
  fst (Tracker.detectPatternChanges Scenario.sqrtFloor Scenario.smallTracker
         Scenario.world) = [] /\
  map Tracker.statisticalSignificance
    (fst (Tracker.detectPatternChanges Scenario.sqrtFloor Scenario.sixSequences
            Scenario.world)) = [1 # 100; 1 # 100] /\
  Forall (fun ev =>
            In (Tracker.statisticalSignificance ev)
               [1 # 100; 5 # 100; 10 # 100; 5 # 10] /\
            Tracker.statisticalSignificance ev
            < Tracker.patternChangeThreshold (Tracker.config Scenario.sixSequences) /\
            Tracker.confidence ev = 1 - Tracker.statisticalSignificance ev /\
            0 <= Tracker.confidence ev <= 1)
         (fst (Tracker.detectPatternChanges Scenario.sqrtFloor
                 Scenario.sixSequences Scenario.world)).
Proof.
  split; [|split].
  - apply (proj1 (detectPatternChanges_events Scenario.sqrtFloor
                    Scenario.smallTracker Scenario.world)).
    vm_compute; lia.
  - reflexivity.
  - apply (proj1 (proj2 (detectPatternChanges_events Scenario.sqrtFloor
                           Scenario.sixSequences Scenario.world))).
Defined.

(** * Further properties of the three components *)

(** ** The hash as a polynomial *)

Lemma toInt32_cong (a b : Z) :
  (a mod 2 ^ 32 = b mod 2 ^ 32)%Z -> JS.toInt32 a = JS.toInt32 b.
Proof.
  intro H. unfold JS.toInt32.
  rewrite (Z.add_mod a), (Z.add_mod b), H by lia. reflexivity.
Qed.

Lemma toInt32_mod (a : Z) : (JS.toInt32 a mod 2 ^ 32 = a mod 2 ^ 32)%Z.
Proof.
  unfold JS.toInt32.
  rewrite Zminus_mod_idemp_l. f_equal. lia.
Qed.

Lemma toInt32_fixed (h : Z) :
  (- 2 ^ 31 <= h < 2 ^ 31)%Z -> JS.toInt32 h = h.
Proof.
  intro H. unfold JS.toInt32. rewrite Z.mod_small; lia.
Qed.

Lemma hashStep_mod (h code : Z) :
  ((JS.toInt32 (JS.toInt32 h * 2 ^ 5) - h + code) mod 2 ^ 32
   = (31 * h + code) mod 2 ^ 32)%Z.
Proof.
  rewrite <- Z.add_sub_swap, Zminus_mod, Zplus_mod, toInt32_mod.
  rewrite Z.mul_mod, toInt32_mod by lia.
  rewrite <- Z.mul_mod, <- Zplus_mod, <- Zminus_mod by lia.
  f_equal. lia.
Qed.

Lemma hashStep_poly (h : Z) (c : ascii) :
  Keystroke.hashStep h c = JS.toInt32 (31 * h + Z.of_N (N_of_ascii c)).
Proof.
  unfold Keystroke.hashStep, JS.band, JS.shl.
  rewrite Z.land_diag.
  rewrite (toInt32_fixed (JS.toInt32 _)) by apply toInt32_range.
  apply toInt32_cong.
  rewrite Z.shiftl_mul_pow2 by lia.
  apply hashStep_mod.
Qed.

Lemma polyHash_cons (c : ascii) (rest : string) (h : Z) :
  Ref.polyHash (String c rest) h
  = Ref.polyHash rest (31 * h + Z.of_N (N_of_ascii c)).
Proof.
  cbv beta iota delta [Ref.polyHash]; fold Ref.polyHash. reflexivity.
Qed.

Lemma polyHash_cong (key : string) :
  forall a b : Z,
    (a mod 2 ^ 32 = b mod 2 ^ 32)%Z ->
    (Ref.polyHash key a mod 2 ^ 32 = Ref.polyHash key b mod 2 ^ 32)%Z.
Proof.
  induction key as [|c rest IH]; intros a b H.
  - exact H.
  - rewrite !polyHash_cons. apply IH.
    rewrite (Z.add_mod (31 * a)), (Z.add_mod (31 * b)) by lia.
    rewrite (Z.mul_mod 31 a), (Z.mul_mod 31 b), H by lia. reflexivity.
Qed.

Lemma hashLoop_cons (c : ascii) (rest : string) (h : Z) :
  Keystroke.hashLoop (String c rest) h
  = Keystroke.hashLoop rest (Keystroke.hashStep h c).
Proof.
  cbv beta iota delta [Keystroke.hashLoop]; fold Keystroke.hashLoop.
  reflexivity.
Qed.

Lemma hashStep_range (h : Z) (c : ascii) :
  (- 2 ^ 31 <= Keystroke.hashStep h c < 2 ^ 31)%Z.
Proof. rewrite hashStep_poly. apply toInt32_range. Qed.

Lemma hashLoop_poly (key : string) :
  forall h : Z,
    (- 2 ^ 31 <= h < 2 ^ 31)%Z ->
    Keystroke.hashLoop key h = JS.toInt32 (Ref.polyHash key h).
Proof.
  induction key as [|c rest IH]; intros h H.
  - symmetry. exact (toInt32_fixed h H).
  - rewrite polyHash_cons, hashLoop_cons.
    rewrite (IH _ (hashStep_range h c)).
    apply toInt32_cong. apply polyHash_cong.
    rewrite hashStep_poly. apply toInt32_mod.
Qed.

Lemma polyHash_app (s t : string) :
  forall h : Z, Ref.polyHash (s ++ t) h = Ref.polyHash t (Ref.polyHash s h).
Proof.
  induction s as [|c rest IH]; intro h; [reflexivity|].
  change ((String c rest ++ t)%string) with (String c (rest ++ t)).
  rewrite !polyHash_cons. apply IH.
Qed.

Lemma append_inj_l (p s t : string) : (p ++ s = p ++ t)%string -> s = t.
Proof.
  induction p as [|c rest IH]; simpl; intro H; [exact H|].
  injection H as H. apply IH, H.
Qed.

(** X1. [hashKey] is the 32-bit wrap-around of the base-31 polynomial of the
    character codes (the string hash of Java), followed by [Math.abs]. *)
Theorem hashKey_polynomial (key : string) :
  Keystroke.hashKey key
  = ("key_" ++ JS.decimal (Z.abs (JS.toInt32 (Ref.polyHash key 0))))%string /\
  (forall (c : ascii) (h : Z),
     Keystroke.hashStep h c = JS.toInt32 (31 * h + Z.of_N (N_of_ascii c))).
Proof.
  split.
  - unfold Keystroke.hashKey. rewrite hashLoop_poly by lia. reflexivity.
  - intros c h. apply hashStep_poly.
Qed.

(** X2. [hashKey] is not injective: two keys that differ only in an
    occurrence of "Aa" against "BB" are different strings with the same
    token. *)
Theorem hashKey_collisions (p s : string) :
  (p ++ "Aa" ++ s)%string <> (p ++ "BB" ++ s)%string /\
  Keystroke.hashKey (p ++ "Aa" ++ s) = Keystroke.hashKey (p ++ "BB" ++ s).
Proof.
  split.
  - intro H. apply append_inj_l in H. discriminate H.
  - unfold Keystroke.hashKey. rewrite !hashLoop_poly by lia.
    rewrite !polyHash_app.
    assert (E : forall h, Ref.polyHash "Aa" h = Ref.polyHash "BB" h).
    { intro h. cbn [Ref.polyHash].
      change (Z.of_N (N_of_ascii "A")) with 65%Z.
      change (Z.of_N (N_of_ascii "a")) with 97%Z.
      change (Z.of_N (N_of_ascii "B")) with 66%Z. lia. }
    rewrite E. reflexivity.
Qed.

(** ** Pauses, bursts, typing speed and decision time *)

Lemma len_nonneg {A : Type} (l : list A) : 0 <= JS.len l.
Proof. unfold JS.len, Qle; simpl. lia. Qed.

Lemma len_cons {A : Type} (x : A) (l : list A) :
  JS.len (x :: l) == JS.len l + 1.
Proof.
  unfold JS.len. cbn [length]. rewrite Nat2Z.inj_succ, <- Z.add_1_r.
  rewrite inject_Z_plus. reflexivity.
Qed.

Lemma len_pos {A : Type} (l : list A) : l <> [] -> 0 < JS.len l.
Proof.
  destruct l as [|x l]; [congruence|]. intros _.
  rewrite len_cons. pose proof (len_nonneg l). lra.
Qed.

Lemma pause_buckets (l : list Q) :
  (length (filter (fun p => JS.ltb p 2000) l)
   + length (filter (fun p => JS.geb p 2000 && JS.ltb p 5000) l)
   + length (filter (fun p => JS.geb p 5000) l) = length l)%nat.
Proof.
  induction l as [|a l IH]; [reflexivity|].
  cbn [filter]. unfold JS.ltb, JS.geb in *.
  destruct (Qle_bool 2000 a) eqn:E1, (Qle_bool 5000 a) eqn:E2;
    cbn [negb andb length]; try lia.
  apply Qle_bool_iff in E2.
  assert (E : Qle_bool 2000 a = true) by (apply Qle_bool_iff; lra).
  congruence.
Qed.

Lemma disjoint_filters {A : Type} (f g : A -> bool) (l : list A) :
  (forall x, f x = true -> g x = true -> False) ->
  (length (filter f l) + length (filter g l) <= length l)%nat.
Proof.
  intro H. induction l as [|a l IH]; [simpl; lia|].
  cbn [filter]. destruct (f a) eqn:Ef, (g a) eqn:Eg; cbn [length]; try lia.
  exfalso. exact (H a Ef Eg).
Qed.

Lemma filter_weaker {A : Type} (f g : A -> bool) (l : list A) :
  (forall x, f x = true -> g x = true) ->
  (length (filter f l) <= length (filter g l))%nat.
Proof.
  intro H. induction l as [|a l IH]; [simpl; lia|].
  cbn [filter]. destruct (f a) eqn:Ef.
  - rewrite (H a Ef). cbn [length]. lia.
  - destruct (g a); cbn [length]; lia.
Qed.

Lemma analyzePausePatterns_nonneg (a : Keystroke.Analyzer) :
  Forall (fun n => 0 <= n) (Keystroke.analyzePausePatterns a).
Proof.
  unfold Keystroke.analyzePausePatterns. repeat constructor; apply len_nonneg.
Qed.

(** X3. The three pause classes (below 2 s, 2 s to 5 s, from 5 s) partition
    the pauses; pauses and bursts are disjoint, and every negative interval
    (a keystroke stamped before its predecessor) counts as a burst. *)
Theorem pause_burst_accounting (a : Keystroke.Analyzer) :
  let intervals := Keystroke.timingBuffer a in
  length (Keystroke.analyzePausePatterns a) = 3%nat /\
  Forall (fun n => 0 <= n) (Keystroke.analyzePausePatterns a) /\
  JS.sum (Keystroke.analyzePausePatterns a)
  == inject_Z (Z.of_nat (Keystroke.countPauses intervals)) /\
  (Keystroke.countPauses intervals + Keystroke.countBursts intervals
   <= length intervals)%nat /\
  (length (filter (fun x => JS.ltb x 0) intervals)
   <= Keystroke.countBursts intervals)%nat.
Proof.
  cbv zeta. split; [reflexivity|]. split; [|split; [|split]].
  - apply analyzePausePatterns_nonneg.
  - unfold Keystroke.analyzePausePatterns, Keystroke.countPauses.
    set (pauses := filter _ (Keystroke.timingBuffer a)).
    rewrite <- (pause_buckets pauses).
    unfold JS.sum, JS.len. cbn [fold_left].
    rewrite !Nat2Z.inj_add, !inject_Z_plus. ring.
  - apply disjoint_filters. intros x Hp Hb.
    apply gtb_gt in Hp. apply ltb_lt in Hb.
    unfold Keystroke.pauseThreshold, Keystroke.burstThreshold in *. lra.
  - apply filter_weaker. intros x Hx.
    apply ltb_lt in Hx. apply ltb_lt.
    unfold Keystroke.burstThreshold. lra.
Qed.

Lemma total_above (b : Q) (l : list Q) :
  Forall (fun x => b < x) l -> l <> [] -> b * JS.len l < Spec.total l.
Proof.
  induction 1 as [|x l Hx Hl IH]; [congruence|]. intros _.
  rewrite len_cons. cbn [Spec.total fold_right].
  destruct l as [|y l].
  - unfold JS.len; simpl. change (inject_Z 0) with 0. lra.
  - assert (H : b * JS.len (y :: l) < Spec.total (y :: l))
      by (apply IH; discriminate).
    unfold Spec.total in H. lra.
Qed.

Lemma mean_above (b : Q) (l : list Q) :
  Forall (fun x => b < x) l -> l <> [] -> b < Keystroke.calculateMean l.
Proof.
  intros Hl Hne. unfold Keystroke.calculateMean.
  apply Qlt_shift_div_l; [apply len_pos, Hne|].
  rewrite sum_total. apply total_above; assumption.
Qed.

Lemma calculateTypingSpeed_nonneg (a : Keystroke.Analyzer) :
  0 <= Keystroke.calculateTypingSpeed a.
Proof.
  unfold Keystroke.calculateTypingSpeed.
  destruct (length (Keystroke.keyEvents a) <? 2)%nat; [lra|].
  destruct (nth_error _ _) as [final|]; [|lra].
  destruct (nth_error _ 0) as [first|]; [|lra].
  cbv zeta. destruct (JS.gtb _ 0) eqn:E; [|lra].
  apply gtb_gt in E. apply Qle_shift_div_l; [exact E|].
  rewrite Qmult_0_l. apply Qle_shift_div_l; [lra|].
  rewrite Qmult_0_l. apply len_nonneg.
Qed.

Lemma calculateDecisionTime_cases (a : Keystroke.Analyzer) :
  (Keystroke.countPauses (Keystroke.timingBuffer a) = 0%nat /\
   Keystroke.calculateDecisionTime a = 0) \/
  (Keystroke.countPauses (Keystroke.timingBuffer a) <> 0%nat /\
   1000 < Keystroke.calculateDecisionTime a).
Proof.
  unfold Keystroke.countPauses, Keystroke.calculateDecisionTime.
  set (pauses := filter _ (Keystroke.timingBuffer a)).
  destruct (0 <? length pauses)%nat eqn:E.
  - right. apply Nat.ltb_lt in E. split; [lia|].
    apply (mean_above 1000).
    + apply Forall_forall. intros x Hx.
      apply filter_In in Hx. destruct Hx as [_ Hx]. apply gtb_gt in Hx.
      exact Hx.
    + intro Hnil. rewrite Hnil in E. simpl in E. lia.
  - left. apply Nat.ltb_ge in E. split; [lia | reflexivity].
Qed.

(** X4. The typing speed is never negative, and is zero with fewer than two
    buffered events or when the newest one is not later than the oldest;
    the decision time is zero without a pause and above the pause threshold
    otherwise. *)
Theorem typing_speed_and_decision_time (a : Keystroke.Analyzer) :
  0 <= Keystroke.calculateTypingSpeed a /\
  ((length (Keystroke.keyEvents a) < 2)%nat ->
   Keystroke.calculateTypingSpeed a = 0) /\
  (forall first final,
     nth_error (Keystroke.keyEvents a) 0 = Some first ->
     nth_error (Keystroke.keyEvents a) (length (Keystroke.keyEvents a) - 1)
     = Some final ->
     Keystroke.timestamp final <= Keystroke.timestamp first ->
     Keystroke.calculateTypingSpeed a = 0) /\
  (Keystroke.countPauses (Keystroke.timingBuffer a) = 0%nat ->
   Keystroke.calculateDecisionTime a = 0) /\
  (Keystroke.countPauses (Keystroke.timingBuffer a) <> 0%nat ->
   1000 < Keystroke.calculateDecisionTime a).
Proof.
  split; [|split; [|split; [|split]]].
  - apply calculateTypingSpeed_nonneg.
  - intro H. unfold Keystroke.calculateTypingSpeed.
    apply Nat.ltb_lt in H. rewrite H. reflexivity.
  - intros first final Hf Hl Hle. unfold Keystroke.calculateTypingSpeed.
    destruct (length (Keystroke.keyEvents a) <? 2)%nat; [reflexivity|].
    rewrite Hf, Hl. cbv zeta.
    destruct (JS.gtb _ 0) eqn:E; [|reflexivity].
    apply gtb_gt in E. exfalso.
    assert (H : 0 < Keystroke.timestamp final - Keystroke.timestamp first).
    { setoid_replace (Keystroke.timestamp final - Keystroke.timestamp first)
        with ((Keystroke.timestamp final - Keystroke.timestamp first)
              / (1000 * 60) * (1000 * 60)) by (field).
      apply Qmult_lt_0_compat; [exact E | lra]. }
    lra.
  - intro H. destruct (calculateDecisionTime_cases a) as [[_ E]|[E _]];
      [exact E | contradiction].
  - intro H. destruct (calculateDecisionTime_cases a) as [[E _]|[_ E]];
      [contradiction | exact E].
Qed.

Lemma gaps_length (l : list Q) : length (Spec.gaps l) = (length l - 1)%nat.
Proof.
  induction l as [|x [|y l] IH]; [reflexivity | reflexivity |].
  cbn [Spec.gaps length] in *. rewrite IH. lia.
Qed.

Lemma lastn_shorter {A : Type} (n : nat) (l : list A) :
  (length (Spec.lastn n l) <= length l)%nat.
Proof. unfold Spec.lastn. rewrite length_skipn. lia. Qed.

(** X5. After [clearData] the analyzer is empty: nothing is exported, and a
    timing pattern other than the default needs two intervals, that is three
    keystrokes; the typing speed needs two. *)
Theorem patterns_need_three_keystrokes (a : Keystroke.Analyzer)
  (events : list Keystroke.KeystrokeEvent) :
  let a' := Run.keystrokes events (Keystroke.clearData a) in
  Keystroke.toBehavioralActions (Keystroke.clearData a) = [] /\
  ((length events <= 2)%nat ->
   Keystroke.extractTimingPatterns a' = Keystroke.getDefaultPattern) /\
  ((length events <= 1)%nat -> Keystroke.calculateTypingSpeed a' = 0) /\
  ((3 <= length events)%nat ->
   (2 <= length (Keystroke.timingBuffer a'))%nat).
Proof.
  cbv zeta. unfold Keystroke.clearData.
  destruct (keystrokes_buffers events) as [Hk Ht].
  split; [reflexivity|]. split; [|split].
  - intro H. unfold Keystroke.extractTimingPatterns. rewrite Ht.
    pose proof (lastn_shorter 100 (Spec.gaps (map Keystroke.timestamp events)))
      as Hl.
    rewrite gaps_length, length_map in Hl.
    destruct (_ <? 2)%nat eqn:E; [reflexivity|].
    apply Nat.ltb_ge in E. lia.
  - intro H. unfold Keystroke.calculateTypingSpeed. rewrite Hk.
    pose proof (lastn_shorter 100 (map Keystroke.hashedEvent events)) as Hl.
    rewrite length_map in Hl.
    destruct (_ <? 2)%nat eqn:E; [reflexivity|].
    apply Nat.ltb_ge in E. lia.
  - intro H. rewrite Ht. unfold Spec.lastn.
    rewrite length_skipn, gaps_length, length_map. lia.
Qed.

(** ** Exported actions *)

Lemma fed_keystrokes (events : list Keystroke.KeystrokeEvent) :
  forall an : Keystroke.Analyzer,
    forallb (fun ev => negb (String.eqb (Keystroke.key ev) "")
                       && negb (String.eqb (Keystroke.type ev) "")) events
    = true ->
    Ref.fed (Keystroke.toBehavioralActions
               {| Keystroke.keyEvents := events; Keystroke.timingBuffer := [] |})
            an
    = Run.keystrokes events an.
Proof.
  unfold Ref.fed, Run.keystrokes, Keystroke.toBehavioralActions.
  cbn [Keystroke.keyEvents].
  induction events as [|ev events IH]; intros an H; [reflexivity|].
  cbn [forallb] in H. apply andb_prop in H. destruct H as [Hev H].
  apply andb_prop in Hev. destruct Hev as [Hk Ht].
  cbn [map filter]. unfold Interfaces.actionTypeEqb at 1.
  cbn [Interfaces.type Interfaces.actionTypeValue String.eqb Ascii.eqb
       Bool.eqb fold_left Interfaces.metadata Interfaces.hashedKey].
  simpl (String.eqb "keystroke" "keystroke").
  cbn [fold_left Interfaces.metadata Interfaces.hashedKey].
  apply negb_true_iff in Hk. rewrite Hk.
  replace (Engine.keystrokeOf _ (Keystroke.key ev)) with ev.
  - apply IH, H.
  - unfold Engine.keystrokeOf, JS.orElse.
    cbn [Interfaces.metadata Interfaces.eventType Interfaces.modifiers
         Interfaces.ctrl Interfaces.shift Interfaces.alt Interfaces.timestamp].
    apply negb_true_iff in Ht. rewrite Ht. destruct ev; reflexivity.
Qed.

Section Replay.

Variable Math_sqrt : Q -> Q.

Lemma calculateMetrics_metrics (actions : list Interfaces.BehavioralAction)
  (e : Engine.Engine) (w : Env.World) :
  let an := Ref.fed actions (Engine.keystrokeAnalyzer e) in
  fst (fst (Engine.calculateMetrics Math_sqrt actions e w))
  = {| Interfaces.typingSpeed := Keystroke.calculateTypingSpeed an;
       Interfaces.pausePatterns := Keystroke.analyzePausePatterns an;
       Interfaces.decisionTime := Keystroke.calculateDecisionTime an;
       Interfaces.contextSwitches := Engine.countContextSwitches actions;
       Interfaces.fatigueLevel :=
         Engine.overallFatigueScore (Engine.detectFatigue Math_sqrt e) |}.
Proof.
  cbv zeta. unfold Engine.calculateMetrics, Env.bind, Env.ret.
  destruct (Engine.storeMetrics _ _ _) as [e2 w2]. reflexivity.
Qed.

(** X6. The actions exported by [toBehavioralActions] are keystroke actions
    of duration 0 with the buffered timestamps and tokens; given to
    [calculateMetrics] they replay the buffered events into the engine's
    analyzer, which hashes the tokens once more. *)
Theorem exported_actions_replay (a : Keystroke.Analyzer) (e : Engine.Engine)
  (w : Env.World) :
  Ref.complete a = true ->
  let acts := Keystroke.toBehavioralActions a in
  let replayed := Run.keystrokes (Keystroke.keyEvents a)
                                 (Engine.keystrokeAnalyzer e) in
  let m := fst (fst (Engine.calculateMetrics Math_sqrt acts e w)) in
  length acts = length (Keystroke.keyEvents a) /\
  Forall (fun act => Interfaces.type act = Interfaces.KEYSTROKE /\
                     Interfaces.duration act = 0) acts /\
  map Interfaces.timestamp acts
  = map Keystroke.timestamp (Keystroke.keyEvents a) /\
  map (fun act => Interfaces.hashedKey (Interfaces.metadata act)) acts
  = map (fun ev => Some (Keystroke.key ev)) (Keystroke.keyEvents a) /\
  Interfaces.typingSpeed m = Keystroke.calculateTypingSpeed replayed /\
  Interfaces.pausePatterns m = Keystroke.analyzePausePatterns replayed /\
  Interfaces.decisionTime m = Keystroke.calculateDecisionTime replayed.
Proof.
  intros H acts replayed m.
  assert (E : Ref.fed acts (Engine.keystrokeAnalyzer e) = replayed).
  { subst acts replayed. rewrite <- (fed_keystrokes _ _ H). reflexivity. }
  split; [|split; [|split; [|split]]].
  - subst acts. unfold Keystroke.toBehavioralActions. apply length_map.
  - subst acts. unfold Keystroke.toBehavioralActions.
    apply Forall_map, Forall_forall. intros ev _. split; reflexivity.
  - subst acts. unfold Keystroke.toBehavioralActions.
    rewrite map_map. reflexivity.
  - subst acts. unfold Keystroke.toBehavioralActions.
    rewrite map_map. reflexivity.
  - subst m. rewrite calculateMetrics_metrics. cbv zeta. rewrite E.
    repeat split.
Qed.

End Replay.

(** ** The metrics history *)

Lemma storeMetrics_effect (m : Interfaces.BehavioralMetrics)
  (e : Engine.Engine) (w : Env.World) :
  let e' := fst (Engine.storeMetrics m e w) in
  Engine.metricsHistory e'
  = Log.kept (Log.entry m e w) (Engine.metricsHistory e) /\
  Engine.userId (Engine.patternStorage e')
  = Engine.userId (Engine.patternStorage e) /\
  Engine.patterns (Engine.patternStorage e')
  = Engine.patterns (Engine.patternStorage e) /\
  (if JS.gtb (inject_Z (Env.clock w (2 + Env.reads w)
                        - Engine.sessionStartTime (Engine.patternStorage e)))
             Engine.sessionTimeoutMs
   then Engine.currentSession (Engine.patternStorage e')
        = Spec.sessionIdOf (Env.clock w (3 + Env.reads w))
                           (Env.random w (Env.draws w)) /\
        Engine.sessionStartTime (Engine.patternStorage e')
        = Env.clock w (4 + Env.reads w) /\
        Engine.keystrokeAnalyzer e' = Keystroke.empty
   else Engine.patternStorage e' = Engine.patternStorage e /\
        Engine.keystrokeAnalyzer e' = Engine.keystrokeAnalyzer e).
Proof.
  cbv zeta.
  unfold Engine.storeMetrics, Engine.getSessionDuration, Env.bind, Env.dateNow,
    Env.ret.
  cbn [Env.clock Env.reads Env.random Env.draws Env.localHours
       Engine.patternStorage Engine.sessionStartTime plus].
  destruct (JS.gtb _ Engine.sessionTimeoutMs).
  - unfold Engine.startNewSession, Engine.generateSessionId, Env.bind,
      Env.dateNow, Env.randomBase36, Env.ret.
    cbn. repeat split.
  - cbn. destruct e as [an [u ps cs st] h]. repeat split.
Qed.

Section History.

Variable Math_sqrt : Q -> Q.

Lemma calculateMetrics_engine (actions : list Interfaces.BehavioralAction)
  (e : Engine.Engine) (w : Env.World) :
  snd (fst (Engine.calculateMetrics Math_sqrt actions e w))
  = fst (Engine.storeMetrics
           (fst (fst (Engine.calculateMetrics Math_sqrt actions e w)))
           {| Engine.keystrokeAnalyzer :=
                Ref.fed actions (Engine.keystrokeAnalyzer e);
              Engine.patternStorage := Engine.patternStorage e;
              Engine.metricsHistory := Engine.metricsHistory e |} w).
Proof.
  unfold Engine.calculateMetrics, Env.bind, Env.ret.
  destruct (Engine.storeMetrics _ _ _) as [e2 w2] eqn:E.
  cbn [fst snd]. unfold Ref.fed. rewrite E. reflexivity.
Qed.

Lemma calculateMetrics_kept (actions : list Interfaces.BehavioralAction)
  (e : Engine.Engine) (w : Env.World) :
  let m := fst (fst (Engine.calculateMetrics Math_sqrt actions e w)) in
  Engine.metricsHistory (snd (fst (Engine.calculateMetrics Math_sqrt actions e w)))
  = Log.kept (Log.entry m e w) (Engine.metricsHistory e).
Proof.
  cbv zeta. rewrite calculateMetrics_engine.
  match goal with
  | |- context [Engine.storeMetrics ?m ?e1 w] =>
      destruct (storeMetrics_effect m e1 w) as [H _]
  end.
  cbv zeta in H. rewrite H. reflexivity.
Qed.

Lemma kept_length (tm : Engine.TemporalMetrics)
  (l : list Engine.TemporalMetrics) :
  (length l <= Engine.maxHistorySize)%nat ->
  length (Log.kept tm l) = Nat.min Engine.maxHistorySize (length l + 1).
Proof.
  intro H. unfold Log.kept, JS.push, JS.shift, Engine.maxHistorySize in *.
  rewrite length_app. cbn [length].
  destruct (1000 <? length l + 1)%nat eqn:E.
  - apply Nat.ltb_lt in E. destruct l as [|x l]; cbn [length] in *; [lia|].
    cbn [app tl]. rewrite length_app. cbn [length]. lia.
  - apply Nat.ltb_ge in E. rewrite length_app. cbn [length]. lia.
Qed.

Lemma calls_cons (batch : list Interfaces.BehavioralAction)
  (rest : list (list Interfaces.BehavioralAction)) (e : Engine.Engine)
  (w : Env.World) :
  Log.calls Math_sqrt (batch :: rest) e w
  = Log.calls Math_sqrt rest
      (snd (fst (Engine.calculateMetrics Math_sqrt batch e w)))
      (snd (Engine.calculateMetrics Math_sqrt batch e w)).
Proof.
  cbn [Log.calls]. unfold Env.bind.
  destruct (Engine.calculateMetrics Math_sqrt batch e w) as [[m e'] w'].
  reflexivity.
Qed.

Lemma calls_length (batches : list (list Interfaces.BehavioralAction)) :
  forall (e : Engine.Engine) (w : Env.World),
    (length (Engine.metricsHistory e) <= Engine.maxHistorySize)%nat ->
    length (Engine.metricsHistory (fst (Log.calls Math_sqrt batches e w)))
    = Nat.min Engine.maxHistorySize
        (length (Engine.metricsHistory e) + length batches).
Proof.
  induction batches as [|batch rest IH]; intros e w H.
  - cbn [Log.calls length]. unfold Env.ret. cbn [fst]. lia.
  - rewrite calls_cons.
    pose proof (calculateMetrics_kept batch e w) as K. cbv zeta in K.
    pose proof (kept_length
                  (Log.entry
                     (fst (fst (Engine.calculateMetrics Math_sqrt batch e w)))
                     e w) _ H) as L.
    rewrite <- K in L.
    rewrite IH by (rewrite L; lia).
    rewrite L. cbn [length]. unfold Engine.maxHistorySize in *. lia.
Qed.

Lemma calls_invariant (P : Engine.Engine -> Prop) :
  (forall actions e w,
     P e -> P (snd (fst (Engine.calculateMetrics Math_sqrt actions e w)))) ->
  forall batches e w, P e -> P (fst (Log.calls Math_sqrt batches e w)).
Proof.
  intros Step batches. induction batches as [|batch rest IH]; intros e w H.
  - exact H.
  - rewrite calls_cons. apply IH, Step, H.
Qed.

Lemma session_calls (userId : string)
  (batches : list (list Interfaces.BehavioralAction)) (w : Env.World) :
  Log.session Math_sqrt userId batches w
  = Log.calls Math_sqrt batches (fst (Engine.constructor userId w))
      (snd (Engine.constructor userId w)).
Proof.
  unfold Log.session, Env.bind.
  destruct (Engine.constructor userId w) as [e w']. reflexivity.
Qed.

Lemma constructor_history (userId : string) (w : Env.World) :
  Engine.metricsHistory (fst (Engine.constructor userId w)) = [].
Proof. reflexivity. Qed.

(** X7. Every [calculateMetrics] call appends one entry to the history: it
    holds the returned metrics, the first clock reading of the call and
    the session that was current when the call began, and it is the newest
    entry.  The history holds at most 1000 entries, the oldest dropped
    first: after [n] calls on a new engine it has [min 1000 n]. *)
Theorem calculateMetrics_history :
  (forall (actions : list Interfaces.BehavioralAction) (e : Engine.Engine)
          (w : Env.World),
     let m := fst (fst (Engine.calculateMetrics Math_sqrt actions e w)) in
     let e' := snd (fst (Engine.calculateMetrics Math_sqrt actions e w)) in
     let tm := {| Engine.timestamp := Env.clock w (Env.reads w);
                  Engine.metrics := m;
                  Engine.sessionId :=
                    Engine.currentSession (Engine.patternStorage e);
                  Engine.duration :=
                    inject_Z (Env.clock w (S (Env.reads w))
                              - Engine.sessionStartTime
                                  (Engine.patternStorage e)) |} in
     Engine.metricsHistory e'
     = (if (1000 <? length (Engine.metricsHistory e ++ [tm]))%nat
        then tl (Engine.metricsHistory e ++ [tm])
        else Engine.metricsHistory e ++ [tm]) /\
     last (Engine.metricsHistory e') tm = tm) /\
  (forall (userId : string)
          (batches : list (list Interfaces.BehavioralAction)) (w : Env.World),
     length (Engine.metricsHistory
               (fst (Log.session Math_sqrt userId batches w)))
     = Nat.min 1000 (length batches)).
Proof.
  split.
  - intros actions e w. cbv zeta.
    pose proof (calculateMetrics_kept actions e w) as K. cbv zeta in K.
    rewrite K. split; [reflexivity|].
    unfold Log.kept, Engine.maxHistorySize.
    apply (shifted_last (Engine.metricsHistory e)). lia.
  - intros userId batches w. rewrite session_calls.
    rewrite calls_length; rewrite constructor_history; cbn [length];
      unfold Engine.maxHistorySize; lia.
Qed.

(** ** The session timeout *)

Lemma timeout_exceeded (elapsed : Z) :
  JS.gtb (inject_Z elapsed) Engine.sessionTimeoutMs = true
  <-> (1800000 < elapsed)%Z.
Proof.
  rewrite gtb_gt. unfold Engine.sessionTimeoutMs, Qlt. simpl. lia.
Qed.

(** X8. The session timeout is detected by [calculateMetrics] only, after
    the entry is stored: when the third clock reading of the call lies more
    than 30 minutes after the session start, the engine goes on with a new
    session id, a new start time and an empty analyzer, while the entry just
    stored carries the old session id; otherwise the session is kept and the
    analyzer holds the keystrokes of the call. *)
Theorem calculateMetrics_session_timeout
  (actions : list Interfaces.BehavioralAction) (e : Engine.Engine)
  (w : Env.World) :
  let m := fst (fst (Engine.calculateMetrics Math_sqrt actions e w)) in
  let e' := snd (fst (Engine.calculateMetrics Math_sqrt actions e w)) in
  let start := Engine.sessionStartTime (Engine.patternStorage e) in
  ((start + 1800000 < Env.clock w (2 + Env.reads w))%Z ->
   Engine.currentSession (Engine.patternStorage e')
   = Spec.sessionIdOf (Env.clock w (3 + Env.reads w))
                      (Env.random w (Env.draws w)) /\
   Engine.sessionStartTime (Engine.patternStorage e')
   = Env.clock w (4 + Env.reads w) /\
   Keystroke.keyEvents (Engine.keystrokeAnalyzer e') = [] /\
   Keystroke.timingBuffer (Engine.keystrokeAnalyzer e') = []) /\
  ((Env.clock w (2 + Env.reads w) <= start + 1800000)%Z ->
   Engine.patternStorage e' = Engine.patternStorage e /\
   Engine.keystrokeAnalyzer e' = Ref.fed actions (Engine.keystrokeAnalyzer e)) /\
  Engine.sessionId (last (Engine.metricsHistory e') (Log.entry m e w))
  = Engine.currentSession (Engine.patternStorage e) /\
  Engine.patterns (Engine.patternStorage e')
  = Engine.patterns (Engine.patternStorage e) /\
  Engine.userId (Engine.patternStorage e')
  = Engine.userId (Engine.patternStorage e).
Proof.
  cbv zeta.
  pose proof (calculateMetrics_kept actions e w) as K. cbv zeta in K.
  rewrite K. rewrite calculateMetrics_engine.
  match goal with
  | |- context [Engine.storeMetrics ?m ?e1 w] =>
      destruct (storeMetrics_effect m e1 w) as (_ & Hu & Hp & Hs)
  end.
  cbv zeta in Hu, Hp, Hs.
  cbn [Engine.patternStorage Engine.keystrokeAnalyzer] in Hu, Hp, Hs.
  split; [|split; [|split; [|split]]].
  - intro H.
    destruct (JS.gtb _ Engine.sessionTimeoutMs) eqn:E.
    + destruct Hs as (H1 & H2 & H3). rewrite H1, H2, H3. repeat split.
    + exfalso.
      assert (T : JS.gtb
                    (inject_Z (Env.clock w (2 + Env.reads w)
                               - Engine.sessionStartTime
                                   (Engine.patternStorage e)))
                    Engine.sessionTimeoutMs = true)
        by (apply timeout_exceeded; lia).
      congruence.
  - intro H.
    destruct (JS.gtb _ Engine.sessionTimeoutMs) eqn:E.
    + apply timeout_exceeded in E. lia.
    + exact Hs.
  - unfold Log.kept, Engine.maxHistorySize.
    rewrite (shifted_last (Engine.metricsHistory e)) by lia. reflexivity.
  - exact Hp.
  - exact Hu.
Qed.

(** ** Ranges of the computed metrics *)

Lemma actionTypeEqb_eq (a b : Interfaces.ActionType) :
  Interfaces.actionTypeEqb a b = true <-> a = b.
Proof.
  split.
  - destruct a, b; intro H; try reflexivity; vm_compute in H; discriminate H.
  - intros ->. apply String.eqb_refl.
Qed.

Lemma calculateMetrics_plausible
  (actions : list Interfaces.BehavioralAction) (e : Engine.Engine)
  (w : Env.World) :
  Log.plausible (fst (fst (Engine.calculateMetrics Math_sqrt actions e w))).
Proof.
  rewrite calculateMetrics_metrics. cbv zeta. unfold Log.plausible.
  cbn [Interfaces.typingSpeed Interfaces.pausePatterns Interfaces.decisionTime
       Interfaces.contextSwitches Interfaces.fatigueLevel].
  split; [apply calculateTypingSpeed_nonneg|].
  split; [reflexivity|].
  split; [apply analyzePausePatterns_nonneg|].
  split.
  { destruct (calculateDecisionTime_cases
                (Ref.fed actions (Engine.keystrokeAnalyzer e)))
      as [[_ H]|[_ H]]; [left | right]; exact H. }
  split; [apply len_nonneg|].
  apply (detectFatigue_nonnegative Math_sqrt e).
Qed.

Lemma kept_Forall (P : Engine.TemporalMetrics -> Prop)
  (tm : Engine.TemporalMetrics) (l : list Engine.TemporalMetrics) :
  P tm -> Forall P l -> Forall P (Log.kept tm l).
Proof.
  intros Htm Hl.
  assert (H : Forall P (JS.push l tm))
    by (apply Forall_app; split; [exact Hl | constructor; [exact Htm | constructor]]).
  unfold Log.kept. destruct (_ <? _)%nat; [|exact H].
  unfold JS.shift. destruct (JS.push l tm); [constructor|].
  inversion H; assumption.
Qed.

Lemma session_plausible (userId : string)
  (batches : list (list Interfaces.BehavioralAction)) (w : Env.World) :
  Forall (fun tm => Log.plausible (Engine.metrics tm))
         (Engine.metricsHistory (fst (Log.session Math_sqrt userId batches w))).
Proof.
  rewrite session_calls.
  apply (calls_invariant
           (fun e => Forall (fun tm => Log.plausible (Engine.metrics tm))
                            (Engine.metricsHistory e))).
  - intros actions e w' H.
    pose proof (calculateMetrics_kept actions e w') as K. cbv zeta in K.
    rewrite K. apply kept_Forall; [|exact H].
    apply calculateMetrics_plausible.
  - rewrite constructor_history. constructor.
Qed.

(** X9. The metrics [calculateMetrics] returns are in range whatever the
    actions and the state: typing speed, context switches and fatigue level
    are at least 0, the pause patterns are three counts, and the decision
    time is 0 or above 1000 ms; the context-switch count is the number of
    actions of type [CONTEXT_SWITCH].  Every entry of the history of an engine that
    was only used through [calculateMetrics] is in range as well. *)
Theorem calculateMetrics_ranges :
  (forall (actions : list Interfaces.BehavioralAction) (e : Engine.Engine)
          (w : Env.World),
     let m := fst (fst (Engine.calculateMetrics Math_sqrt actions e w)) in
     0 <= Interfaces.typingSpeed m /\
     length (Interfaces.pausePatterns m) = 3%nat /\
     Forall (fun n => 0 <= n) (Interfaces.pausePatterns m) /\
     (Interfaces.decisionTime m = 0 \/ 1000 < Interfaces.decisionTime m) /\
     0 <= Interfaces.fatigueLevel m /\
     Interfaces.contextSwitches m
     = inject_Z (Z.of_nat (length
          (filter (fun a => match Interfaces.type a with
                            | Interfaces.CONTEXT_SWITCH => true
                            | _ => false
                            end) actions)))) /\
  (forall (userId : string)
          (batches : list (list Interfaces.BehavioralAction)) (w : Env.World),
     Forall (fun tm => Log.plausible (Engine.metrics tm))
            (Engine.metricsHistory
               (fst (Log.session Math_sqrt userId batches w)))).
Proof.
  split; [|apply session_plausible].
  intros actions e w. cbv zeta.
  destruct (calculateMetrics_plausible actions e w)
    as (H1 & H2 & H3 & H4 & _ & H6).
  repeat (split; [assumption|]).
  rewrite calculateMetrics_metrics. cbv zeta.
  cbn [Interfaces.contextSwitches].
  unfold Engine.countContextSwitches, JS.len. do 3 f_equal.
  apply filter_ext. intro a.
  destruct (Interfaces.type a); reflexivity.
Qed.

End History.

(** ** Speed decline and fatigue progression *)


Lemma Forall_skipn {A : Type} (P : A -> Prop) (n : nat) (l : list A) :
  Forall P l -> Forall P (skipn n l).
Proof.
  intro H. rewrite <- (firstn_skipn n l) in H.
  apply Forall_app in H. apply H.
Qed.


Lemma Forall_sliceFrom {A : Type} (P : A -> Prop) (l : list A) (s : Z) :
  Forall P l -> Forall P (JS.sliceFrom l s).
Proof. intro H. unfold JS.sliceFrom. apply Forall_skipn, H. Qed.

Lemma Forall_filter {A : Type} (P : A -> Prop) (f : A -> bool) (l : list A) :
  Forall P l -> Forall P (filter f l).
Proof.
  intro H. apply Forall_forall. intros x Hx. apply filter_In in Hx.
  rewrite Forall_forall in H. apply H, Hx.
Qed.

Lemma total_nonneg (l : list Q) : Forall (fun x => 0 <= x) l -> 0 <= Spec.total l.
Proof.
  induction 1 as [|x l Hx Hl IH]; cbn [Spec.total fold_right].
  - lra.
  - unfold Spec.total in IH. lra.
Qed.

Lemma average_nonneg (ms : list Engine.TemporalMetrics) :
  Forall (fun tm => 0 <= Interfaces.typingSpeed (Engine.metrics tm)) ms ->
  0 <= Engine.calculateAverageTypingSpeed ms.
Proof.
  intro H. unfold Engine.calculateAverageTypingSpeed.
  destruct (length ms =? 0)%nat eqn:E; [lra|].
  apply Nat.eqb_neq in E.
  apply Qle_shift_div_l.
  - apply len_pos. intro Hnil. apply E. rewrite Hnil. reflexivity.
  - rewrite Qmult_0_l, sum_total. apply total_nonneg.
    apply Forall_map. exact H.
Qed.

Lemma bounded_decline (before after : Q) :
  0 <= after ->
  0 <= (if JS.gtb before 0 then JS.max 0 ((before - after) / before) else 0)
  <= 1.
Proof.
  intro H. destruct (JS.gtb before 0) eqn:E; [|lra].
  apply gtb_gt in E. split; [apply max_nonneg|].
  unfold JS.max. destruct (JS.ltb 0 _); [|lra].
  apply Qle_shift_div_r; [exact E | lra].
Qed.

Lemma speedsNonneg_Forall (history : list Engine.TemporalMetrics) :
  Log.speedsNonneg history = true ->
  Forall (fun tm => 0 <= Interfaces.typingSpeed (Engine.metrics tm)) history.
Proof.
  unfold Log.speedsNonneg. intro H. apply Forall_forall. intros tm Htm.
  rewrite forallb_forall in H. apply Qle_bool_iff, H, Htm.
Qed.

Section Decline.

Variable Math_sqrt : Q -> Q.

Lemma decline_bounds (e : Engine.Engine) (w : Env.World) :
  Forall (fun tm => 0 <= Interfaces.typingSpeed (Engine.metrics tm))
         (Engine.metricsHistory e) ->
  0 <= Engine.typingSpeedDecline (Engine.detectFatigue Math_sqrt e) <= 1 /\
  0 <= Engine.fatigueProgression (fst (Engine.getSessionStatistics e w)) <= 1 /\
  0 <= Engine.averageTypingSpeed (fst (Engine.getSessionStatistics e w)).
Proof.
  intro H. split; [|split].
  - unfold Engine.detectFatigue. cbv zeta.
    destruct (length (Engine.metricsHistory e) <? Engine.fatigueWindowSize)%nat;
      [cbn; lra|].
    destruct (length _ =? 0)%nat; [cbn; lra|].
    cbn [Engine.typingSpeedDecline].
    apply bounded_decline, average_nonneg, Forall_sliceFrom, H.
  - unfold Engine.getSessionStatistics, Engine.getSessionDuration, Env.bind,
      Env.dateNow, Env.ret.
    cbn [fst Engine.fatigueProgression].
    unfold Engine.calculateFatigueProgression.
    destruct (length _ <? 2)%nat; [lra|]. cbv zeta.
    apply bounded_decline, average_nonneg, Forall_sliceFrom, Forall_filter, H.
  - unfold Engine.getSessionStatistics, Engine.getSessionDuration, Env.bind,
      Env.dateNow, Env.ret.
    cbn [fst Engine.averageTypingSpeed].
    pose proof (average_nonneg _ (Forall_filter _
                  (fun m => String.eqb (Engine.sessionId m)
                              (Engine.currentSession (Engine.patternStorage e)))
                  _ H)) as A.
    unfold Engine.calculateAverageTypingSpeed in A.
    destruct (0 <? length _)%nat eqn:E; [|lra].
    apply Nat.ltb_lt in E.
    destruct (length _ =? 0)%nat eqn:E0; [apply Nat.eqb_eq in E0; lia|].
    exact A.
Qed.

(** X10. Unlike the overall fatigue score, the typing-speed decline of
    [detectFatigue] and the fatigue progression of [getSessionStatistics]
    lie between 0 and 1, and the average typing speed is at least 0,
    whenever no stored typing speed is negative; this holds for every engine
    that was only used through [calculateMetrics]. *)
Theorem speed_decline_bounded :
  (forall (e : Engine.Engine) (w : Env.World),
     Log.speedsNonneg (Engine.metricsHistory e) = true ->
     0 <= Engine.typingSpeedDecline (Engine.detectFatigue Math_sqrt e) <= 1 /\
     0 <= Engine.fatigueProgression (fst (Engine.getSessionStatistics e w)) <= 1 /\
     0 <= Engine.averageTypingSpeed (fst (Engine.getSessionStatistics e w))) /\
  (forall (userId : string)
          (batches : list (list Interfaces.BehavioralAction))
          (w w' : Env.World),
     let e := fst (Log.session Math_sqrt userId batches w) in
     0 <= Engine.typingSpeedDecline (Engine.detectFatigue Math_sqrt e) <= 1 /\
     0 <= Engine.fatigueProgression (fst (Engine.getSessionStatistics e w')) <= 1 /\
     0 <= Engine.averageTypingSpeed (fst (Engine.getSessionStatistics e w'))).
Proof.
  split.
  - intros e w H. apply decline_bounds, speedsNonneg_Forall, H.
  - intros userId batches w w'. cbv zeta. apply decline_bounds.
    pose proof (session_plausible Math_sqrt userId batches w) as P.
    apply Forall_forall. intros tm Htm. rewrite Forall_forall in P.
    apply (P tm Htm).
Qed.

End Decline.

(** ** The pattern index *)

Lemma kept_In (tm : Engine.TemporalMetrics) (l : list Engine.TemporalMetrics) :
  In tm (Log.kept tm l).
Proof.
  unfold Log.kept, JS.push, JS.shift.
  destruct (_ <? _)%nat eqn:E.
  - destruct l as [|x l]; [vm_compute in E; discriminate E|].
    cbn [app tl]. apply in_or_app. right. left. reflexivity.
  - apply in_or_app. right. left. reflexivity.
Qed.

Lemma appendPattern_same (pattern : string) (tm : Engine.TemporalMetrics)
  (ps : list (string * list Engine.TemporalMetrics)) :
  Engine.patternHistory pattern (Engine.appendPattern pattern tm ps)
  = Log.kept tm (Engine.patternHistory pattern ps).
Proof.
  induction ps as [|[k history] rest IH].
  - cbn [Engine.appendPattern Engine.patternHistory].
    rewrite String.eqb_refl. reflexivity.
  - cbn [Engine.appendPattern Engine.patternHistory].
    destruct (String.eqb k pattern) eqn:E;
      cbn [Engine.patternHistory]; rewrite E; [reflexivity | exact IH].
Qed.

Lemma appendPattern_other (pattern other : string)
  (tm : Engine.TemporalMetrics)
  (ps : list (string * list Engine.TemporalMetrics)) :
  other <> pattern ->
  Engine.patternHistory other (Engine.appendPattern pattern tm ps)
  = Engine.patternHistory other ps.
Proof.
  intro H. induction ps as [|[k history] rest IH].
  - cbn [Engine.appendPattern Engine.patternHistory].
    destruct (String.eqb pattern other) eqn:E; [|reflexivity].
    apply String.eqb_eq in E. congruence.
  - cbn [Engine.appendPattern Engine.patternHistory].
    destruct (String.eqb k pattern) eqn:E; cbn [Engine.patternHistory].
    + apply String.eqb_eq in E. subst k.
      destruct (String.eqb pattern other) eqn:E'; [|reflexivity].
      apply String.eqb_eq in E'. congruence.
    + destruct (String.eqb k other); [reflexivity | exact IH].
Qed.

Lemma appendPattern_keys (pattern : string) (tm : Engine.TemporalMetrics)
  (ps : list (string * list Engine.TemporalMetrics)) :
  map fst (Engine.appendPattern pattern tm ps)
  = if existsb (String.eqb pattern) (map fst ps) then map fst ps
    else map fst ps ++ [pattern].
Proof.
  induction ps as [|[k history] rest IH]; [reflexivity|].
  cbn [Engine.appendPattern map fst existsb].
  rewrite (String.eqb_sym pattern k).
  destruct (String.eqb k pattern); cbn [map fst orb]; [reflexivity|].
  rewrite IH. destruct (existsb _ _); reflexivity.
Qed.

Lemma patternHistory_absent (pattern : string)
  (ps : list (string * list Engine.TemporalMetrics)) :
  ~ In pattern (map fst ps) -> Engine.patternHistory pattern ps = [].
Proof.
  induction ps as [|[k history] rest IH]; intro H; [reflexivity|].
  cbn [Engine.patternHistory]. cbn [map fst In] in H.
  destruct (String.eqb k pattern) eqn:E.
  - apply String.eqb_eq in E. exfalso. apply H. left. exact E.
  - apply IH. intro Hin. apply H. right. exact Hin.
Qed.

Lemma storePattern_patterns (pattern : string)
  (m : Interfaces.BehavioralMetrics) (e : Engine.Engine) (w : Env.World) :
  fst (Engine.storePattern pattern m e w)
  = {| Engine.keystrokeAnalyzer := Engine.keystrokeAnalyzer e;
       Engine.patternStorage :=
         {| Engine.userId := Engine.userId (Engine.patternStorage e);
            Engine.patterns :=
              Engine.appendPattern pattern (Log.entry m e w)
                (Engine.patterns (Engine.patternStorage e));
            Engine.currentSession :=
              Engine.currentSession (Engine.patternStorage e);
            Engine.sessionStartTime :=
              Engine.sessionStartTime (Engine.patternStorage e) |};
       Engine.metricsHistory := Engine.metricsHistory e |}.
Proof. reflexivity. Qed.

(** X11. [storePattern] appends to the history of its pattern and never
    overwrites: a later lookup of the pattern gives the old history followed
    by the new entry (the oldest entry dropped above 1000), the histories of
    the other patterns, the metrics history, the session and the analyzer
    are unchanged, a time-range query that covers the clock reading returns
    the new entry, and a pattern that was never stored has the empty
    history. *)
Theorem storePattern_lookup (pattern : string)
  (m : Interfaces.BehavioralMetrics) (e : Engine.Engine) (w : Env.World) :
  let e' := fst (Engine.storePattern pattern m e w) in
  let tm := {| Engine.timestamp := Env.clock w (Env.reads w);
               Engine.metrics := m;
               Engine.sessionId :=
                 Engine.currentSession (Engine.patternStorage e);
               Engine.duration :=
                 inject_Z (Env.clock w (S (Env.reads w))
                           - Engine.sessionStartTime
                               (Engine.patternStorage e)) |} in
  let old := Engine.patternHistory pattern
               (Engine.patterns (Engine.patternStorage e)) in
  Engine.patternHistory pattern (Engine.patterns (Engine.patternStorage e'))
  = (if (1000 <? length (old ++ [tm]))%nat then tl (old ++ [tm])
     else old ++ [tm]) /\
  (forall other : string,
     other <> pattern ->
     Engine.patternHistory other (Engine.patterns (Engine.patternStorage e'))
     = Engine.patternHistory other (Engine.patterns (Engine.patternStorage e))) /\
  (forall startTime endTime : Z,
     (startTime <= Env.clock w (Env.reads w) <= endTime)%Z ->
     In tm (Engine.getPatternsByTimeRange pattern startTime endTime e')) /\
  (forall (other : string) (startTime endTime : Z),
     ~ In other (map fst (Engine.patterns (Engine.patternStorage e'))) ->
     Engine.getPatternsByTimeRange other startTime endTime e' = []) /\
  Engine.metricsHistory e' = Engine.metricsHistory e /\
  Engine.keystrokeAnalyzer e' = Engine.keystrokeAnalyzer e /\
  Engine.currentSession (Engine.patternStorage e')
  = Engine.currentSession (Engine.patternStorage e).
Proof.
  cbv zeta. rewrite storePattern_patterns.
  cbn [Engine.patternStorage Engine.patterns Engine.metricsHistory
       Engine.keystrokeAnalyzer Engine.currentSession].
  split; [|split; [|split; [|split; [|repeat split]]]].
  - rewrite appendPattern_same. reflexivity.
  - intros other H. apply appendPattern_other, H.
  - intros startTime endTime H. unfold Engine.getPatternsByTimeRange.
    cbn [Engine.patternStorage Engine.patterns].
    apply filter_In. split.
    + rewrite appendPattern_same. apply (kept_In (Log.entry m e w)).
    + cbn [Engine.timestamp]. apply andb_true_intro.
      split; apply Z.leb_le; lia.
  - intros other startTime endTime H. unfold Engine.getPatternsByTimeRange.
    cbn [Engine.patternStorage Engine.patterns].
    rewrite patternHistory_absent by exact H. reflexivity.
Qed.

(** ** The patterns of the current session *)

Lemma appendPattern_In (pattern : string) (tm : Engine.TemporalMetrics)
  (ps : list (string * list Engine.TemporalMetrics)) :
  exists history,
    In (pattern, history) (Engine.appendPattern pattern tm ps) /\
    In tm history.
Proof.
  induction ps as [|[k history] rest IH].
  - exists [tm]. split; left; reflexivity.
  - cbn [Engine.appendPattern].
    destruct (String.eqb k pattern) eqn:E.
    + apply String.eqb_eq in E. subst k.
      exists (Log.kept tm history). split; [left; reflexivity|].
      apply kept_In.
    + destruct IH as [h [H1 H2]]. exists h. split; [right; exact H1 | exact H2].
Qed.

(** X12. [getCurrentSessionPatterns] returns, for patterns of the index in
    their order, the entries tagged with the current session: no returned
    history is empty or holds an entry of another session, and a pattern
    just stored is among the returned ones. *)
Theorem getCurrentSessionPatterns_sound :
  (forall e : Engine.Engine,
     Forall (fun entry =>
               snd entry <> [] /\
               Forall (fun tm => Engine.sessionId tm
                                 = Engine.currentSession (Engine.patternStorage e))
                      (snd entry) /\
               exists history,
                 In (fst entry, history)
                    (Engine.patterns (Engine.patternStorage e)) /\
                 snd entry
                 = filter (fun tm =>
                             String.eqb (Engine.sessionId tm)
                               (Engine.currentSession (Engine.patternStorage e)))
                          history)
            (Engine.getCurrentSessionPatterns e)) /\
  (forall (pattern : string) (m : Interfaces.BehavioralMetrics)
          (e : Engine.Engine) (w : Env.World),
     In pattern
        (map fst (Engine.getCurrentSessionPatterns
                    (fst (Engine.storePattern pattern m e w))))).
Proof.
  split.
  - intro e. apply Forall_forall. intros [label history] H.
    unfold Engine.getCurrentSessionPatterns in H.
    apply in_flat_map in H. destruct H as [[k h] [Hin H]].
    cbn [fst snd] in H.
    destruct (0 <? length _)%nat eqn:E; [|destruct H].
    destruct H as [H|[]]. injection H as <- <-.
    cbn [fst snd]. split; [|split].
    + apply Nat.ltb_lt in E. intro Hnil. rewrite Hnil in E. simpl in E. lia.
    + apply Forall_forall. intros tm Htm. apply filter_In in Htm.
      apply String.eqb_eq, Htm.
    + exists h. split; [exact Hin | reflexivity].
  - intros pattern m e w. rewrite storePattern_patterns.
    destruct (appendPattern_In pattern (Log.entry m e w)
                (Engine.patterns (Engine.patternStorage e))) as [h [H1 H2]].
    unfold Engine.getCurrentSessionPatterns.
    cbn [Engine.patternStorage Engine.patterns Engine.currentSession].
    apply in_map_iff.
    set (current := fun tm : Engine.TemporalMetrics =>
                      String.eqb (Engine.sessionId tm)
                        (Engine.currentSession (Engine.patternStorage e))).
    exists (pattern, filter current h). split; [reflexivity|].
    apply in_flat_map. exists (pattern, h). split; [exact H1|].
    cbn [fst snd].
    assert (Hin : In (Log.entry m e w) (filter current h)).
    { apply filter_In. split; [exact H2|]. apply String.eqb_refl. }
    destruct (filter current h) as [|x l] eqn:F; [destruct Hin|].
    cbn [length Nat.ltb Nat.leb]. left. reflexivity.
Qed.

(** ** Windows of the newest entries *)

Lemma sliceFrom_newest {A : Type} (l : list A) (n : Z) :
  (0 < n)%Z -> JS.sliceFrom l (- n) = Spec.lastn (Z.to_nat n) l.
Proof.
  intro H. unfold JS.sliceFrom, JS.sliceIndex, Spec.lastn.
  destruct (- n <? 0)%Z eqn:E; [|apply Z.ltb_ge in E; lia].
  f_equal. lia.
Qed.

Lemma sliceFrom_oldest {A : Type} (l : list A) (n : Z) :
  (0 <= n)%Z -> JS.sliceFrom l n = skipn (Z.to_nat n) l.
Proof.
  intro H. unfold JS.sliceFrom, JS.sliceIndex.
  destruct (n <? 0)%Z eqn:E; [apply Z.ltb_lt in E; lia|].
  destruct (Nat.le_gt_cases (Z.to_nat n) (length l)) as [L|L].
  - rewrite Nat.min_l by exact L. reflexivity.
  - rewrite Nat.min_r by lia. rewrite !skipn_all2 by lia. reflexivity.
Qed.

Lemma lastn_exact {A : Type} (n : nat) (l : list A) :
  length (Spec.lastn n l) = Nat.min n (length l).
Proof. unfold Spec.lastn. rewrite length_skipn. lia. Qed.

(** X13. [getMetricsHistory(limit)] returns the whole history when the limit
    is absent or 0, the [limit] newest entries (all of them when there are
    fewer) for a positive limit, and the history without its [-limit] oldest
    entries for a negative one; [getRecentSequences(count)] likewise returns
    every sequence for [count = 0] and the [count] newest for a positive
    count. *)
Theorem newest_entries_queries (e : Engine.Engine) (t : Tracker.Tracker) :
  Engine.getMetricsHistory None e = Engine.metricsHistory e /\
  Engine.getMetricsHistory (Some 0%Z) e = Engine.metricsHistory e /\
  (forall n : Z,
     (0 < n)%Z ->
     Engine.getMetricsHistory (Some n) e
     = Spec.lastn (Z.to_nat n) (Engine.metricsHistory e) /\
     length (Engine.getMetricsHistory (Some n) e)
     = Nat.min (Z.to_nat n) (length (Engine.metricsHistory e))) /\
  (forall n : Z,
     (n < 0)%Z ->
     Engine.getMetricsHistory (Some n) e
     = skipn (Z.to_nat (- n)) (Engine.metricsHistory e)) /\
  Tracker.getRecentSequences 0 t = Tracker.sequences t /\
  (forall n : Z,
     (0 < n)%Z ->
     Tracker.getRecentSequences n t
     = Spec.lastn (Z.to_nat n) (Tracker.sequences t) /\
     length (Tracker.getRecentSequences n t)
     = Nat.min (Z.to_nat n) (length (Tracker.sequences t))).
Proof.
  split; [reflexivity|]. split; [reflexivity|].
  split; [|split; [|split]].
  - intros n H. unfold Engine.getMetricsHistory.
    destruct (n =? 0)%Z eqn:E; [apply Z.eqb_eq in E; lia|].
    rewrite sliceFrom_newest by exact H. split; [reflexivity|].
    apply lastn_exact.
  - intros n H. unfold Engine.getMetricsHistory.
    destruct (n =? 0)%Z eqn:E; [apply Z.eqb_eq in E; lia|].
    apply sliceFrom_oldest. lia.
  - unfold Tracker.getRecentSequences. apply (sliceFrom_oldest _ 0). lia.
  - intros n H. unfold Tracker.getRecentSequences.
    rewrite sliceFrom_newest by exact H. split; [reflexivity|].
    apply lastn_exact.
Qed.

(** ** Clearing *)

Section Clearing.

Variable Math_sqrt : Q -> Q.

(** X14. [clearAllData] empties the metrics history, the pattern index and
    the analyzer, keeps the user id and starts a new session; whatever the
    new id is, the session statistics then count no metrics, fatigue
    detection returns the zero indicators and no pattern is returned. *)
Theorem clearAllData_resets (e : Engine.Engine) (w : Env.World) :
  let e' := fst (Engine.clearAllData e w) in
  let w' := snd (Engine.clearAllData e w) in
  let stats := fst (Engine.getSessionStatistics e' w') in
  Engine.metricsHistory e' = [] /\
  Engine.patterns (Engine.patternStorage e') = [] /\
  Engine.keystrokeAnalyzer e' = Keystroke.empty /\
  Engine.userId (Engine.patternStorage e')
  = Engine.userId (Engine.patternStorage e) /\
  Engine.currentSession (Engine.patternStorage e')
  = Spec.sessionIdOf (Env.clock w (Env.reads w)) (Env.random w (Env.draws w)) /\
  Engine.sessionStartTime (Engine.patternStorage e')
  = Env.clock w (S (Env.reads w)) /\
  Engine.metricsCount stats = 0%nat /\
  Engine.averageTypingSpeed stats = 0 /\
  Engine.totalContextSwitches stats = 0 /\
  Engine.fatigueProgression stats = 0 /\
  Engine.detectFatigue Math_sqrt e' = Engine.getDefaultFatigueIndicators /\
  Engine.getCurrentSessionPatterns e' = [] /\
  Engine.getMetricsHistory None e' = [] /\
  (forall (pattern : string) (startTime endTime : Z),
     Engine.getPatternsByTimeRange pattern startTime endTime e' = []).
Proof.
  cbv zeta. repeat split.
Qed.

End Clearing.

(** ** The steps of [recordAction] *)

Lemma recordAction_arrived (action : Interfaces.BehavioralAction)
  (t : Tracker.Tracker) :
  Tracker.recordAction action t
  = Tracker.checkSequenceCompletion
      (Tracker.updateFocusTracking action
         (Tracker.detectContextSwitch action (Steps.arrived action t))).
Proof. reflexivity. Qed.

Lemma arrived_fields (action : Interfaces.BehavioralAction)
  (t : Tracker.Tracker) :
  let u := Steps.arrived action t in
  Tracker.config u = Tracker.config t /\
  Tracker.actionBuffer u = Run.evicted action t /\
  Tracker.sequences u = Tracker.sequences t /\
  Tracker.contextSwitches u = Tracker.contextSwitches t /\
  Tracker.currentContext u = Tracker.currentContext t /\
  Tracker.lastActivityTime u = JS.newDate (Interfaces.timestamp action) /\
  Tracker.focusSegments u = Tracker.focusSegments t /\
  Tracker.currentFocusSegment u = Tracker.currentFocusSegment t /\
  Tracker.sequenceIdCounter u = Tracker.sequenceIdCounter t.
Proof.
  cbv zeta. unfold Steps.arrived, Run.evicted.
  cbn [Tracker.withLastActivityTime Tracker.withActionBuffer
       Tracker.actionBuffer Tracker.config].
  destruct (JS.gtb _ _); repeat split; reflexivity.
Qed.

Lemma completeCurrentSequence_focus (t : Tracker.Tracker) (w : Env.World) :
  let t' := fst (Tracker.completeCurrentSequence t w) in
  Tracker.focusSegments t' = Tracker.focusSegments t /\
  Tracker.currentFocusSegment t' = Tracker.currentFocusSegment t /\
  Tracker.lastActivityTime t' = Tracker.lastActivityTime t.
Proof.
  unfold Tracker.completeCurrentSequence.
  destruct (nth_error (Tracker.actionBuffer t) 0);
    [destruct (nth_error (Tracker.actionBuffer t)
                 (length (Tracker.actionBuffer t) - 1))|];
    try (repeat split; reflexivity).
  unfold Env.bind. destruct (Tracker.createContextSnapshot t w).
  repeat split; reflexivity.
Qed.

Lemma checkSequenceCompletion_focus (t : Tracker.Tracker) (w : Env.World) :
  let t' := fst (Tracker.checkSequenceCompletion t w) in
  Tracker.focusSegments t' = Tracker.focusSegments t /\
  Tracker.currentFocusSegment t' = Tracker.currentFocusSegment t /\
  Tracker.lastActivityTime t' = Tracker.lastActivityTime t.
Proof.
  unfold Tracker.checkSequenceCompletion.
  destruct (JS.geb _ _); [apply completeCurrentSequence_focus|].
  repeat split; reflexivity.
Qed.

(** ** The reason of a recorded switch *)

Lemma newDate_close (x : Q) : x - inject_Z (JS.newDate x) < 1.
Proof.
  destruct x as [a b]. unfold JS.newDate, Qlt, Qminus, Qplus, Qopp, inject_Z.
  cbn [Qnum Qden].
  pose proof (Z.quot_rem' a (Zpos b)) as E.
  pose proof (Z.rem_bound_abs a (Zpos b)) as B.
  assert (R : (Z.rem a (Z.pos b) < Z.pos b)%Z) by lia.
  rewrite Pos.mul_1_r. nia.
Qed.

Lemma determineContextSwitchReason_plain
  (action : Interfaces.BehavioralAction) (u : Tracker.Tracker) :
  Tracker.lastActivityTime u = JS.newDate (Interfaces.timestamp action) ->
  1 <= Tracker.focusLossThreshold (Tracker.config u) ->
  Tracker.determineContextSwitchReason action u = Steps.plainReason action.
Proof.
  intros L H. unfold Tracker.determineContextSwitchReason, Steps.plainReason.
  rewrite L.
  assert (G : JS.gtb (Interfaces.timestamp action
                      - inject_Z (JS.newDate (Interfaces.timestamp action)))
                     (Tracker.focusLossThreshold (Tracker.config u)) = false).
  { apply gtb_le. pose proof (newDate_close (Interfaces.timestamp action)).
    lra. }
  cbv zeta. rewrite G. destruct (Interfaces.type action); reflexivity.
Qed.

(** X15. With a focus-loss threshold of at least 1 ms, a switch recorded by
    [recordAction] never gets the reason "focus_loss" from the tracker: the
    activity time is set to the action's own timestamp before the reason is
    determined.  The recorded switch leads from the current context to the
    action's label, carries the action's timestamp and duration, and its
    reason is "file_switch" for a file switch, the declared reason (or
    "manual") for a context switch, and "manual" otherwise. *)
Theorem recorded_switch_reason (t : Tracker.Tracker)
  (action : Interfaces.BehavioralAction) (w : Env.World) (label : string) :
  1 <= Tracker.focusLossThreshold (Tracker.config t) ->
  Tracker.currentContext t <> "" ->
  Tracker.candidateContext action = Some label ->
  label <> Tracker.currentContext t ->
  let t' := fst (Tracker.recordAction action t w) in
  let pushed :=
    Tracker.contextSwitches t
    ++ [{| Tracker.switchTimestamp := JS.newDate (Interfaces.timestamp action);
           Tracker.fromContext := Tracker.currentContext t;
           Tracker.toContext := label;
           Tracker.switchDuration := Interfaces.duration action;
           Tracker.switchReason :=
             match Interfaces.type action with
             | Interfaces.FILE_SWITCH => "file_switch"
             | Interfaces.CONTEXT_SWITCH =>
                 JS.orElse (Interfaces.reason (Interfaces.metadata action))
                           "manual"
             | _ => "manual"
             end |}] in
  Tracker.contextSwitches t'
  = (if (500 <? length pushed)%nat then tl pushed else pushed) /\
  Tracker.currentContext t' = label.
Proof.
  intros Hthr Hctx Hlabel Hneq. cbv zeta.
  rewrite recordAction_arrived.
  match goal with
  | |- context [Tracker.checkSequenceCompletion ?v w] =>
      destruct (checkSequenceCompletion_frame v w) as (_ & W & X)
  end.
  rewrite W, X.
  match goal with
  | |- context [Tracker.updateFocusTracking ?a ?v] =>
      destruct (updateFocusTracking_frame a v) as (_ & _ & _ & W' & X')
  end.
  rewrite W', X'.
  destruct (arrived_fields action t) as (C & _ & _ & S & K & L & _).
  unfold Tracker.detectContextSwitch. rewrite Hlabel, K.
  apply String.eqb_neq in Hctx. rewrite Hctx.
  apply String.eqb_neq in Hneq. rewrite Hneq. cbn [negb]. cbv zeta.
  match goal with
  | |- context [Tracker.endCurrentFocusSegment ?s ?u] =>
      destruct (endCurrentFocusSegment_frame s u) as (_ & _ & _ & W2 & _)
  end.
  unfold Tracker.startNewFocusSegment, Tracker.withFocus,
    Tracker.withCurrentContext.
  cbn [Tracker.contextSwitches Tracker.currentContext].
  split; [|reflexivity].
  rewrite W2. cbn [Tracker.withContextSwitches Tracker.contextSwitches].
  rewrite S.
  rewrite determineContextSwitchReason_plain by (rewrite ?C; assumption).
  reflexivity.
Qed.

(** ** Focus segments *)

Lemma detectContextSwitch_focus (action : Interfaces.BehavioralAction)
  (u : Tracker.Tracker) :
  Steps.focused u ->
  let v := Tracker.detectContextSwitch action u in
  Steps.focused v /\
  Tracker.lastActivityTime v = Tracker.lastActivityTime u /\
  Tracker.config v = Tracker.config u /\
  match Tracker.candidateContext action with
  | None => Tracker.focusSegments v = Tracker.focusSegments u
  | Some label =>
      if String.eqb (Tracker.currentContext u) "" then
        Tracker.focusSegments v = Tracker.focusSegments u
      else if String.eqb label (Tracker.currentContext u) then
        Tracker.focusSegments v = Tracker.focusSegments u
      else
        exists closed,
          Tracker.focusSegments v = Tracker.focusSegments u ++ [closed] /\
          Tracker.segmentContext closed = Tracker.currentContext u /\
          Tracker.segmentEnd closed = JS.newDate (Interfaces.timestamp action)
  end.
Proof.
  intro F. cbv zeta. unfold Tracker.detectContextSwitch.
  destruct (Tracker.candidateContext action) as [label|];
    [|repeat split; [exact F | reflexivity..]].
  destruct (String.eqb (Tracker.currentContext u) "") eqn:E0.
  - repeat split; try reflexivity.
    intros _. eexists. split; reflexivity.
  - destruct (String.eqb label (Tracker.currentContext u)) eqn:E1;
      [repeat split; [exact F | reflexivity..]|].
    cbn [negb]. cbv zeta.
    apply String.eqb_neq in E0. destruct (F E0) as (segment & Hs & Hc).
    unfold Tracker.endCurrentFocusSegment.
    cbn [Tracker.withCurrentContext Tracker.withContextSwitches
         Tracker.currentFocusSegment].
    rewrite Hs.
    unfold Tracker.startNewFocusSegment, Tracker.withFocus,
      Tracker.withCurrentContext.
    cbn [Tracker.focusSegments Tracker.currentFocusSegment
         Tracker.currentContext Tracker.lastActivityTime Tracker.config].
    repeat split.
    + intros _. eexists. split; reflexivity.
    + eexists. split; [reflexivity|]. split; [exact Hc | reflexivity].
Qed.

Lemma updateFocusTracking_focus (action : Interfaces.BehavioralAction)
  (v : Tracker.Tracker) :
  Tracker.lastActivityTime v = JS.newDate (Interfaces.timestamp action) ->
  0 <= Tracker.focusLossThreshold (Tracker.config v) ->
  Steps.focused v ->
  let v' := Tracker.updateFocusTracking action v in
  Steps.focused v' /\ Tracker.focusSegments v' = Tracker.focusSegments v.
Proof.
  intros L H F. cbv zeta. unfold Tracker.updateFocusTracking.
  destruct (Tracker.currentFocusSegment v) as [segment|] eqn:S.
  - cbv zeta. rewrite L, Z.sub_diag.
    assert (G : JS.gtb (inject_Z 0)
                       (Tracker.focusLossThreshold (Tracker.config v)) = false).
    { apply gtb_le. exact H. }
    cbn [Tracker.withFocus Tracker.config]. rewrite G.
    split; [|reflexivity].
    intro Hc. cbn [Tracker.currentContext] in Hc.
    destruct (F Hc) as (segment' & Hs & Hk). rewrite S in Hs.
    injection Hs as <-.
    eexists. split; [reflexivity|]. exact Hk.
  - split; [exact F | reflexivity].
Qed.

Lemma recordAction_focus (action : Interfaces.BehavioralAction)
  (t : Tracker.Tracker) (w : Env.World) :
  0 <= Tracker.focusLossThreshold (Tracker.config t) ->
  Steps.focused t ->
  let t' := fst (Tracker.recordAction action t w) in
  Steps.focused t' /\
  length (Tracker.focusSegments t')
  = (length (Tracker.focusSegments t)
     + match Tracker.candidateContext action with
       | None => 0
       | Some label =>
           if String.eqb (Tracker.currentContext t) "" then 0
           else if String.eqb label (Tracker.currentContext t) then 0 else 1
       end)%nat.
Proof.
  intros H F. cbv zeta. rewrite recordAction_arrived.
  destruct (arrived_fields action t) as (C & _ & _ & _ & K & L & FS & CF & _).
  assert (Fu : Steps.focused (Steps.arrived action t)).
  { unfold Steps.focused. rewrite K, CF. exact F. }
  destruct (detectContextSwitch_focus action _ Fu) as (Fv & Lv & Cv & D).
  cbv zeta in Fv, Lv, Cv, D. rewrite K, FS in D.
  set (v := Tracker.detectContextSwitch action (Steps.arrived action t)) in *.
  destruct (updateFocusTracking_focus action v) as (Fv' & Sv');
    [rewrite Lv; exact L | rewrite Cv, C; exact H | exact Fv |].
  cbv zeta in Fv', Sv'.
  set (v' := Tracker.updateFocusTracking action v) in *.
  destruct (checkSequenceCompletion_focus v' w) as (S1 & S2 & _).
  destruct (checkSequenceCompletion_frame v' w) as (_ & _ & X).
  cbv zeta in S1, S2, X.
  split.
  - unfold Steps.focused. rewrite X, S2. exact Fv'.
  - rewrite S1, Sv'.
    destruct (Tracker.candidateContext action) as [label|];
      [|rewrite D; lia].
    destruct (String.eqb (Tracker.currentContext t) ""); [rewrite D; lia|].
    destruct (String.eqb label (Tracker.currentContext t)); [rewrite D; lia|].
    destruct D as (closed & D & _). rewrite D, length_app. reflexivity.
Qed.

Lemma actions_focus (acts : list Interfaces.BehavioralAction) :
  forall (t : Tracker.Tracker) (w : Env.World),
    0 <= Tracker.focusLossThreshold (Tracker.config t) ->
    Steps.focused t ->
    Steps.focused (fst (Run.actions acts t w)) /\
    length (Tracker.focusSegments (fst (Run.actions acts t w)))
    = (length (Tracker.focusSegments t)
       + Run.switchesFrom (Tracker.currentContext t) (Run.labels acts))%nat.
Proof.
  induction acts as [|a acts IH]; intros t w H F.
  - cbn [Run.actions Env.ret fst Run.labels flat_map].
    split; [exact F|].
    unfold Run.switchesFrom. cbn [Spec.switchesOf Spec.changes].
    destruct (String.eqb _ _); lia.
  - rewrite actions_cons.
    change (Run.labels (a :: acts))
      with ((match Tracker.candidateContext a with
             | Some label => [label] | None => [] end) ++ Run.labels acts).
    destruct (recordAction_focus a t w H F) as (F' & N). cbv zeta in F', N.
    destruct (recordAction_switches a t w) as (u & Us & Uc & Rs & Rc).
    pose proof (detectContextSwitch_effect a u) as D. cbv zeta in D.
    rewrite <- Rs, <- Rc, Us, Uc in D.
    pose proof (candidateContext_nonempty a) as NE.
    destruct (IH (fst (Tracker.recordAction a t w))
                 (snd (Tracker.recordAction a t w))) as (IF & IN);
      [rewrite recordAction_config; exact H | exact F' |].
    split; [exact IF|]. rewrite IN, N.
    destruct (Tracker.candidateContext a) as [label|].
    + specialize (NE label eq_refl). cbn [app].
      destruct (String.eqb (Tracker.currentContext t) "") eqn:E0.
      * destruct D as [_ Dc]. rewrite Dc.
        rewrite (switchesFrom_nonempty label) by exact NE.
        unfold Run.switchesFrom. rewrite E0. cbn [Spec.switchesOf]. lia.
      * assert (Hc : Tracker.currentContext t <> "")
          by (apply String.eqb_neq; exact E0).
        rewrite (switchesFrom_nonempty (Tracker.currentContext t)) by exact Hc.
        destruct (String.eqb label (Tracker.currentContext t)) eqn:E1.
        -- destruct D as [_ Dc]. apply String.eqb_eq in E1. rewrite Dc.
           rewrite (switchesFrom_nonempty _ _ Hc).
           rewrite <- E1. rewrite changes_same. lia.
        -- destruct D as (Dc & _). rewrite Dc.
           rewrite (switchesFrom_nonempty label) by exact NE.
           rewrite (changes_other _ _ _ E1). lia.
    + destruct D as [_ Dc]. cbn [app]. rewrite Dc. lia.
Qed.

(** X16. With a focus-loss threshold that is not negative, the focus-loss
    check of [updateFocusTracking] never fires inside [recordAction] (the
    activity time was just set to the action's timestamp), so a focus
    segment is closed exactly when a context switch is recorded.  On a new
    tracker the number of closed focus segments is the number of labels that
    differ from their predecessor, with no upper bound (the list of focus
    segments is not capped), and once a context is established a segment of
    that context is open. *)
Theorem focus_segments_follow_switches (cfg : Tracker.SequenceConfig)
  (now : Z) (acts : list Interfaces.BehavioralAction) (w : Env.World) :
  0 <= Tracker.focusLossThreshold cfg ->
  let t := fst (Run.actions acts (Tracker.fresh cfg now) w) in
  length (Tracker.focusSegments t) = Spec.switchesOf (Run.labels acts) /\
  (Tracker.currentContext t <> "" ->
   exists segment,
     Tracker.currentFocusSegment t = Some segment /\
     Tracker.segmentContext segment = Tracker.currentContext t).
Proof.
  intro H. cbv zeta.
  destruct (actions_focus acts (Tracker.fresh cfg now) w) as (F & N).
  - exact H.
  - intro Hc. exfalso. apply Hc. reflexivity.
  - split; [|exact F]. rewrite N. reflexivity.
Qed.

(** ** Sequence ids *)

Lemma completeCurrentSequence_ids (t : Tracker.Tracker) (w : Env.World) :
  let t' := fst (Tracker.completeCurrentSequence t w) in
  (Tracker.actionBuffer t = [] /\ t' = t) \/
  (Tracker.actionBuffer t <> [] /\
   Tracker.sequenceIdCounter t' = (Tracker.sequenceIdCounter t + 1)%Z /\
   exists s,
     Tracker.id s
     = ("seq_" ++ JS.decimal (Tracker.sequenceIdCounter t + 1))%string /\
     Tracker.actions s = Tracker.actionBuffer t /\
     Tracker.patterns s
     = Tracker.extractSequencePatterns (Tracker.actionBuffer t) /\
     Tracker.sequences t' = Run.appended s (Tracker.sequences t) /\
     Tracker.actionBuffer t' = []).
Proof.
  unfold Tracker.completeCurrentSequence.
  destruct (Tracker.actionBuffer t) as [|first rest] eqn:B.
  - left. split; reflexivity.
  - right. split; [discriminate|].
    cbn [nth_error].
    destruct (nth_error (first :: rest) (length (first :: rest) - 1)) eqn:N.
    + unfold Env.bind. destruct (Tracker.createContextSnapshot t w).
      cbv zeta. split; [reflexivity|].
      eexists. split; [|split; [|split; [|split]]]; cycle 3.
      * reflexivity.
      * reflexivity.
      * reflexivity.
      * reflexivity.
      * reflexivity.
    + exfalso. apply nth_error_None in N. simpl in N. lia.
Qed.

Lemma updateFocusTracking_counter (action : Interfaces.BehavioralAction)
  (t : Tracker.Tracker) :
  Tracker.sequenceIdCounter (Tracker.updateFocusTracking action t)
  = Tracker.sequenceIdCounter t.
Proof.
  unfold Tracker.updateFocusTracking.
  destruct (Tracker.currentFocusSegment t); [|reflexivity].
  cbv zeta. destruct (JS.gtb _ _); [|reflexivity].
  unfold Tracker.endCurrentFocusSegment. reflexivity.
Qed.

Lemma detectContextSwitch_counter (action : Interfaces.BehavioralAction)
  (t : Tracker.Tracker) :
  Tracker.sequenceIdCounter (Tracker.detectContextSwitch action t)
  = Tracker.sequenceIdCounter t.
Proof.
  unfold Tracker.detectContextSwitch.
  destruct (Tracker.candidateContext action); [|reflexivity].
  destruct (String.eqb _ _); [reflexivity|].
  destruct (negb _); [|reflexivity].
  cbv zeta. unfold Tracker.endCurrentFocusSegment.
  cbn [Tracker.withContextSwitches Tracker.currentFocusSegment].
  destruct (Tracker.currentFocusSegment t); reflexivity.
Qed.

Lemma sequenceId_inj (a b : nat) : Steps.sequenceId a = Steps.sequenceId b -> a = b.
Proof.
  unfold Steps.sequenceId. intro H. apply append_inj_l in H.
  apply decimal_inj in H. lia.
Qed.

Lemma recordAction_ids (action : Interfaces.BehavioralAction)
  (t : Tracker.Tracker) (w : Env.World) :
  let t' := fst (Tracker.recordAction action t w) in
  (Tracker.sequenceIdCounter t' = Tracker.sequenceIdCounter t /\
   Tracker.sequences t' = Tracker.sequences t) \/
  (Tracker.sequenceIdCounter t' = (Tracker.sequenceIdCounter t + 1)%Z /\
   exists s,
     Tracker.id s
     = ("seq_" ++ JS.decimal (Tracker.sequenceIdCounter t + 1))%string /\
     Tracker.sequences t' = Run.appended s (Tracker.sequences t)).
Proof.
  cbv zeta. rewrite recordAction_arrived.
  destruct (arrived_fields action t) as (_ & _ & S & _ & _ & _ & _ & _ & N).
  set (u := Steps.arrived action t) in *.
  destruct (detectContextSwitch_frame action u) as (_ & _ & S1).
  pose proof (detectContextSwitch_counter action u) as N1.
  set (v := Tracker.detectContextSwitch action u) in *.
  destruct (updateFocusTracking_frame action v) as (_ & _ & S2 & _).
  pose proof (updateFocusTracking_counter action v) as N2.
  set (v' := Tracker.updateFocusTracking action v) in *.
  cbv zeta in S1, S2.
  assert (Sq : Tracker.sequences v' = Tracker.sequences t) by congruence.
  assert (Nq : Tracker.sequenceIdCounter v' = Tracker.sequenceIdCounter t)
    by congruence.
  unfold Tracker.checkSequenceCompletion.
  destruct (JS.geb _ _).
  - destruct (completeCurrentSequence_ids v' w)
      as [[_ E]|(_ & E & s & Hid & _ & _ & Hs & _)]; cbv zeta in E.
    + left. rewrite E. split; assumption.
    + right. cbv zeta in Hs. rewrite E, Hs, Nq, Sq.
      split; [reflexivity|]. exists s. rewrite Hid, Nq. split; reflexivity.
  - left. split; assumption.
Qed.

Lemma appended_ids (s : Tracker.ActionSequence) (c : nat)
  (l : list Tracker.ActionSequence) :
  map Tracker.id l = Spec.lastn 100 (map Steps.sequenceId (seq 1 c)) ->
  Tracker.id s = Steps.sequenceId (S c) ->
  map Tracker.id (Run.appended s l)
  = Spec.lastn 100 (map Steps.sequenceId (seq 1 (S c))).
Proof.
  intros Hl Hs. rewrite seq_S, map_app. cbn [map plus].
  rewrite <- lastn_snoc by lia. rewrite <- Hl, <- Hs.
  unfold Run.appended, Tracker.maxSequences, JS.push, JS.shift.
  replace (map Tracker.id l ++ [Tracker.id s])
    with (map Tracker.id (l ++ [s])) by (rewrite map_app; reflexivity).
  rewrite <- (length_map Tracker.id (l ++ [s])).
  destruct (100 <? _)%nat; [|reflexivity].
  destruct (l ++ [s]); reflexivity.
Qed.

Lemma actions_ids (acts : list Interfaces.BehavioralAction) :
  forall (t : Tracker.Tracker) (w : Env.World),
    (0 <= Tracker.sequenceIdCounter t)%Z ->
    map Tracker.id (Tracker.sequences t)
    = Spec.lastn 100
        (map Steps.sequenceId (seq 1 (Z.to_nat (Tracker.sequenceIdCounter t)))) ->
    let t' := fst (Run.actions acts t w) in
    (Tracker.sequenceIdCounter t <= Tracker.sequenceIdCounter t')%Z /\
    map Tracker.id (Tracker.sequences t')
    = Spec.lastn 100
        (map Steps.sequenceId (seq 1 (Z.to_nat (Tracker.sequenceIdCounter t')))).
Proof.
  induction acts as [|a acts IH]; intros t w H0 H; cbv zeta.
  - cbn [Run.actions Env.ret fst]. split; [lia | exact H].
  - rewrite actions_cons.
    destruct (recordAction_ids a t w) as [[N Sq]|(N & s & Hid & Sq)];
      cbv zeta in N, Sq.
    + destruct (IH (fst (Tracker.recordAction a t w))
                   (snd (Tracker.recordAction a t w))) as [I1 I2];
        [rewrite N; exact H0 | rewrite N, Sq; exact H |].
      split; [rewrite N in I1; exact I1 | exact I2].
    + destruct (IH (fst (Tracker.recordAction a t w))
                   (snd (Tracker.recordAction a t w))) as [I1 I2].
      * rewrite N. lia.
      * rewrite N, Sq.
        replace (Z.to_nat (Tracker.sequenceIdCounter t + 1))
          with (S (Z.to_nat (Tracker.sequenceIdCounter t))) by lia.
        apply appended_ids; [exact H|].
        rewrite Hid. unfold Steps.sequenceId. do 2 f_equal. lia.
      * split; [rewrite N in I1; lia | exact I2].
Qed.

(** X17. The sequences of a tracker that started new are numbered in the
    order of their completion: the history holds, oldest first, the
    sequences "seq_1", "seq_2", ... up to the counter, cut to the 100 newest,
    so it never has more than 100 entries and no id occurs twice. *)
Theorem sequence_ids_consecutive (cfg : Tracker.SequenceConfig) (now : Z)
  (acts : list Interfaces.BehavioralAction) (w : Env.World) :
  let t := fst (Run.actions acts (Tracker.fresh cfg now) w) in
  let completed := Z.to_nat (Tracker.sequenceIdCounter t) in
  (0 <= Tracker.sequenceIdCounter t)%Z /\
  map Tracker.id (Tracker.sequences t)
  = Spec.lastn 100
      (map (fun k => ("seq_" ++ JS.decimal (Z.of_nat k))%string)
           (seq 1 completed)) /\
  length (Tracker.sequences t) = Nat.min 100 completed /\
  NoDup (map Tracker.id (Tracker.sequences t)).
Proof.
  cbv zeta.
  destruct (actions_ids acts (Tracker.fresh cfg now) w) as [H1 H2];
    [cbn; lia | reflexivity |].
  cbv zeta in H1, H2. cbn [Tracker.fresh Tracker.sequenceIdCounter] in H1.
  split; [exact H1|]. split; [exact H2|]. split.
  - rewrite <- (length_map Tracker.id), H2, lastn_exact, length_map,
      length_seq. reflexivity.
  - rewrite H2. unfold Spec.lastn.
    apply (NoDup_app_remove_l
             (firstn (length (map Steps.sequenceId
                                 (seq 1 (Z.to_nat
                                    (Tracker.sequenceIdCounter
                                       (fst (Run.actions acts
                                               (Tracker.fresh cfg now) w))))))
                      - 100)
                     (map Steps.sequenceId
                        (seq 1 (Z.to_nat
                           (Tracker.sequenceIdCounter
                              (fst (Run.actions acts
                                      (Tracker.fresh cfg now) w)))))))).
    rewrite firstn_skipn.
    apply NoDup_map_NoDup_ForallPairs; [|apply seq_NoDup].
    intros a b _ _. apply sequenceId_inj.
Qed.

(** ** A buffer above a lowered limit *)

Lemma updateConfig_fields (newConfig : Tracker.PartialConfig)
  (t : Tracker.Tracker) :
  let t' := Tracker.updateConfig newConfig t in
  Tracker.actionBuffer t' = Tracker.actionBuffer t /\
  Tracker.sequences t' = Tracker.sequences t /\
  Tracker.contextSwitches t' = Tracker.contextSwitches t /\
  Tracker.currentContext t' = Tracker.currentContext t /\
  Tracker.focusSegments t' = Tracker.focusSegments t /\
  Tracker.currentFocusSegment t' = Tracker.currentFocusSegment t /\
  Tracker.sequenceIdCounter t' = Tracker.sequenceIdCounter t /\
  Tracker.lastActivityTime t' = Tracker.lastActivityTime t.
Proof. repeat split. Qed.

(** X18. [updateConfig] changes the configuration only; it does not trim the
    buffer, and [recordAction] evicts at most one action per call.  When the
    buffer size is lowered to a value not above the number of buffered
    actions, the next [recordAction] closes a sequence that holds all the
    buffered actions but the oldest, together with the new one: as many as
    were buffered, which can be more than the new buffer size. *)
Theorem lowered_bufferSize_flushes (t : Tracker.Tracker)
  (action : Interfaces.BehavioralAction) (w : Env.World) (size : Q) :
  Tracker.actionBuffer t <> [] ->
  size <= JS.len (Tracker.actionBuffer t) ->
  let lowered :=
    Tracker.updateConfig
      {| Tracker.optBufferSize := Some size;
         Tracker.optContextSwitchThreshold := None;
         Tracker.optFocusLossThreshold := None;
         Tracker.optPatternChangeThreshold := None |} t in
  let t' := fst (Tracker.recordAction action lowered w) in
  Tracker.actionBuffer lowered = Tracker.actionBuffer t /\
  Tracker.bufferSize (Tracker.getConfig lowered) = size /\
  Tracker.actionBuffer t' = [] /\
  exists s,
    Tracker.sequences t' = Run.appended s (Tracker.sequences t) /\
    Tracker.actions s = tl (Tracker.actionBuffer t ++ [action]) /\
    length (Tracker.actions s) = length (Tracker.actionBuffer t).
Proof.
  intros Hne Hsize. cbv zeta.
  split; [reflexivity|]. split; [reflexivity|].
  set (lowered := Tracker.updateConfig _ t).
  destruct (recordAction_before_check action lowered) as (u & E & C & B & S).
  assert (Ev : Run.evicted action lowered
               = tl (Tracker.actionBuffer t ++ [action])).
  { unfold Run.evicted. subst lowered.
    cbn [Tracker.updateConfig Tracker.withConfig Tracker.actionBuffer
         Tracker.config Tracker.bufferSize Tracker.spread
         Tracker.optBufferSize].
    assert (G : JS.gtb (JS.len (JS.push (Tracker.actionBuffer t) action)) size
                = true).
    { apply gtb_gt. rewrite len_push. lra. }
    rewrite G. reflexivity. }
  assert (Len : length (tl (Tracker.actionBuffer t ++ [action]))
                = length (Tracker.actionBuffer t)).
  { destruct (Tracker.actionBuffer t) as [|x l]; [congruence|].
    cbn [app tl]. rewrite length_app. cbn [length]. lia. }
  rewrite E. unfold Tracker.checkSequenceCompletion. rewrite C, B, Ev.
  assert (G : JS.geb (JS.len (tl (Tracker.actionBuffer t ++ [action])))
                     (Tracker.bufferSize (Tracker.config lowered)) = true).
  { apply geb_ge. unfold JS.len. rewrite Len. exact Hsize. }
  rewrite G.
  destruct (completeCurrentSequence_effect u w)
    as [[Hb _]|(_ & Hb' & s & Hs & Hq)].
  - exfalso. rewrite B, Ev in Hb.
    rewrite Hb in Len. cbn [length] in Len.
    destruct (Tracker.actionBuffer t); [congruence | discriminate Len].
  - cbv zeta in Hb', Hq. split; [exact Hb'|].
    exists s. rewrite Hq, S, Hs, B, Ev. repeat split. exact Len.
Qed.

(** ** Context-switch statistics *)

Lemma bump_countOf_same (r : string) (counts : list (string * Q)) :
  Stats.countOf r (Tracker.bump r counts) = Stats.countOf r counts + 1.
Proof.
  induction counts as [|[k n] rest IH].
  - cbn [Tracker.bump Stats.countOf]. rewrite String.eqb_refl. reflexivity.
  - cbn [Tracker.bump Stats.countOf].
    destruct (String.eqb k r) eqn:E; cbn [Stats.countOf]; rewrite E;
      [reflexivity | exact IH].
Qed.

Lemma bump_countOf_other (r r' : string) (counts : list (string * Q)) :
  r' <> r ->
  Stats.countOf r (Tracker.bump r' counts) = Stats.countOf r counts.
Proof.
  intro H. induction counts as [|[k n] rest IH].
  - cbn [Tracker.bump Stats.countOf].
    destruct (String.eqb r' r) eqn:E; [|reflexivity].
    apply String.eqb_eq in E. congruence.
  - cbn [Tracker.bump Stats.countOf].
    destruct (String.eqb k r') eqn:E; cbn [Stats.countOf].
    + apply String.eqb_eq in E. subst k.
      destruct (String.eqb r' r) eqn:E'; [|reflexivity].
      apply String.eqb_eq in E'. congruence.
    + destruct (String.eqb k r); [reflexivity | exact IH].
Qed.

Lemma bump_keys (r : string) (counts : list (string * Q)) :
  map fst (Tracker.bump r counts)
  = if existsb (String.eqb r) (map fst counts) then map fst counts
    else map fst counts ++ [r].
Proof.
  induction counts as [|[k n] rest IH]; [reflexivity|].
  cbn [Tracker.bump map fst existsb].
  rewrite (String.eqb_sym r k).
  destruct (String.eqb k r); cbn [map fst orb]; [reflexivity|].
  rewrite IH. destruct (existsb _ _); reflexivity.
Qed.

Lemma existsb_eqb (c : string) (s : list string) :
  existsb (String.eqb c) s = true <-> In c s.
Proof.
  rewrite existsb_exists. split.
  - intros (x & Hx & E). apply String.eqb_eq in E. subst x. exact Hx.
  - intro H. exists c. split; [exact H | apply String.eqb_refl].
Qed.

Lemma added_NoDup (c : string) (s : list string) :
  NoDup s ->
  NoDup (if existsb (String.eqb c) s then s else s ++ [c]).
Proof.
  intro H. destruct (existsb (String.eqb c) s) eqn:E; [exact H|].
  apply NoDup_app; [exact H | repeat constructor; intros [] |].
  intros a Ha [Hc|[]]. subst a.
  apply existsb_eqb in Ha. congruence.
Qed.

Lemma added_In (c x : string) (s : list string) :
  In x (if existsb (String.eqb c) s then s else s ++ [c]) <-> x = c \/ In x s.
Proof.
  destruct (existsb (String.eqb c) s) eqn:E.
  - apply existsb_eqb in E. split; [right; assumption|].
    intros [->|H]; assumption.
  - rewrite in_app_iff. cbn [In]. split.
    + intros [H|[H|[]]]; [right; exact H | left; symmetry; exact H].
    + intros [H|H]; [right; left; symmetry; exact H | left; exact H].
Qed.

Lemma bump_positive (r : string) (counts : list (string * Q)) :
  Forall (fun entry => 0 < snd entry) counts ->
  Forall (fun entry => 0 < snd entry) (Tracker.bump r counts).
Proof.
  induction 1 as [|[k n] rest Hn Hrest IH].
  - cbn [Tracker.bump]. repeat constructor.
  - cbn [Tracker.bump]. cbn [snd] in Hn.
    destruct (String.eqb k r); constructor; try assumption.
    cbn [snd]. lra.
Qed.

Lemma countOf_absent (r : string) (counts : list (string * Q)) :
  ~ In r (map fst counts) -> Stats.countOf r counts = 0.
Proof.
  induction counts as [|[k n] rest IH]; intro H; [reflexivity|].
  cbn [Stats.countOf]. cbn [map fst In] in H.
  destruct (String.eqb k r) eqn:E.
  - apply String.eqb_eq in E. exfalso. apply H. left. exact E.
  - apply IH. intro Hin. apply H. right. exact Hin.
Qed.

Lemma countOf_present (k : string) (n : Q) (counts : list (string * Q)) :
  NoDup (map fst counts) -> In (k, n) counts -> Stats.countOf k counts = n.
Proof.
  induction counts as [|[k' n'] rest IH]; intros ND H; [destruct H|].
  cbn [Stats.countOf]. cbn [map fst] in ND. inversion ND as [|? ? Hk ND']; subst.
  destruct H as [H|H].
  - injection H as -> ->. rewrite String.eqb_refl. reflexivity.
  - destruct (String.eqb k' k) eqn:E.
    + apply String.eqb_eq in E. subst k'. exfalso. apply Hk.
      apply (in_map fst) in H. exact H.
    + apply IH; assumption.
Qed.

Lemma reasonCounts_from (switches : list Tracker.ContextSwitch) :
  forall acc : list (string * Q),
    let counts :=
      fold_left (fun counts cs => Tracker.bump (Tracker.switchReason cs) counts)
                switches acc in
    (forall r, Stats.countOf r counts
               == Stats.countOf r acc + JS.len (Stats.withReason r switches)) /\
    (NoDup (map fst acc) -> NoDup (map fst counts)) /\
    (Forall (fun entry => 0 < snd entry) acc ->
     Forall (fun entry => 0 < snd entry) counts) /\
    (forall r, In r (map fst counts)
               <-> In r (map fst acc)
                   \/ In r (map Tracker.switchReason switches)).
Proof.
  induction switches as [|cs rest IH]; intro acc; cbv zeta.
  - cbn [fold_left Stats.withReason filter map In].
    split; [|split; [|split]]; try tauto.
    intro r. unfold JS.len. cbn [length]. change (inject_Z (Z.of_nat 0)) with 0.
    ring.
  - cbn [fold_left].
    destruct (IH (Tracker.bump (Tracker.switchReason cs) acc))
      as (C & N & P & K).
    cbv zeta in C, N, P, K.
    split; [|split; [|split]].
    + intro r. rewrite C. unfold Stats.withReason. cbn [filter].
      destruct (String.eqb (Tracker.switchReason cs) r) eqn:E.
      * apply String.eqb_eq in E. rewrite <- E at 1.
        rewrite bump_countOf_same, len_cons. rewrite E. ring.
      * apply String.eqb_neq in E.
        rewrite bump_countOf_other by exact E. reflexivity.
    + intro ND. apply N. rewrite bump_keys. apply added_NoDup, ND.
    + intro Hp. apply P, bump_positive, Hp.
    + intro r. rewrite K, bump_keys, added_In. cbn [map In].
      split; intros [H|H]; try tauto.
      * destruct H as [H|H]; [right; left; symmetry; exact H | left; exact H].
      * destruct H as [H|H]; [left; left; symmetry; exact H | right; exact H].
Qed.

Lemma mostFrequent_max (counts : list (string * Q)) :
  forall start : string * Q,
    let best := Stats.mostFrequent counts start in
    snd start <= snd best /\
    Forall (fun entry => snd entry <= snd best) counts /\
    (best = start \/ In best counts).
Proof.
  induction counts as [|entry rest IH]; intro start; cbv zeta.
  - cbn. split; [lra|]. split; [constructor | left; reflexivity].
  - unfold Stats.mostFrequent. cbn [fold_left].
    destruct (JS.gtb (snd entry) (snd start)) eqn:E.
    + apply gtb_gt in E.
      destruct (IH entry) as (H1 & H2 & H3). cbv zeta in H1, H2, H3.
      unfold Stats.mostFrequent in H1, H2, H3.
      split; [lra|]. split; [constructor; assumption|].
      right. destruct H3 as [H3|H3]; [left; symmetry; exact H3 | right; exact H3].
    + apply gtb_le in E.
      destruct (IH start) as (H1 & H2 & H3). cbv zeta in H1, H2, H3.
      unfold Stats.mostFrequent in H1, H2, H3.
      split; [exact H1|]. split; [constructor; [lra | exact H2]|].
      destruct H3 as [H3|H3]; [left; exact H3 | right; right; exact H3].
Qed.

Lemma len_le {A B : Type} (l : list A) (l' : list B) :
  JS.len l <= JS.len l' -> (length l <= length l')%nat.
Proof. unfold JS.len, Qle. simpl. lia. Qed.

Lemma contexts_from (switches : list Tracker.ContextSwitch) :
  forall acc : list string,
    let ctxs :=
      fold_left (fun s cs => Tracker.setAdd (Tracker.toContext cs)
                               (Tracker.setAdd (Tracker.fromContext cs) s))
                switches acc in
    (NoDup acc -> NoDup ctxs) /\
    (forall c, In c ctxs
               <-> In c acc
                   \/ exists cs, In cs switches /\
                                 (Tracker.fromContext cs = c
                                  \/ Tracker.toContext cs = c)).
Proof.
  induction switches as [|cs rest IH]; intro acc; cbv zeta.
  - cbn [fold_left]. split; [tauto|]. intro c. split; [tauto|].
    intros [H|(x & [] & _)]. exact H.
  - cbn [fold_left].
    destruct (IH (Tracker.setAdd (Tracker.toContext cs)
                    (Tracker.setAdd (Tracker.fromContext cs) acc)))
      as (N & K).
    cbv zeta in N, K. split.
    + intro ND. apply N. unfold Tracker.setAdd, JS.push.
      apply added_NoDup, added_NoDup, ND.
    + intro c. rewrite K. unfold Tracker.setAdd, JS.push.
      rewrite !added_In. split.
      * intros [[H|[H|H]]|(x & Hx & H)].
        -- right. exists cs. split; [left; reflexivity | right; symmetry; exact H].
        -- right. exists cs. split; [left; reflexivity | left; symmetry; exact H].
        -- left. exact H.
        -- right. exists x. split; [right; exact Hx | exact H].
      * intros [H|(x & [Hx|Hx] & H)].
        -- left. right. right. exact H.
        -- subst x. left. destruct H as [H|H];
             [right; left; symmetry; exact H | left; symmetry; exact H].
        -- right. exists x. split; assumption.
Qed.

Lemma statistics_fields (t : Tracker.Tracker) :
  Tracker.contextSwitches t <> [] ->
  Tracker.mostFrequentReason (Tracker.getContextSwitchStatistics t)
  = fst (Stats.mostFrequent (Stats.reasonCounts (Tracker.contextSwitches t))
           ("none", 0)) /\
  Tracker.contexts (Tracker.getContextSwitchStatistics t)
  = fold_left (fun s cs => Tracker.setAdd (Tracker.toContext cs)
                             (Tracker.setAdd (Tracker.fromContext cs) s))
              (Tracker.contextSwitches t) [].
Proof.
  intro H. unfold Tracker.getContextSwitchStatistics.
  destruct (Tracker.contextSwitches t) as [|cs rest]; [congruence|].
  cbn [length Nat.eqb]. split; reflexivity.
Qed.

(** X19. Without a recorded switch the statistics are the zero record with
    reason "none".  Otherwise [mostFrequentReason] is the reason of a
    recorded switch, and no reason was recorded more often; [contexts] lists
    every context a recorded switch left or entered, each once; and with a
    single recorded switch [switchesPerHour] is 0. *)
Theorem contextSwitchStatistics_sound (t : Tracker.Tracker) :
  let stats := Tracker.getContextSwitchStatistics t in
  let switches := Tracker.contextSwitches t in
  (switches = [] ->
   stats = {| Tracker.totalSwitches := 0; Tracker.averageSwitchDuration := 0;
              Tracker.mostFrequentReason := "none";
              Tracker.switchesPerHour := 0; Tracker.contexts := [] |}) /\
  (switches <> [] ->
   In (Tracker.mostFrequentReason stats) (map Tracker.switchReason switches) /\
   forall r : string,
     (length (filter (fun cs => String.eqb (Tracker.switchReason cs) r) switches)
      <= length (filter (fun cs => String.eqb (Tracker.switchReason cs)
                                     (Tracker.mostFrequentReason stats))
                        switches))%nat) /\
  NoDup (Tracker.contexts stats) /\
  (forall c : string,
     In c (Tracker.contexts stats)
     <-> exists cs, In cs switches /\
                    (Tracker.fromContext cs = c \/ Tracker.toContext cs = c)) /\
  (length switches = 1%nat -> Tracker.switchesPerHour stats = 0).
Proof.
  cbv zeta. split; [|split; [|split; [|split]]].
  - intro H. unfold Tracker.getContextSwitchStatistics. rewrite H. reflexivity.
  - intro H. destruct (statistics_fields t H) as [M _]. rewrite M.
    destruct (reasonCounts_from (Tracker.contextSwitches t) [])
      as (C & N & P & K).
    cbv zeta in C, N, P, K.
    fold (Stats.reasonCounts (Tracker.contextSwitches t)) in C, N, P, K.
    specialize (N (NoDup_nil _)). specialize (P (Forall_nil _)).
    destruct (mostFrequent_max (Stats.reasonCounts (Tracker.contextSwitches t))
                ("none", 0)) as (B1 & B2 & B3).
    cbv zeta in B1, B2, B3.
    set (best := Stats.mostFrequent _ _) in *.
    assert (Hin : In best (Stats.reasonCounts (Tracker.contextSwitches t))).
    { destruct B3 as [B3|B3]; [|exact B3]. exfalso.
      destruct (Tracker.contextSwitches t) as [|cs rest] eqn:S; [congruence|].
      assert (Hk : In (Tracker.switchReason cs)
                      (map fst (Stats.reasonCounts (cs :: rest)))).
      { apply K. right. left. reflexivity. }
      apply in_map_iff in Hk. destruct Hk as ([k n] & _ & Hn).
      rewrite Forall_forall in P, B2.
      pose proof (P _ Hn) as P1. pose proof (B2 _ Hn) as P2.
      rewrite B3 in P2. cbn [snd] in P1, P2. lra. }
    split.
    + assert (Hk : In (fst best)
                      (map fst (Stats.reasonCounts (Tracker.contextSwitches t))))
        by (apply in_map; exact Hin).
      apply K in Hk. destruct Hk as [[]|Hk]. exact Hk.
    + intro r. apply len_le.
      fold (Stats.withReason r (Tracker.contextSwitches t)).
      fold (Stats.withReason (fst best) (Tracker.contextSwitches t)).
      pose proof (C r) as Cr. pose proof (C (fst best)) as Cb.
      cbn [Stats.countOf] in Cr, Cb.
      assert (Eb : Stats.countOf (fst best)
                     (Stats.reasonCounts (Tracker.contextSwitches t))
                   = snd best).
      { apply countOf_present; [exact N|]. destruct best; exact Hin. }
      assert (Le : Stats.countOf r (Stats.reasonCounts (Tracker.contextSwitches t))
                   <= snd best).
      { destruct (in_dec string_dec r
                    (map fst (Stats.reasonCounts (Tracker.contextSwitches t))))
          as [Hr|Hr].
        - apply in_map_iff in Hr. destruct Hr as ([k n] & Hk & Hn).
          cbn [fst] in Hk. subst k.
          rewrite (countOf_present r n) by assumption.
          rewrite Forall_forall in B2. apply (B2 _ Hn).
        - rewrite countOf_absent by exact Hr.
          rewrite Forall_forall in P. apply Qlt_le_weak, (P _ Hin). }
      rewrite Eb in Cb. lra.
  - destruct (Tracker.contextSwitches t) as [|cs rest] eqn:S.
    + unfold Tracker.getContextSwitchStatistics. rewrite S. constructor.
    + assert (H : Tracker.contextSwitches t <> []) by (rewrite S; discriminate).
      destruct (statistics_fields t H) as [_ X]. rewrite X.
      apply contexts_from. constructor.
  - intro c. destruct (Tracker.contextSwitches t) as [|cs rest] eqn:S.
    + unfold Tracker.getContextSwitchStatistics. rewrite S. cbn.
      split; [tauto|]. intros (x & [] & _).
    + assert (H : Tracker.contextSwitches t <> []) by (rewrite S; discriminate).
      destruct (statistics_fields t H) as [_ X]. rewrite X, S.
      destruct (contexts_from (cs :: rest) []) as [_ K]. cbv zeta in K.
      rewrite K. cbn [In]. tauto.
  - intro H. unfold Tracker.getContextSwitchStatistics. rewrite H.
    cbn [Nat.eqb Nat.ltb Nat.leb Tracker.switchesPerHour].
    destruct (JS.gtb _ 0) eqn:E; [|reflexivity].
    apply gtb_gt in E. exfalso. unfold Qlt in E. simpl in E. lia.
Qed.

(** ** Labels of a sequence *)





(** ** Three keystrokes in a row *)

Lemma prefix_append (t r : string) : String.prefix t (t ++ r) = true.
Proof.
  induction t as [|c t IH]; [destruct r; reflexivity|].
  cbn [String.append String.prefix].
  destruct (ascii_dec c c); [exact IH | congruence].
Qed.

Lemma includes_prefix (s t : string) :
  String.prefix t s = true -> JS.includes s t = true.
Proof. intro H. destruct s; cbn [JS.includes]; rewrite H; reflexivity. Qed.

Lemma includes_append (p s t : string) :
  JS.includes s t = true -> JS.includes (p ++ s) t = true.
Proof.
  intro H. induction p as [|c p IH]; [exact H|].
  cbn [String.append JS.includes]. rewrite IH. apply orb_true_r.
Qed.

Lemma includes_middle (p m s : string) : JS.includes (p ++ m ++ s) m = true.
Proof. apply includes_append, includes_prefix, prefix_append. Qed.

Lemma append_assoc (a b c : string) :
  ((a ++ b) ++ c = a ++ b ++ c)%string.
Proof.
  induction a as [|x a IH]; [reflexivity|].
  cbn [String.append]. rewrite IH. reflexivity.
Qed.

Lemma append_empty (a : string) : (a ++ "" = a)%string.
Proof.
  induction a as [|x a IH]; [reflexivity|].
  cbn [String.append]. rewrite IH. reflexivity.
Qed.

Lemma concat_cons (sep x y : string) (rest : list string) :
  String.concat sep (x :: y :: rest)
  = (x ++ sep ++ String.concat sep (y :: rest))%string.
Proof. reflexivity. Qed.

Lemma concat_front (sep : string) (mid post : list string) :
  mid <> [] ->
  exists s, String.concat sep (mid ++ post)
            = (String.concat sep mid ++ s)%string.
Proof.
  induction mid as [|x mid IH]; [congruence|]. intros _.
  destruct mid as [|y mid].
  - cbn [app]. destruct post as [|z post].
    + exists "". cbn [String.concat]. symmetry. apply append_empty.
    + eexists. rewrite concat_cons. reflexivity.
  - destruct IH as [s Hs]; [discriminate|].
    exists s. cbn [app] in *. rewrite !concat_cons, Hs.
    rewrite !append_assoc. reflexivity.
Qed.

Lemma concat_middle (sep : string) (pre mid post : list string) :
  mid <> [] ->
  exists p s, String.concat sep (pre ++ mid ++ post)
              = (p ++ String.concat sep mid ++ s)%string.
Proof.
  intro H. induction pre as [|x pre IH].
  - destruct (concat_front sep mid post H) as [s Hs].
    exists "", s. exact Hs.
  - destruct IH as (p & s & E).
    destruct (pre ++ mid ++ post) as [|y rest] eqn:R.
    + destruct pre; destruct mid; try congruence; discriminate R.
    + exists (x ++ sep ++ p)%string, s.
      change ((x :: pre) ++ mid ++ post) with (x :: (pre ++ mid ++ post)).
      rewrite R, concat_cons, E, !append_assoc. reflexivity.
Qed.

(** X21. A buffer that holds three keystroke actions in a row is labelled
    "continuous_typing", whatever else it holds: this label is tried first
    and is the first label of the sequence. *)
Theorem three_keystrokes_continuous_typing
  (pre post : list Interfaces.BehavioralAction)
  (a b c : Interfaces.BehavioralAction) :
  Interfaces.type a = Interfaces.KEYSTROKE ->
  Interfaces.type b = Interfaces.KEYSTROKE ->
  Interfaces.type c = Interfaces.KEYSTROKE ->
  let acts := pre ++ [a; b; c] ++ post in
  Tracker.findActionTypePattern (map Interfaces.type acts)
  = Some "continuous_typing" /\
  hd "" (Tracker.extractSequencePatterns acts) = "continuous_typing".
Proof.
  intros Ha Hb Hc. cbv zeta.
  assert (F : Tracker.findActionTypePattern
                (map Interfaces.type (pre ++ [a; b; c] ++ post))
              = Some "continuous_typing").
  { unfold Tracker.findActionTypePattern. cbv zeta.
    rewrite !map_app. cbn [map]. rewrite Ha, Hb, Hc.
    destruct (concat_middle ","
                (map Interfaces.actionTypeValue (map Interfaces.type pre))
                (map Interfaces.actionTypeValue
                   [Interfaces.KEYSTROKE; Interfaces.KEYSTROKE;
                    Interfaces.KEYSTROKE])
                (map Interfaces.actionTypeValue (map Interfaces.type post)))
      as (p & s & E); [discriminate|].
    cbn [map] in E. rewrite E.
    change (String.concat ","
              [Interfaces.actionTypeValue Interfaces.KEYSTROKE;
               Interfaces.actionTypeValue Interfaces.KEYSTROKE;
               Interfaces.actionTypeValue Interfaces.KEYSTROKE])
      with "keystroke,keystroke,keystroke".
    rewrite includes_middle. reflexivity. }
  split; [exact F|].
  unfold Tracker.extractSequencePatterns. cbv zeta. rewrite F.
  destruct (Tracker.findTimingPattern _); destruct (Tracker.findContextPattern _);
    reflexivity.
Qed.

(** ** Significance levels *)

Lemma abs_cases (x : Q) :
  (x < 0 /\ JS.abs x = - x) \/ (0 <= x /\ JS.abs x = x).
Proof.
  unfold JS.abs. destruct (JS.ltb x 0) eqn:E.
  - left. split; [apply ltb_lt; exact E | reflexivity].
  - right. split; [apply ltb_ge; exact E | reflexivity].
Qed.

Lemma calculatePValue_cases (tStat degreesOfFreedom : Q) :
  let a := JS.abs tStat in
  let p := Tracker.calculatePValue tStat degreesOfFreedom in
  (2576 # 1000 < a /\ p = 1 # 100) \/
  (a <= 2576 # 1000 /\ 196 # 100 < a /\ p = 5 # 100) \/
  (a <= 196 # 100 /\ 1645 # 1000 < a /\ p = 10 # 100) \/
  (a <= 1645 # 1000 /\ p = 5 # 10).
Proof.
  cbv zeta. unfold Tracker.calculatePValue. cbv zeta.
  destruct (JS.gtb (JS.abs tStat) (2576 # 1000)) eqn:E1.
  { left. apply gtb_gt in E1. split; [exact E1 | reflexivity]. }
  apply gtb_le in E1.
  destruct (JS.gtb (JS.abs tStat) (196 # 100)) eqn:E2.
  { right. left. apply gtb_gt in E2. repeat split; assumption. }
  apply gtb_le in E2.
  destruct (JS.gtb (JS.abs tStat) (1645 # 1000)) eqn:E3.
  { right. right. left. apply gtb_gt in E3. repeat split; assumption. }
  apply gtb_le in E3. right. right. right. split; [exact E3 | reflexivity].
Qed.

(** X22. The significance level depends on the size of the t statistic
    only, not on its sign or on the degrees of freedom, and a larger size
    never gives a larger level; a statistic of size at most 1.645 gives
    0.5. *)
Theorem calculatePValue_monotone (t1 t2 d1 d2 : Q) :
  (JS.abs t1 <= JS.abs t2 ->
   Tracker.calculatePValue t2 d2 <= Tracker.calculatePValue t1 d1) /\
  (JS.abs t1 == JS.abs t2 ->
   Tracker.calculatePValue t1 d1 = Tracker.calculatePValue t2 d2) /\
  Tracker.calculatePValue (- t1) d1 = Tracker.calculatePValue t1 d2 /\
  (JS.abs t1 <= 1645 # 1000 -> Tracker.calculatePValue t1 d1 = 5 # 10).
Proof.
  assert (Eq : forall x y dx dy,
             JS.abs x == JS.abs y ->
             Tracker.calculatePValue x dx = Tracker.calculatePValue y dy).
  { intros x y dx dy H.
    destruct (calculatePValue_cases x dx) as [A|[A|[A|A]]];
      destruct (calculatePValue_cases y dy) as [B|[B|[B|B]]];
      cbv zeta in A, B;
      repeat match goal with H : _ /\ _ |- _ => destruct H end;
      try congruence; exfalso; lra. }
  split; [|split; [|split]].
  - intro H.
    destruct (calculatePValue_cases t1 d1) as [A|[A|[A|A]]];
      destruct (calculatePValue_cases t2 d2) as [B|[B|[B|B]]];
      cbv zeta in A, B;
      repeat match goal with H : _ /\ _ |- _ => destruct H end;
      repeat match goal with H : Tracker.calculatePValue _ _ = _ |- _ =>
               rewrite H; clear H end;
      try (unfold Qle; simpl; lia); exfalso; lra.
  - apply Eq.
  - apply Eq.
    destruct (abs_cases t1) as [[H1 E1]|[H1 E1]];
      destruct (abs_cases (- t1)) as [[H2 E2]|[H2 E2]];
      rewrite E1, E2; lra.
  - intro H. destruct (calculatePValue_cases t1 d1) as [A|[A|[A|A]]];
      cbv zeta in A;
      repeat match goal with H : _ /\ _ |- _ => destruct H end;
      try assumption; exfalso; lra.
Qed.

(** ** Detected pattern changes *)

Section Changes.

Variable Math_sqrt : Q -> Q.

Lemma detectPatternChange_cases (patternType : string)
  (seqs : list Tracker.ActionSequence) (t : Tracker.Tracker) (w : Env.World) :
  Tracker.detectPatternChange Math_sqrt patternType seqs t w = (None, w) \/
  exists ev w',
    Tracker.detectPatternChange Math_sqrt patternType seqs t w = (Some ev, w') /\
    Env.reads w' = S (Env.reads w) /\
    Env.clock w' = Env.clock w /\
    Tracker.eventTimestamp ev = Env.clock w (Env.reads w) /\
    Tracker.previousPattern ev = (patternType ++ "_old")%string /\
    Tracker.newPattern ev = (patternType ++ "_new")%string.
Proof.
  unfold Tracker.detectPatternChange. cbv zeta.
  destruct (length _ <? 5)%nat; [left; reflexivity|].
  destruct (JS.ltb _ _); [|left; reflexivity].
  right. unfold Env.bind, Env.dateNow, Env.ret.
  eexists. eexists. split; [reflexivity|]. repeat split.
Qed.

Lemma forEachPatternType_shape (patternTypes : list string)
  (recent : list Tracker.ActionSequence) (t : Tracker.Tracker) :
  forall (changes : list Tracker.PatternChangeEvent) (w : Env.World),
    let r := Tracker.forEachPatternType Math_sqrt patternTypes recent t
               changes w in
    exists new,
      fst r = changes ++ new /\
      (length new <= length patternTypes)%nat /\
      Env.reads (snd r) = (Env.reads w + length new)%nat /\
      Env.clock (snd r) = Env.clock w /\
      map Tracker.eventTimestamp new
      = map (Env.clock w) (seq (Env.reads w) (length new)) /\
      Forall (fun ev =>
                exists patternType,
                  In patternType patternTypes /\
                  Tracker.previousPattern ev = (patternType ++ "_old")%string /\
                  Tracker.newPattern ev = (patternType ++ "_new")%string)
             new.
Proof.
  induction patternTypes as [|patternType rest IH]; intros changes w; cbv zeta.
  - exists []. cbn. rewrite app_nil_r, Nat.add_0_r.
    repeat split; try lia. constructor.
  - cbn [Tracker.forEachPatternType]. unfold Env.bind.
    destruct (detectPatternChange_cases patternType recent t w)
      as [E|(ev & w' & E & R & C & T & P & N)]; rewrite E.
    + destruct (IH changes w) as (new & H1 & H2 & H3 & H4 & H5 & H6).
      cbv zeta in H1, H2, H3, H4, H5, H6.
      exists new. repeat split; try assumption.
      * cbn [length]. lia.
      * eapply Forall_impl; [|exact H6].
        intros e (ty & Hty & He). exists ty. split; [right; exact Hty | exact He].
    + destruct (IH (JS.push changes ev) w')
        as (new & H1 & H2 & H3 & H4 & H5 & H6).
      cbv zeta in H1, H2, H3, H4, H5, H6.
      exists (ev :: new). repeat split.
      * rewrite H1. unfold JS.push. rewrite <- app_assoc. reflexivity.
      * cbn [length]. lia.
      * rewrite H3, R. cbn [length]. lia.
      * rewrite H4. exact C.
      * cbn [length seq map]. rewrite T. f_equal.
        rewrite H5, C, R. reflexivity.
      * constructor.
        -- exists patternType. split; [left; reflexivity|]. split; assumption.
        -- eapply Forall_impl; [|exact H6].
           intros e (ty & Hty & He). exists ty.
           split; [right; exact Hty | exact He].
Qed.

(** X23. [detectPatternChanges] examines the three pattern types in a fixed
    order and returns at most one event for each, named after its type; the
    events are stamped with successive clock readings, one reading per
    event; and with a threshold of 0.01 or less no event is ever
    returned. *)
Theorem detectPatternChanges_shape (t : Tracker.Tracker) (w : Env.World) :
  let r := Tracker.detectPatternChanges Math_sqrt t w in
  let events := fst r in
  (length events <= 3)%nat /\
  Forall (fun ev =>
            exists patternType,
              In patternType Stats.patternTypes /\
              Tracker.previousPattern ev = (patternType ++ "_old")%string /\
              Tracker.newPattern ev = (patternType ++ "_new")%string) events /\
  map Tracker.eventTimestamp events
  = map (Env.clock w) (seq (Env.reads w) (length events)) /\
  Env.reads (snd r) = (Env.reads w + length events)%nat /\
  (Tracker.patternChangeThreshold (Tracker.config t) <= 1 # 100 ->
   events = []).
Proof.
  cbv zeta. unfold Tracker.detectPatternChanges. cbv zeta.
  destruct (length _ <? 5)%nat.
  { cbn. rewrite Nat.add_0_r. repeat split; try lia. constructor. }
  match goal with
  | |- context [Tracker.forEachPatternType _ ?tys ?recent t [] w] =>
      destruct (forEachPatternType_shape tys recent t [] w)
        as (new & H1 & H2 & H3 & H4 & H5 & H6);
      pose proof (forEachPatternType_events Math_sqrt tys recent t [] w
                    (Forall_nil _)) as W
  end.
  cbv zeta in H1, H2, H3, H4, H5, H6. cbn [app] in H1.
  rewrite H1 in *. repeat split; try assumption.
  intro Hthr. destruct new as [|ev new]; [reflexivity|]. exfalso.
  inversion W as [|? ? Hev _]; subst.
  destruct Hev as (Hin & Hlt & _).
  cbn [In] in Hin.
  destruct Hin as [E|[E|[E|[E|[]]]]]; rewrite <- E in Hlt; lra.
Qed.




End Changes.

(** ** Focus patterns *)

Lemma includes_empty (s : string) : JS.includes s "" = true.
Proof. destruct s; reflexivity. Qed.

Lemma filter_all {A : Type} (f : A -> bool) (l : list A) :
  (forall x, In x l -> f x = true) -> filter f l = l.
Proof.
  induction l as [|a l IH]; intro H; [reflexivity|].
  cbn [filter]. rewrite (H a (or_introl eq_refl)). f_equal.
  apply IH. intros x Hx. apply H. right. exact Hx.
Qed.

(** X25. [analyzeFocusPatterns] selects the closed focus segments whose
    context contains the given id; the ids "all" and "" select every
    segment.  The pattern reports the selected segments in order, the sum
    of their durations and a number of interruptions that is at most their
    count; when no segment is selected it is the zero pattern of that
    id. *)
Theorem analyzeFocusPatterns_selection (sessionId : string)
  (t : Tracker.Tracker) :
  let p := Tracker.analyzeFocusPatterns sessionId t in
  let selected :=
    filter (fun segment =>
              JS.includes (Tracker.segmentContext segment) sessionId
              || String.eqb sessionId "all")
           (Tracker.focusSegments t) in
  Tracker.focusSessionId p = sessionId /\
  Tracker.focusSegmentsOf p = selected /\
  Tracker.totalFocusTime p == Spec.total (map Tracker.segmentDuration selected) /\
  (Tracker.interruptionCount p <= length selected)%nat /\
  (sessionId = "all" \/ sessionId = "" -> selected = Tracker.focusSegments t) /\
  (selected = [] ->
   p = {| Tracker.focusSessionId := sessionId; Tracker.focusSegmentsOf := [];
          Tracker.totalFocusTime := 0; Tracker.averageFocusSegment := 0;
          Tracker.interruptionCount := 0 |}).
Proof.
  cbv zeta. unfold Tracker.analyzeFocusPatterns. cbv zeta.
  set (selected := filter _ (Tracker.focusSegments t)).
  assert (All : sessionId = "all" \/ sessionId = ""
                -> selected = Tracker.focusSegments t).
  { intro H. subst selected. apply filter_all. intros x _.
    destruct H as [-> | ->]; [apply orb_true_r|].
    rewrite includes_empty. reflexivity. }
  destruct (length selected =? 0)%nat eqn:E.
  - apply Nat.eqb_eq in E.
    assert (S0 : selected = []) by (destruct selected; [reflexivity | discriminate E]).
    rewrite S0. cbn. repeat split; try lia; try reflexivity.
    rewrite S0 in All. exact All.
  - cbn [Tracker.focusSessionId Tracker.focusSegmentsOf Tracker.totalFocusTime
         Tracker.interruptionCount].
    split; [reflexivity|]. split; [reflexivity|].
    split; [apply sum_total|]. split.
    + unfold Tracker.countInterruptions. rewrite E. apply filter_length_le.
    + split; [exact All|]. intro H. rewrite H in E. discriminate E.
Qed.

(** ** Rhythm-based indicators *)

Lemma calculateRhythm_length (l : list Q) :
  length (Keystroke.calculateRhythm l) = (length l - 4)%nat.
Proof.
  pose proof (calculateRhythm_spec l) as H. apply Forall2_length in H.
  rewrite H. apply movingAverages_length.
Qed.

Lemma extractTimingPatterns_rhythm (a : Keystroke.Analyzer) :
  length (Keystroke.rhythm (Keystroke.extractTimingPatterns a))
  = (length (Keystroke.timingBuffer a) - 4)%nat.
Proof.
  unfold Keystroke.extractTimingPatterns.
  destruct (length (Keystroke.timingBuffer a) <? 2)%nat eqn:E.
  - apply Nat.ltb_lt in E. cbn. lia.
  - cbn [Keystroke.rhythm]. apply calculateRhythm_length.
Qed.

Lemma detectFatigueIndicators_short (p : Keystroke.TimingPattern) :
  (length (Keystroke.rhythm p) <= 10)%nat ->
  Keystroke.detectFatigueIndicators p = Some 0.
Proof.
  intro H. unfold Keystroke.detectFatigueIndicators. cbv zeta.
  assert (R : JS.sliceFrom (Keystroke.rhythm p) (-10) = Keystroke.rhythm p).
  { unfold JS.sliceFrom, JS.sliceIndex. cbn [Z.ltb Z.compare].
    replace (Z.to_nat (Z.max (Z.of_nat (length (Keystroke.rhythm p)) + -10) 0))
      with 0%nat by lia.
    reflexivity. }
  assert (F : JS.slice (Keystroke.rhythm p) 0 10 = Keystroke.rhythm p).
  { unfold JS.slice, JS.sliceIndex. cbn [Z.ltb Z.compare Z.to_nat].
    cbn [Nat.min]. rewrite Nat.sub_0_r. cbn [skipn].
    rewrite Nat.min_r by (change (Pos.to_nat 10) with 10%nat; lia).
    apply firstn_all. }
  rewrite R, F.
  destruct (length (Keystroke.rhythm p) =? 0)%nat; [reflexivity|].
  cbn [orb].
  assert (G : JS.gtb (Keystroke.calculateMean (Keystroke.rhythm p))
                     (Keystroke.calculateMean (Keystroke.rhythm p)) = false)
    by (apply gtb_le, Qle_refl).
  rewrite G. reflexivity.
Qed.

Section Rhythm.

Variable Math_sqrt : Q -> Q.

(** X26. The rhythm-based statistics need a history: with at most 5
    buffered intervals the rhythm consistency is 0, and with at most 14 (a
    rhythm of at most 10 moving averages, whose recent and early windows
    coincide) the fatigue indicator is 0. *)
Theorem rhythm_statistics_need_history (a : Keystroke.Analyzer) :
  let m := Keystroke.analyzeStatistics Math_sqrt a in
  ((length (Keystroke.timingBuffer a) <= 5)%nat ->
   Keystroke.rhythmConsistency m = 0) /\
  ((length (Keystroke.timingBuffer a) <= 14)%nat ->
   Keystroke.fatigueIndicators m = Some 0) /\
  (forall p : Keystroke.TimingPattern,
     (length (Keystroke.rhythm p) <= 10)%nat ->
     Keystroke.detectFatigueIndicators p = Some 0).
Proof.
  cbv zeta. unfold Keystroke.analyzeStatistics.
  cbn [Keystroke.rhythmConsistency Keystroke.fatigueIndicators].
  pose proof (extractTimingPatterns_rhythm a) as L.
  split; [|split].
  - intro H. unfold Keystroke.calculateRhythmConsistency.
    destruct (_ <? 2)%nat eqn:E; [reflexivity|].
    apply Nat.ltb_ge in E. lia.
  - intro H. apply detectFatigueIndicators_short. lia.
  - apply detectFatigueIndicators_short.
Qed.

End Rhythm.

(** ** The context snapshot of a sequence *)

Lemma lastSegment_dotless (s : string) :
  forall segment : string,
    Chain.dotless s = true ->
    Tracker.lastSegment s segment = (segment ++ s)%string.
Proof.
  induction s as [|c s IH]; intros segment H.
  - cbn. symmetry. apply append_empty.
  - unfold Chain.dotless in H. cbn [list_ascii_of_string forallb] in H.
    apply andb_prop in H. destruct H as [Hc Hs].
    cbn [Tracker.lastSegment]. apply negb_true_iff in Hc. rewrite Hc.
    rewrite IH by exact Hs. rewrite append_assoc. reflexivity.
Qed.

Lemma lastSegment_after_dot (p e : string) :
  forall segment : string,
    Tracker.lastSegment (p ++ "." ++ e) segment = Tracker.lastSegment e "".
Proof.
  induction p as [|c p IH]; intro segment.
  - reflexivity.
  - cbn [String.append Tracker.lastSegment].
    destruct (Ascii.eqb c "."); apply IH.
Qed.

(** X27. The context snapshot of a completed sequence names the current
    context as its project context and takes the file type from what
    follows the last dot of the context: the whole context when it has no
    dot, and "unknown" when nothing follows the last dot or the context is
    empty.  The time of day is the local hour of the first clock reading.
    The session duration is the second clock reading minus the start of the
    first closed focus segment; while no focus segment is closed (or that
    start is 0) the clock is read a third time instead, so the duration is
    the second reading minus the third. *)
Theorem createContextSnapshot_fields (t : Tracker.Tracker) (w : Env.World) :
  let s := fst (Tracker.createContextSnapshot t w) in
  Interfaces.projectContext s = Tracker.currentContext t /\
  Interfaces.timeOfDay s = Env.localHours w (Env.clock w (Env.reads w)) /\
  (forall p e : string,
     Tracker.currentContext t = (p ++ "." ++ e)%string ->
     Chain.dotless e = true ->
     Interfaces.fileType s = if String.eqb e "" then "unknown" else e) /\
  (Chain.dotless (Tracker.currentContext t) = true ->
   Interfaces.fileType s
   = if String.eqb (Tracker.currentContext t) "" then "unknown"
     else Tracker.currentContext t) /\
  (Tracker.focusSegments t = [] ->
   Interfaces.sessionDuration s
   = inject_Z (Env.clock w (1 + Env.reads w) - Env.clock w (2 + Env.reads w))) /\
  (forall (segment : Tracker.FocusSegment) (rest : list Tracker.FocusSegment),
     Tracker.focusSegments t = segment :: rest ->
     Tracker.segmentStart segment <> 0%Z ->
     Interfaces.sessionDuration s
     = inject_Z (Env.clock w (1 + Env.reads w) - Tracker.segmentStart segment)).
Proof.
  cbv zeta.
  assert (P : forall started : Env.IO Z,
            let r := (today <- Env.dateNow ;;
                      hours <- Env.getHours today ;;
                      now <- Env.dateNow ;;
                      start <- started ;;
                      Env.ret
                        {| Interfaces.fileType :=
                             JS.orElse
                               (Some (Tracker.lastSegment
                                        (Tracker.currentContext t) ""))
                               "unknown";
                           Interfaces.projectContext := Tracker.currentContext t;
                           Interfaces.timeOfDay := hours;
                           Interfaces.sessionDuration := inject_Z (now - start) |})
                       w in
            Interfaces.projectContext (fst r) = Tracker.currentContext t /\
            Interfaces.timeOfDay (fst r)
            = Env.localHours w (Env.clock w (Env.reads w)) /\
            Interfaces.fileType (fst r)
            = JS.orElse (Some (Tracker.lastSegment (Tracker.currentContext t) ""))
                        "unknown").
  { intro started. cbv zeta.
    unfold Env.bind, Env.dateNow, Env.getHours, Env.ret.
    cbn [Env.clock Env.reads Env.localHours].
    destruct (started _) as [start w']. cbn. repeat split. }
  unfold Tracker.createContextSnapshot.
  match goal with
  | |- context [Env.bind _ (fun _ => Env.bind _ (fun _ => Env.bind _ (fun _ =>
                  Env.bind ?started _)))] =>
      destruct (P started) as (P1 & P2 & P3)
  end.
  cbv zeta in P1, P2, P3.
  split; [exact P1|]. split; [exact P2|]. split; [|split; [|split]].
  - intros p e Hctx He. rewrite P3, Hctx, lastSegment_after_dot.
    rewrite lastSegment_dotless by exact He. reflexivity.
  - intro H. rewrite P3. rewrite lastSegment_dotless by exact H. reflexivity.
  - intro H. rewrite H. reflexivity.
  - intros segment rest H Hs. rewrite H. cbn [nth_error].
    apply Z.eqb_neq in Hs.
    unfold Env.bind, Env.dateNow, Env.getHours, Env.ret. rewrite Hs. reflexivity.
Qed.

(** ** The switch history as a chain *)

Lemma linked_tl (l : list Tracker.ContextSwitch) :
  Chain.linked l -> Chain.linked (tl l).
Proof.
  destruct l as [|a [|b l]]; cbn; try tauto.
Qed.

Lemma linked_snoc (l : list Tracker.ContextSwitch) (cs : Tracker.ContextSwitch) :
  Chain.linked l ->
  last (map Tracker.toContext l) (Tracker.fromContext cs)
  = Tracker.fromContext cs ->
  Chain.linked (l ++ [cs]).
Proof.
  induction l as [|a [|b l] IH]; intros H L.
  - exact I.
  - cbn in *. split; [exact L | exact I].
  - destruct H as [H1 H2]. cbn [app Chain.linked]. split; [exact H1|].
    apply IH; [exact H2 | exact L].
Qed.

Lemma recorded_cases (cs : Tracker.ContextSwitch)
  (l : list Tracker.ContextSwitch) :
  Run.recorded cs l = l ++ [cs] \/ Run.recorded cs l = tl (l ++ [cs]).
Proof.
  unfold Run.recorded, JS.push, JS.shift.
  destruct (_ <? _)%nat; [right | left]; reflexivity.
Qed.

Lemma last_map_snoc {A B : Type} (f : A -> B) (l : list A) (x : A) (d : B) :
  last (map f (l ++ [x])) d = f x /\ last (map f (tl (l ++ [x]))) (f x) = f x.
Proof.
  split.
  - rewrite map_app. cbn [map]. apply last_last.
  - destruct l as [|a l]; [reflexivity|].
    cbn [app tl]. rewrite map_app. cbn [map]. apply last_last.
Qed.

Lemma tl_snoc_cases {A : Type} (l : list A) (x : A) :
  tl (l ++ [x]) = [] \/ tl (l ++ [x]) = tl l ++ [x].
Proof. destruct l as [|a l]; [left | right]; reflexivity. Qed.

Lemma recordAction_chained (action : Interfaces.BehavioralAction)
  (t : Tracker.Tracker) (w : Env.World) :
  Chain.chained t -> Chain.chained (fst (Tracker.recordAction action t w)).
Proof.
  intros (L & T & P & E). unfold Chain.chained.
  destruct (recordAction_switches action t w) as (u & Us & Uc & Rs & Rc).
  pose proof (detectContextSwitch_effect action u) as D. cbv zeta in D.
  rewrite <- Rs, <- Rc, Us, Uc in D.
  pose proof (candidateContext_nonempty action) as NE.
  destruct (Tracker.candidateContext action) as [label|].
  - specialize (NE label eq_refl).
    destruct (String.eqb (Tracker.currentContext t) "") eqn:E0.
    + destruct D as [Ds Dc]. rewrite Ds, Dc.
      apply String.eqb_eq in E0. rewrite (E E0).
      repeat split; constructor.
    + destruct (String.eqb label (Tracker.currentContext t)) eqn:E1.
      * destruct D as [Ds Dc]. rewrite Ds, Dc. repeat split; assumption.
      * destruct D as (Dc & cs & Hf & Ht & Ds). rewrite Ds, Dc.
        apply String.eqb_neq in E0, E1.
        assert (Pcs : Chain.proper cs).
        { unfold Chain.proper. rewrite Hf, Ht. repeat split; congruence. }
        assert (Lp : Chain.linked (Tracker.contextSwitches t ++ [cs]))
          by (apply linked_snoc; [exact L | rewrite Hf; exact T]).
        assert (Pp : Forall Chain.proper (Tracker.contextSwitches t ++ [cs]))
          by (apply Forall_app; split;
              [exact P | apply Forall_cons; [exact Pcs | apply Forall_nil]]).
        destruct (last_map_snoc Tracker.toContext (Tracker.contextSwitches t)
                    cs label) as [M1 M2].
        rewrite Ht in M1, M2.
        destruct (recorded_cases cs (Tracker.contextSwitches t)) as [R|R];
          rewrite R.
        -- repeat split; try assumption. intro H. congruence.
        -- repeat split.
           ++ apply linked_tl, Lp.
           ++ exact M2.
           ++ destruct (Tracker.contextSwitches t ++ [cs]); [constructor|].
              inversion Pp; assumption.
           ++ intro H. congruence.
  - destruct D as [Ds Dc]. rewrite Ds, Dc. repeat split; assumption.
Qed.

Lemma actions_chained (acts : list Interfaces.BehavioralAction) :
  forall (t : Tracker.Tracker) (w : Env.World),
    Chain.chained t -> Chain.chained (fst (Run.actions acts t w)).
Proof.
  induction acts as [|a acts IH]; intros t w H; [exact H|].
  rewrite actions_cons. apply IH, recordAction_chained, H.
Qed.

(** X28. The switch history of a tracker that started new is a chain: every
    recorded switch leads from a named context to a different named one,
    each switch starts in the context the one before it led to, and the
    newest one leads to the current context; dropping the oldest entries
    above 500 keeps the chain. *)
Theorem switch_history_chained (cfg : Tracker.SequenceConfig) (now : Z)
  (acts : list Interfaces.BehavioralAction) (w : Env.World) :
  let t := fst (Run.actions acts (Tracker.fresh cfg now) w) in
  Chain.linked (Tracker.contextSwitches t) /\
  last (map Tracker.toContext (Tracker.contextSwitches t))
       (Tracker.currentContext t) = Tracker.currentContext t /\
  Forall (fun cs =>
            Tracker.fromContext cs <> Tracker.toContext cs /\
            Tracker.fromContext cs <> "" /\ Tracker.toContext cs <> "")
         (Tracker.contextSwitches t) /\
  (Tracker.currentContext t = "" -> Tracker.contextSwitches t = []).
Proof.
  cbv zeta. apply (actions_chained acts (Tracker.fresh cfg now) w).
  unfold Chain.chained. cbn. repeat split. constructor.
Qed.

(** ** Further theorems on the sample inputs *)

(** One pause of 1400 ms among five intervals. *)
Lemma typing_speed_and_decision_time_witness :
  Keystroke.countPauses (Keystroke.timingBuffer Scenario.typed) <> 0%nat /\
  1000 < Keystroke.calculateDecisionTime Scenario.typed.
Proof.
  split; [vm_compute; lia|].
  apply (typing_speed_and_decision_time Scenario.typed).
  vm_compute; lia.
Defined.

(** Two keystrokes give one interval only. *)
Lemma patterns_need_three_keystrokes_witness :
  (length (map Scenario.keyEventAt [0%Q; 50%Q]) <= 2)%nat /\
  Keystroke.extractTimingPatterns
    (Run.keystrokes (map Scenario.keyEventAt [0; 50])
                    (Keystroke.clearData Scenario.typed))
  = Keystroke.getDefaultPattern.
Proof.
  split; [simpl; lia|].
  apply (patterns_need_three_keystrokes Scenario.typed).
  simpl; lia.
Defined.

(** The six buffered events of the sample analyzer, given to a new engine. *)
Lemma exported_actions_replay_witness :
  let e := fst (Engine.constructor "user" Scenario.world) in
  let w := snd (Engine.constructor "user" Scenario.world) in
  Ref.complete Scenario.typed = true /\
  Interfaces.typingSpeed
    (fst (fst (Engine.calculateMetrics Scenario.sqrtFloor
                 (Keystroke.toBehavioralActions Scenario.typed) e w)))
  = Keystroke.calculateTypingSpeed
      (Run.keystrokes (Keystroke.keyEvents Scenario.typed)
                      (Engine.keystrokeAnalyzer e)).
Proof.
  intros e w. split; [reflexivity|].
  refine (proj1 (proj2 (proj2 (proj2 (proj2
            (exported_actions_replay Scenario.sqrtFloor Scenario.typed e w _)))))).
  reflexivity.
Defined.



(** A new engine whose first call comes 2 000 000 ms after its start. *)
Lemma calculateMetrics_session_timeout_witness :
  let e := fst (Engine.constructor "user" Sample.jumpingWorld) in
  let w := snd (Engine.constructor "user" Sample.jumpingWorld) in
  let e' := snd (fst (Engine.calculateMetrics Scenario.sqrtFloor [] e w)) in
  (Engine.sessionStartTime (Engine.patternStorage e) + 1800000
   < Env.clock w (2 + Env.reads w))%Z /\
  Engine.currentSession (Engine.patternStorage e) = "session_0_4fzyo82mv" /\
  Engine.currentSession (Engine.patternStorage e') = "session_2000000_4fzyo82mv" /\
  map Engine.sessionId (Engine.metricsHistory e') = ["session_0_4fzyo82mv"].
Proof.
  cbv zeta. split; [reflexivity|]. split; [reflexivity|]. split; [|reflexivity].
  apply (calculateMetrics_session_timeout Scenario.sqrtFloor []
           (fst (Engine.constructor "user" Sample.jumpingWorld))
           (snd (Engine.constructor "user" Sample.jumpingWorld))).
  reflexivity.
Defined.

(** The engine after twelve calls of ever slower typing. *)
Lemma speed_decline_bounded_witness :
  let e := fst (Scenario.slowTyping 11) in
  Log.speedsNonneg (Engine.metricsHistory e) = true /\
  0 <= Engine.typingSpeedDecline (Engine.detectFatigue Scenario.sqrtFloor e)
  <= 1.
Proof.
  cbv zeta. split; [vm_compute; reflexivity|].
  apply (proj1 (speed_decline_bounded Scenario.sqrtFloor)
               (fst (Scenario.slowTyping 11)) (snd (Scenario.slowTyping 11))).
  vm_compute; reflexivity.
Defined.

(** A second pattern stored beside a first one. *)
Lemma storePattern_lookup_witness :
  let e := fst Sample.indexed in
  let w := snd Sample.indexed in
  let e' := fst (Engine.storePattern "typing" Sample.someMetrics e w) in
  "other" <> "typing" /\
  Engine.patternHistory "other" (Engine.patterns (Engine.patternStorage e'))
  = Engine.patternHistory "other" (Engine.patterns (Engine.patternStorage e)) /\
  length (Engine.patternHistory "other"
            (Engine.patterns (Engine.patternStorage e'))) = 1%nat /\
  length (Engine.getPatternsByTimeRange "typing" 0 5000 e') = 1%nat.
Proof.
  cbv zeta. split; [discriminate|]. split; [|split; reflexivity].
  refine (proj1 (proj2 (storePattern_lookup "typing" Sample.someMetrics
                          (fst Sample.indexed) (snd Sample.indexed))) "other" _).
  discriminate.
Defined.

(** The two newest of the eleven entries of the sample history. *)
Lemma newest_entries_queries_witness :
  (0 < 2)%Z /\
  length (Engine.getMetricsHistory (Some 2%Z) (fst (Scenario.slowTyping 10)))
  = 2%nat.
Proof.
  split; [lia|].
  rewrite (proj2 (proj1 (proj2 (proj2 (newest_entries_queries
              (fst (Scenario.slowTyping 10)) Scenario.smallTracker))) 2%Z
              ltac:(lia))).
  vm_compute. reflexivity.
Defined.

(** A click in a second context, 40 s after the first. *)
Lemma recorded_switch_reason_witness :
  let t := fst (Run.actions [Steps.clickIn 0 "editor"]
                  (Tracker.fresh (Tracker.constructorConfig Tracker.noOverride) 0)
                  Scenario.world) in
  let t' := fst (Tracker.recordAction (Steps.clickIn 40000 "terminal") t
                   Scenario.world) in
  1 <= Tracker.focusLossThreshold (Tracker.config t) /\
  Tracker.currentContext t <> "" /\
  Tracker.candidateContext (Steps.clickIn 40000 "terminal") = Some "terminal" /\
  "terminal" <> Tracker.currentContext t /\
  Tracker.currentContext t' = "terminal" /\
  map Tracker.switchReason (Tracker.contextSwitches t') = ["manual"].
Proof.
  cbv zeta.
  split; [vm_compute; discriminate|].
  split; [vm_compute; discriminate|].
  split; [reflexivity|].
  split; [vm_compute; discriminate|].
  split; [|reflexivity].
  apply (recorded_switch_reason
           (fst (Run.actions [Steps.clickIn 0 "editor"]
                   (Tracker.fresh
                      (Tracker.constructorConfig Tracker.noOverride) 0)
                   Scenario.world))
           (Steps.clickIn 40000 "terminal") Scenario.world "terminal").
  - vm_compute; discriminate.
  - vm_compute; discriminate.
  - reflexivity.
  - vm_compute; discriminate.
Defined.

(** Three switches give two closed focus segments. *)
Lemma focus_segments_follow_switches_witness :
  0 <= Tracker.focusLossThreshold (Tracker.constructorConfig Tracker.noOverride) /\
  length (Tracker.focusSegments
            (fst (Run.actions Scenario.threeSwitches
                    (Tracker.fresh
                       (Tracker.constructorConfig Tracker.noOverride) 0)
                    Scenario.world)))
  = 2%nat.
Proof.
  split; [vm_compute; discriminate|].
  apply (focus_segments_follow_switches
           (Tracker.constructorConfig Tracker.noOverride) 0
           Scenario.threeSwitches Scenario.world).
  vm_compute; discriminate.
Defined.

(** Four buffered keystrokes and a buffer size lowered from 50 to 2. *)
Lemma lowered_bufferSize_flushes_witness :
  let lowered := Tracker.updateConfig (Scenario.override 2) Steps.fourBuffered in
  let t' := fst (Tracker.recordAction (Scenario.keystrokeAt 400) lowered
                   Scenario.world) in
  Tracker.actionBuffer Steps.fourBuffered <> [] /\
  2 <= JS.len (Tracker.actionBuffer Steps.fourBuffered) /\
  Tracker.actionBuffer t' = [] /\
  map (fun s => length (Tracker.actions s)) (Tracker.sequences t') = [4%nat].
Proof.
  cbv zeta.
  split; [vm_compute; discriminate|].
  split; [vm_compute; discriminate|].
  split; [|reflexivity].
  apply (lowered_bufferSize_flushes Steps.fourBuffered (Scenario.keystrokeAt 400)
           Scenario.world 2).
  - vm_compute; discriminate.
  - vm_compute; discriminate.
Defined.

(** Three recorded switches: two by file, one manual. *)
Lemma contextSwitchStatistics_sound_witness :
  Tracker.contextSwitches Stats.fourSwitches <> [] /\
  In (Tracker.mostFrequentReason
        (Tracker.getContextSwitchStatistics Stats.fourSwitches))
     (map Tracker.switchReason (Tracker.contextSwitches Stats.fourSwitches)) /\
  Tracker.mostFrequentReason
    (Tracker.getContextSwitchStatistics Stats.fourSwitches) = "file_switch" /\
  Tracker.contexts (Tracker.getContextSwitchStatistics Stats.fourSwitches)
  = ["a.ts"; "file2.ts"; "terminal"; "file1.ts"].
Proof.
  split; [vm_compute; discriminate|].
  split; [|split; vm_compute; reflexivity].
  refine (proj1 (proj1 (proj2 (contextSwitchStatistics_sound Stats.fourSwitches))
                       _)).
  vm_compute; discriminate.
Defined.


(** Three keystrokes after a context switch. *)
Lemma three_keystrokes_continuous_typing_witness :
  let acts := [Scenario.switchTo 0 "a.ts" "manual"]
              ++ [Scenario.keystrokeAt 100; Scenario.keystrokeAt 200;
                  Scenario.keystrokeAt 300] ++ [] in
  Interfaces.type (Scenario.keystrokeAt 100) = Interfaces.KEYSTROKE /\
  Tracker.extractSequencePatterns acts
  = ["continuous_typing"; "rapid_sequence"; "mixed_context"] /\
  hd "" (Tracker.extractSequencePatterns acts) = "continuous_typing".
Proof.
  cbv zeta. split; [reflexivity|]. split; [reflexivity|].
  apply (three_keystrokes_continuous_typing
           [Scenario.switchTo 0 "a.ts" "manual"] []
           (Scenario.keystrokeAt 100) (Scenario.keystrokeAt 200)
           (Scenario.keystrokeAt 300)); reflexivity.
Defined.

(** A statistic of 2 against one of -3. *)
Lemma calculatePValue_monotone_witness :
  JS.abs 2 <= JS.abs (- (3)) /\
  Tracker.calculatePValue (- (3)) 8 <= Tracker.calculatePValue 2 8.
Proof.
  split; [vm_compute; discriminate|].
  apply (calculatePValue_monotone 2 (- (3)) 8 8).
  vm_compute; discriminate.
Defined.

(** The six sample sequences under a threshold of 0.01. *)
Lemma detectPatternChanges_shape_witness :
  let t := Tracker.updateConfig
             {| Tracker.optBufferSize := None;
                Tracker.optContextSwitchThreshold := None;
                Tracker.optFocusLossThreshold := None;
                Tracker.optPatternChangeThreshold := Some (1 # 100) |}
             Scenario.sixSequences in
  Tracker.patternChangeThreshold (Tracker.config t) <= 1 # 100 /\
  fst (Tracker.detectPatternChanges Scenario.sqrtFloor t Scenario.world) = [].
Proof.
  cbv zeta. split; [vm_compute; discriminate|].
  apply (detectPatternChanges_shape Scenario.sqrtFloor).
  vm_compute; discriminate.
Defined.


(** Two closed segments, selected by "all" and by the empty id. *)
Lemma analyzeFocusPatterns_selection_witness :
  let t := fst (Run.actions Scenario.threeSwitches
                  (Tracker.fresh (Tracker.constructorConfig Tracker.noOverride) 0)
                  Scenario.world) in
  ("all" = "all" \/ "all" = "") /\
  length (Tracker.focusSegmentsOf (Tracker.analyzeFocusPatterns "all" t))
  = 2%nat /\
  Tracker.focusSegmentsOf (Tracker.analyzeFocusPatterns "" t)
  = Tracker.focusSegments t.
Proof.
  cbv zeta. split; [left; reflexivity|]. split; [reflexivity|].
  destruct (analyzeFocusPatterns_selection ""
              (fst (Run.actions Scenario.threeSwitches
                      (Tracker.fresh
                         (Tracker.constructorConfig Tracker.noOverride) 0)
                      Scenario.world))) as (_ & S & _ & _ & A & _).
  rewrite S. apply A. right. reflexivity.
Defined.

(** The six sample keystrokes give five intervals. *)
Lemma rhythm_statistics_need_history_witness :
  (length (Keystroke.timingBuffer Scenario.typed) <= 5)%nat /\
  Keystroke.rhythmConsistency
    (Keystroke.analyzeStatistics Scenario.sqrtFloor Scenario.typed) = 0 /\
  length (Keystroke.rhythm (Keystroke.extractTimingPatterns Scenario.typed))
  = 1%nat.
Proof.
  split; [vm_compute; lia|]. split; [|reflexivity].
  apply (rhythm_statistics_need_history Scenario.sqrtFloor Scenario.typed).
  vm_compute; lia.
Defined.

(** The context "src/app.test.ts" has the file type "ts". *)
Lemma createContextSnapshot_fields_witness :
  Tracker.currentContext Chain.inFile = ("src/app.test" ++ "." ++ "ts")%string /\
  Chain.dotless "ts" = true /\
  Interfaces.fileType
    (fst (Tracker.createContextSnapshot Chain.inFile Scenario.world)) = "ts" /\
  Tracker.focusSegments Chain.inFile = [] /\
  Interfaces.sessionDuration
    (fst (Tracker.createContextSnapshot Chain.inFile Scenario.world)) = 0.
Proof.
  split; [reflexivity|]. split; [reflexivity|]. split; [|split; [reflexivity|]].
  - apply (proj1 (proj2 (proj2 (createContextSnapshot_fields Chain.inFile
              Scenario.world))) "src/app.test" "ts"); reflexivity.
  - rewrite (proj1 (proj2 (proj2 (proj2 (proj2 (createContextSnapshot_fields
               Chain.inFile Scenario.world)))))) by reflexivity.
    reflexivity.
Defined.

(** The newest of the sample switches leads to the current context. *)
Lemma switch_history_chained_witness :
  let t := fst (Run.actions Scenario.threeSwitches
                  (Tracker.fresh (Tracker.constructorConfig Tracker.noOverride) 0)
                  Scenario.world) in
  map (fun cs => (Tracker.fromContext cs, Tracker.toContext cs))
      (Tracker.contextSwitches t)
  = [("file2.ts", "terminal"); ("terminal", "file1.ts")] /\
  Chain.linked (Tracker.contextSwitches t).
Proof.
  cbv zeta. split; [reflexivity|].
  apply (switch_history_chained
           (Tracker.constructorConfig Tracker.noOverride) 0
           Scenario.threeSwitches Scenario.world).
Defined.
